(** * The log-analysis pipeline of [main.py]: cleaning, reshaping, filtering

    The program is a handful of calls into a data-frame library.  This file
    gives those calls a small executable semantics (a table is a list of
    labelled columns, tables live in a store of mutable objects) and writes
    [clean_and_transform], [reshape_data] and [filter_data] over it, line by
    line as in the source.

    Conventions of the model:
    - a cell is missing ([NaN]), an integer, a text or a timestamp (kept to
      the day: only its month is read); fractional numbers do not occur in
      the columns the pipeline reads, and a count is an integer whether the
      library stores it as one or as a float;
    - a label is a cell value (the pivot makes labels out of cell values);
    - the labels of a table read from a CSV file are distinct (the reader
      renames repeated headers); looking a label up takes its first column;
    - a column has no type of its own: the join refuses a key column of
      numbers against a key column of texts where the cells show it, and
      goes on where they do not (an empty column, a column of missing
      cells);
    - a date text is read in the layout the specification names, day, month
      and four-digit year separated by "-", each cell on its own; the other
      layouts the library accepts, and its reading of a whole column in the
      layout of its first text, are outside the model, so the statements
      about the matrix speak of the months the step has written into the
      merged table, not of the date texts;
    - an object is named by a reference into the store; a step that raises
      keeps the writes made before the error. *)

From Stdlib Require Import ZArith String Ascii DecimalString.
From stdpp Require Import gmap strings list sorting.

Open Scope Z_scope.

(** ** Cells, labels, tables *)

Inductive value :=
| NaN
| Int (z : Z)
| Str (s : string)
| Timestamp (y m d : Z).

#[global] Instance value_eq_dec : EqDecision value.
Proof. solve_decision. Defined.

Definition label := value.

Definition column : Type := label * list value.

(** [df_index] holds the named index levels of a pivot table; it is empty for
    a table with the default positional index. *)
Record DataFrame := mkFrame {
  df_len : nat;
  df_index : list column;
  df_cols : list column
}.

#[global] Instance DataFrame_eq_dec : EqDecision DataFrame.
Proof. solve_decision. Defined.

Definition columns (df : DataFrame) : list label := fst <$> df_cols df.

(** A cell that is not there reads as missing. *)
Definition at_row (i : nat) (d : list value) : value := default NaN (d !! i).

Definition gather (idxs : list nat) (d : list value) : list value :=
  (λ i, at_row i d) <$> idxs.

Definition normalise (n : nat) (d : list value) : list value :=
  gather (seq 0 n) d.

Fixpoint assoc (l : label) (cs : list column) : option (list value) :=
  match cs with
  | [] => None
  | c :: cs' => if decide (c.1 = l) then Some c.2 else assoc l cs'
  end.

Definition cell (df : DataFrame) (l : label) (r : nat) : value :=
  match assoc l (df_cols df) with
  | Some d => at_row r d
  | None => NaN
  end.

Definition row_at (df : DataFrame) (r : nat) : list value :=
  (λ c : column, at_row r c.2) <$> df_cols df.

Definition rows (df : DataFrame) : list (list value) :=
  row_at df <$> seq 0 (df_len df).

(** ** Errors and the store of tables *)

Inductive error :=
| KeyError (l : label)
| NotUnique (l : label)
| DateParseError (v : value)
| AlreadyExists (l : label)
| TypeError
| KeyTypeError
| MergeError (l : label)
| Dangling.

Inductive result (A : Type) :=
| Ok (a : A)
| Err (e : error).
Arguments Ok {A} a.
Arguments Err {A} e.

Definition result_bind {A B} (r : result A) (k : A → result B) : result B :=
  match r with
  | Ok a => k a
  | Err e => Err e
  end.

(** Apply [f] to the elements from the left; the first error stops. *)
Fixpoint traverse {A B} (f : A → result B) (l : list A) : result (list B) :=
  match l with
  | [] => Ok []
  | x :: l' =>
      result_bind (f x) (λ y,
      result_bind (traverse f l') (λ ys, Ok (y :: ys)))
  end.

Definition ref := nat.

Abbreviation heap := (gmap nat DataFrame).

(** A computation reads and writes the store; a raised error keeps the
    writes made before it. *)
Definition M (A : Type) : Type := heap → result A * heap.

Definition ret {A} (a : A) : M A := λ h, (Ok a, h).

Definition bind {A B} (c : M A) (k : A → M B) : M B :=
  λ h, match c h with
       | (Ok a, h') => k a h'
       | (Err e, h') => (Err e, h')
       end.

Definition lift {A} (r : result A) : M A := λ h, (r, h).

Declare Scope py_scope.
Delimit Scope py_scope with py.
Notation "x <~ c ;; k" := (bind c (λ x, k))
  (at level 100, c at next level, right associativity) : py_scope.
Notation "c ;;; k" := (bind c (λ _, k))
  (at level 100, right associativity) : py_scope.
Open Scope py_scope.

Definition load (r : ref) : M DataFrame :=
  λ h, match h !! r with
       | Some df => (Ok df, h)
       | None => (Err Dangling, h)
       end.

Definition store (r : ref) (df : DataFrame) : M () :=
  λ h, (Ok (), <[r := df]> h).

Definition alloc (df : DataFrame) : M ref :=
  λ h, let r := fresh (dom h) in (Ok r, <[r := df]> h).

(** ** Library operations on one table *)

(** [df[l]] *)
Definition getitem (df : DataFrame) (l : label) : result (list value) :=
  match assoc l (df_cols df) with
  | Some d => Ok (normalise (df_len df) d)
  | None => Err (KeyError l)
  end.

(** [s.isin(vs)] *)
Definition isin (d : list value) (vs : list value) : list bool :=
  (λ v, bool_decide (v ∈ vs)) <$> d.

Fixpoint true_positions (n : nat) (mask : list bool) : list nat :=
  match mask with
  | [] => []
  | b :: mask' =>
      if b then n :: true_positions (S n) mask' else true_positions (S n) mask'
  end.

Definition take_rows (idxs : list nat) (df : DataFrame) : DataFrame :=
  {| df_len := length idxs;
     df_index := (λ c : column, (c.1, gather idxs c.2)) <$> df_index df;
     df_cols := (λ c : column, (c.1, gather idxs c.2)) <$> df_cols df |}.

(** [df[mask]] with a boolean mask *)
Definition mask_rows (mask : list bool) (df : DataFrame) : DataFrame :=
  take_rows (true_positions 0 mask) df.

(** [df[[l1, l2, ...]]] for the labels of [df] that satisfy [keep] *)
Definition keep_columns (keep : label → bool) (df : DataFrame) : DataFrame :=
  {| df_len := df_len df;
     df_index := df_index df;
     df_cols := filter (λ c : column, keep c.1 = true) (df_cols df) |}.

(** [df.rename(columns={old: new})]: a label that is absent is ignored. *)
Definition rename_columns (old new : label) (df : DataFrame) : DataFrame :=
  {| df_len := df_len df;
     df_index := df_index df;
     df_cols := (λ c : column, (if decide (c.1 = old) then new else c.1, c.2))
                  <$> df_cols df |}.

(** [df[l] = d]: replaces the column when the label exists, appends it
    otherwise. *)
Definition setitem (l : label) (d : list value) (df : DataFrame) : DataFrame :=
  {| df_len := df_len df;
     df_index := df_index df;
     df_cols :=
       match assoc l (df_cols df) with
       | Some _ => (λ c : column, if decide (c.1 = l) then (l, d) else c)
                     <$> df_cols df
       | None => df_cols df ++ [(l, d)]
       end |}.

(** [df.rename(columns={old: new}, inplace=True)] *)
Definition rename_inplace (r : ref) (old new : label) : M () :=
  df <~ load r ;;
  store r (rename_columns old new df).

(** [df[l] = d] on the object itself *)
Definition setitem_inplace (r : ref) (l : label) (d : list value) : M () :=
  df <~ load r ;;
  store r (setitem l d df).

(** ** Joining two tables: [pd.merge(left, right, on=key)] *)

(** The key must name exactly one column of the table. *)
Definition key_column (df : DataFrame) (key : label) : result (list value) :=
  match filter (λ c : column, c.1 = key) (df_cols df) with
  | [] => Err (KeyError key)
  | [c] => Ok (normalise (df_len df) c.2)
  | _ => Err (NotUnique key)
  end.

Fixpoint positions_from (n : nat) (v : value) (d : list value) : list nat :=
  match d with
  | [] => []
  | x :: d' =>
      if decide (x = v) then n :: positions_from (S n) v d'
      else positions_from (S n) v d'
  end.

(** Inner join: every left row, in order, paired with the right rows that
    carry the same key, in order.  A missing key matches a missing key. *)
Fixpoint join_from (n : nat) (lk rk : list value) : list (nat * nat) :=
  match lk with
  | [] => []
  | x :: lk' => (pair n <$> positions_from 0 x rk) ++ join_from (S n) lk' rk
  end.

Definition join_indexers (lk rk : list value) : list (nat * nat) :=
  join_from 0 lk rk.

Definition pad2 (z : Z) : string :=
  let s := NilZero.string_of_int (Z.to_int z) in
  if (z <? 10) && (0 <=? z) then String "0" s else s.

(** The text of a label, as string formatting prints it. *)
Definition label_text (l : label) : string :=
  match l with
  | NaN => "nan"
  | Int z => NilZero.string_of_int (Z.to_int z)
  | Str s => s
  | Timestamp y m d =>
      NilZero.string_of_int (Z.to_int y) +:+ "-" +:+ pad2 m +:+ "-" +:+ pad2 d
        +:+ " 00:00:00"
  end.

(** A label carried by both tables (the key apart) gets the side's suffix. *)
Definition suffixed (sfx : string) (others : list label) (l : label) : label :=
  if bool_decide (l ∈ others) then Str (label_text l +:+ sfx) else l.

Definition drop_column (key : label) (df : DataFrame) : DataFrame :=
  keep_columns (λ l, bool_decide (l ≠ key)) df.

(** The library refuses to join a column of numbers with a column of texts
    (it raises a value error: "You are trying to merge on int64 and object
    columns").  A column read from a CSV file holds numbers (and missing
    cells) or texts (and missing cells); the refusal is modelled where the
    cells show it: one key column holds a number and no text, the other a
    text and no number.  Where the cells do not show the type of a column (it
    is empty, or all its cells are missing) the model goes on. *)
Definition is_int (v : value) : bool :=
  match v with Int _ => true | _ => false end.

Definition is_str (v : value) : bool :=
  match v with Str _ => true | _ => false end.

Definition has_int (d : list value) : bool := existsb is_int d.

Definition has_str (d : list value) : bool := existsb is_str d.

Definition number_key (d : list value) : bool := has_int d && negb (has_str d).

Definition text_key (d : list value) : bool := has_str d && negb (has_int d).

Definition keys_clash (lk rk : list value) : bool :=
  (number_key lk && text_key rk) || (text_key lk && number_key rk).

(** The labels a suffix has turned into a repetition of an earlier label of
    the same side (a label that was already repeated before is not
    reported). *)
Fixpoint new_duplicates (old_seen new_seen old new : list label) : list label :=
  match old, new with
  | o :: old', n :: new' =>
      (if bool_decide (n ∈ new_seen) && negb (bool_decide (o ∈ old_seen))
       then [n] else [])
      ++ new_duplicates (o :: old_seen) (n :: new_seen) old' new'
  | _, _ => []
  end.

Definition suffix_duplicates (left right : list label) : list label :=
  new_duplicates [] [] left (suffixed "_x" right <$> left)
  ++ new_duplicates [] [] right (suffixed "_y" left <$> right).

(** The joined table: the left columns, then the right columns without the
    key, each gathered along its side of the indexers.  The key columns are
    looked up first, then their types are compared, then the labels are
    suffixed. *)
Definition merge_frames (left right : DataFrame) (key : label)
  : result DataFrame :=
  match key_column right key with
  | Err e => Err e
  | Ok rk =>
      match key_column left key with
      | Err e => Err e
      | Ok lk =>
          if keys_clash lk rk then Err KeyTypeError
          else
            match suffix_duplicates (columns left)
                    (columns (drop_column key right)) with
            | l :: _ => Err (MergeError l)
            | [] =>
                let ix := join_indexers lk rk in
                let right' := drop_column key right in
                Ok {| df_len := length ix;
                      df_index := [];
                      df_cols :=
                        ((λ c : column,
                            (suffixed "_x" (columns right') c.1,
                             gather ix.*1 c.2))
                           <$> df_cols left)
                        ++ ((λ c : column,
                               (suffixed "_y" (columns left) c.1,
                                gather ix.*2 c.2))
                              <$> df_cols right') |}
            end
      end
  end.

(** [pd.merge(left, right, on=key)] on two objects of the store: a new
    object. *)
Definition merge (left right : ref) (key : label) : M ref :=
  l <~ load left ;;
  r <~ load right ;;
  m <~ lift (merge_frames l r key) ;;
  alloc m.

(** ** Dates: [pd.to_datetime(s, dayfirst=True)] and [s.dt.month]

    The library prefers the day first but is not strict: a text that is no
    date day first it may read month first or in another layout, and it
    reads a whole column in the layout of its first text.  The model reads
    the layout of the specification only, each cell on its own.  So a
    property that needs the reading to fail names texts that no reading
    accepts ([no_calendar_date]), and a property about months reads them off
    the [Month] column the program writes. *)

Definition digit_of (a : ascii) : option Z :=
  let n := Z.of_N (N_of_ascii a) in
  if (48 <=? n) && (n <=? 57) then Some (n - 48) else None.

Fixpoint number_from (acc : Z) (s : string) : option Z :=
  match s with
  | EmptyString => Some acc
  | String a s' =>
      match digit_of a with
      | Some d => number_from (10 * acc + d) s'
      | None => None
      end
  end.

Fixpoint split_on (sep : ascii) (s : string) : list string :=
  match s with
  | EmptyString => [EmptyString]
  | String a s' =>
      if decide (a = sep) then EmptyString :: split_on sep s'
      else match split_on sep s' with
           | [] => [String a EmptyString]
           | w :: ws => String a w :: ws
           end
  end.

Definition leap_year (y : Z) : bool :=
  ((y mod 4 =? 0) && negb (y mod 100 =? 0)) || (y mod 400 =? 0).

Definition days_in_month (y m : Z) : Z :=
  if m =? 2 then (if leap_year y then 29 else 28)
  else if (m =? 4) || (m =? 6) || (m =? 9) || (m =? 11) then 30
  else 31.

Definition date_leb (a b : Z * Z * Z) : bool :=
  let '(y1, m1, d1) := a in
  let '(y2, m2, d2) := b in
  (y1 <? y2) || ((y1 =? y2) && ((m1 <? m2) || ((m1 =? m2) && (d1 <=? d2)))).

(** A calendar date a timestamp can hold (midnights from 1677-09-22 to
    2262-04-11). *)
Definition valid_date (y m d : Z) : bool :=
  (1 <=? m) && (m <=? 12) && (1 <=? d) && (d <=? days_in_month y m)
  && date_leb (1677, 9, 22) (y, m, d) && date_leb (y, m, d) (2262, 4, 11).

(** The layout of the specification (§4.3), day first: one or two digits of
    day, of month, four of year, separated by "-". *)
Definition parse_dayfirst (s : string) : option (Z * Z * Z) :=
  match split_on "-" s with
  | [ds; ms; ys] =>
      if bool_decide (1 ≤ String.length ds ≤ 2)%nat
         && bool_decide (1 ≤ String.length ms ≤ 2)%nat
         && bool_decide (String.length ys = 4%nat)
      then
        match number_from 0 ds, number_from 0 ms, number_from 0 ys with
        | Some d, Some m, Some y =>
            if valid_date y m d then Some (y, m, d) else None
        | _, _, _ => None
        end
      else None
  | _ => None
  end.

(** A text in that layout that names no calendar date, whichever of its
    first two numbers is taken for the day: "31-02-2024" is one,
    "03-13-2024" is not (it is the 13th of March, month first). *)
Definition calendar_date (y m d : Z) : bool :=
  (1 <=? m) && (m <=? 12) && (1 <=? d) && (d <=? days_in_month y m).

Definition no_calendar_date (s : string) : bool :=
  match split_on "-" s with
  | [ds; ms; ys] =>
      bool_decide (1 ≤ String.length ds ≤ 2)%nat
      && bool_decide (1 ≤ String.length ms ≤ 2)%nat
      && bool_decide (String.length ys = 4%nat)
      && match number_from 0 ds, number_from 0 ms, number_from 0 ys with
         | Some d, Some m, Some y =>
             negb (calendar_date y m d) && negb (calendar_date y d m)
         | _, _, _ => false
         end
  | _ => false
  end.

(** The calendar date of a day count from 1970-01-01. *)
Definition civil_from_days (days : Z) : Z * Z * Z :=
  let z := days + 719468 in
  let era := z / 146097 in
  let doe := z - era * 146097 in
  let yoe := (doe - doe / 1460 + doe / 36524 - doe / 146096) / 365 in
  let doy := doe - (365 * yoe + yoe / 4 - yoe / 100) in
  let mp := (5 * doy + 2) / 153 in
  let d := doy - (153 * mp + 2) / 5 + 1 in
  let m := if mp <? 10 then mp + 3 else mp - 9 in
  let y := yoe + era * 400 in
  (if m <=? 2 then y + 1 else y, m, d).

(** The texts that stand for a missing date. *)
Definition nat_strings : list string :=
  [EmptyString; "NaT"; "nat"; "NAT"; "nan"; "NaN"; "NAN"]%string.

(** One cell: a missing value becomes the missing date, a number counts
    nanoseconds from 1970-01-01, a text must parse. *)
Definition to_datetime_cell (v : value) : result value :=
  match v with
  | NaN => Ok NaN
  | Timestamp y m d => Ok (Timestamp y m d)
  | Int z =>
      let '(y, m, d) := civil_from_days (z / 86400000000000) in
      Ok (Timestamp y m d)
  | Str s =>
      if bool_decide (s ∈ nat_strings) then Ok NaN
      else match parse_dayfirst s with
           | Some (y, m, d) => Ok (Timestamp y m d)
           | None => Err (DateParseError v)
           end
  end.

(** The whole column: the first cell that does not parse raises. *)
Definition to_datetime (d : list value) : result (list value) :=
  traverse to_datetime_cell d.

(** [s.dt.month] *)
Definition dt_month (v : value) : value :=
  match v with
  | Timestamp _ m _ => Int m
  | _ => NaN
  end.

(** ** Pivoting: [df.pivot_table(index, columns, values, aggfunc='count')] *)

Definition kind_rank (v : value) : Z :=
  match v with
  | Int _ => 0
  | Timestamp _ _ _ => 1
  | Str _ => 2
  | NaN => 3
  end.

(** The order group keys are sorted in: numbers before texts. *)
Definition value_leb (a b : value) : bool :=
  match a, b with
  | Int x, Int y => x <=? y
  | Str s, Str t =>
      match String.compare s t with
      | Gt => false
      | _ => true
      end
  | Timestamp y1 m1 d1, Timestamp y2 m2 d2 => date_leb (y1, m1, d1) (y2, m2, d2)
  | _, _ => kind_rank a <=? kind_rank b
  end.

Fixpoint tuple_leb (a b : list value) : bool :=
  match a, b with
  | [], _ => true
  | _ :: _, [] => false
  | x :: a', y :: b' => if decide (x = y) then tuple_leb a' b' else value_leb x y
  end.

(** The distinct elements, in order. *)
Definition sorted_unique {A} `{EqDecision A} (leb : A → A → bool) (l : list A)
  : list A :=
  merge_sort (λ x y, Is_true (leb x y)) (remove_dups l).

Definition present (v : value) : bool := bool_decide (v ≠ NaN).

Definition key_tuple (df : DataFrame) (ls : list label) (r : nat) : list value :=
  (λ l, cell df l r) <$> ls.

Fixpoint first_missing (df : DataFrame) (ls : list label) : option label :=
  match ls with
  | [] => None
  | l :: ls' =>
      if bool_decide (l ∈ columns df) then first_missing df ls' else Some l
  end.

(** The rows that enter a group: no grouping key is missing. *)
Definition grouped_rows (df : DataFrame) (keys : list label) : list nat :=
  filter (λ r, forallb present (key_tuple df keys r) = true) (seq 0 (df_len df)).

(** The rows of one group: index tuple [g], column value [c]. *)
Definition group_of (df : DataFrame) (index : list label) (col : label)
    (g : list value) (c : value) : list nat :=
  filter (λ r, key_tuple df index r = g ∧ cell df col r = c)
         (grouped_rows df (index ++ [col])).

(** [count] of a group: its cells of [values] that are not missing. *)
Definition count_of (df : DataFrame) (values : label) (rs : list nat) : nat :=
  length (filter (λ r, present (cell df values r) = true) rs).

(** One row per index tuple, one column per value of [col], both sorted; a
    cell holds the count of its group, and is missing when the group is
    empty. *)
Definition pivot_table (df : DataFrame) (index : list label) (col values : label)
  : result DataFrame :=
  match first_missing df (values :: index ++ [col]) with
  | Some l => Err (KeyError l)
  | None =>
      let rs := grouped_rows df (index ++ [col]) in
      let groups := sorted_unique tuple_leb (key_tuple df index <$> rs) in
      let heads := sorted_unique value_leb ((λ r, cell df col r) <$> rs) in
      Ok {| df_len := length groups;
            df_index := imap (λ k l, (l, (λ g, at_row k g) <$> groups)) index;
            df_cols :=
              (λ c, (c, (λ g, match group_of df index col g c with
                               | [] => NaN
                               | rs' => Int (Z.of_nat (count_of df values rs'))
                               end) <$> groups)) <$> heads |}
  end.

(** [df.fillna(v)] *)
Definition fillna (v : value) (df : DataFrame) : DataFrame :=
  {| df_len := df_len df;
     df_index := df_index df;
     df_cols := (λ c : column, (c.1, (λ x, if decide (x = NaN) then v else x) <$> c.2))
                  <$> df_cols df |}.

(** The index levels go in front of the columns, the last level first; a
    level whose name is already a column cannot be inserted. *)
Fixpoint insert_front (levels : list column) (cols : list column)
  : result (list column) :=
  match levels with
  | [] => Ok cols
  | c :: rest =>
      if bool_decide (c.1 ∈ cols.*1) then Err (AlreadyExists c.1)
      else insert_front rest (c :: cols)
  end.

(** [df.reset_index()] of a table with named index levels (the program
    resets only pivot tables). *)
Definition reset_index (df : DataFrame) : result DataFrame :=
  result_bind (insert_front (reverse (df_index df)) (df_cols df)) (λ cols,
  Ok {| df_len := df_len df; df_index := []; df_cols := cols |}).

Definition reset_index_inplace (r : ref) : M () :=
  df <~ load r ;;
  df' <~ lift (reset_index df) ;;
  store r df'.

(** ** Comparing a column with a bound: [s >= b], [s <= b] *)

(** Values of one kind compare; a missing value compares false; two kinds
    do not compare. *)
Definition le_cell (a b : value) : result bool :=
  match a, b with
  | NaN, _ | _, NaN => Ok false
  | Int _, Int _ | Str _, Str _ | Timestamp _ _ _, Timestamp _ _ _ =>
      Ok (value_leb a b)
  | _, _ => Err TypeError
  end.

Definition column_ge (d : list value) (b : value) : result (list bool) :=
  traverse (λ v, le_cell b v) d.

Definition column_le (d : list value) (b : value) : result (list bool) :=
  traverse (λ v, le_cell v b) d.

(** ** The program: [main.py] *)

Definition ANONYMIZED : label := Str "User Full Name *Anonymized".
Definition USER_ID : label := Str "User_ID".
Definition COMPONENT : label := Str "Component".
Definition ACTION : label := Str "Action".
Definition DATE : label := Str "Date".
Definition MONTH : label := Str "Month".

Definition excluded : list value := [Str "System"; Str "Folder"].

(** [clean_and_transform(user_log, activity_log, component_codes)] *)
Definition clean_and_transform (user_log activity_log component_codes : ref)
  : M ref :=
  a <~ load activity_log ;;
  component <~ lift (getitem a COMPONENT) ;;
  activity_log <~ alloc (mask_rows (negb <$> isin component excluded) a) ;;
  rename_inplace user_log ANONYMIZED USER_ID ;;;
  rename_inplace activity_log ANONYMIZED USER_ID ;;;
  merged_data <~ merge user_log activity_log USER_ID ;;
  ret merged_data.

(** [reshape_data(merged_data)] *)
Definition reshape_data (merged_data : ref) : M ref :=
  df <~ load merged_data ;;
  date <~ lift (getitem df DATE) ;;
  parsed <~ lift (to_datetime date) ;;
  setitem_inplace merged_data DATE parsed ;;;
  df <~ load merged_data ;;
  date <~ lift (getitem df DATE) ;;
  setitem_inplace merged_data MONTH (dt_month <$> date) ;;;
  df <~ load merged_data ;;
  table <~ lift (pivot_table df [USER_ID; MONTH] COMPONENT ACTION) ;;
  pivot <~ alloc (fillna (Int 0) table) ;;
  reset_index_inplace pivot ;;;
  ret pivot.

(** Python's truth value of an optional list: [None] and [[]] are false. *)
Definition truthy {A} (o : option (list A)) : bool :=
  match o with
  | Some (_ :: _) => true
  | _ => false
  end.

(** Lines 82 and 83: [if user_ids: ...] *)
Definition filter_user_ids (user_ids : option (list value))
    (filtered_data : DataFrame) : result DataFrame :=
  if truthy user_ids then
    result_bind (getitem filtered_data USER_ID) (λ ids,
    Ok (mask_rows (isin ids (default [] user_ids)) filtered_data))
  else Ok filtered_data.

(** Lines 84 and 85: [if components: ...] *)
Definition filter_components (components : option (list value))
    (filtered_data : DataFrame) : result DataFrame :=
  if truthy components then
    Ok (keep_columns
          (λ col, bool_decide (col ∈ default [] components)
                  || bool_decide (col ∈ [USER_ID; MONTH]))
          filtered_data)
  else Ok filtered_data.

(** Lines 86 to 88: [if date_range: ...] *)
Definition filter_date_range (date_range : option (value * value))
    (filtered_data : DataFrame) : result DataFrame :=
  match date_range with
  | Some (start_date, end_date) =>
      result_bind (getitem filtered_data DATE) (λ dates,
      result_bind (column_ge dates start_date) (λ lo,
      result_bind (getitem filtered_data DATE) (λ dates',
      result_bind (column_le dates' end_date) (λ hi,
      Ok (mask_rows (zip_with andb lo hi) filtered_data)))))
  | None => Ok filtered_data
  end.

(** The three stages in the order of the source. *)
Definition filter_stages (user_ids components : option (list value))
    (date_range : option (value * value)) (data : DataFrame) : result DataFrame :=
  result_bind (filter_user_ids user_ids data) (λ filtered_data,
  result_bind (filter_components components filtered_data)
    (filter_date_range date_range)).

(** [filter_data(data, user_ids, components, date_range)]: the copy of line
    81 is the table read from the store, the result is a new object. *)
Definition filter_data (data : ref) (user_ids components : option (list value))
    (date_range : option (value * value)) : M ref :=
  filtered_data <~ load data ;;
  filtered_data <~ lift (filter_user_ids user_ids filtered_data) ;;
  filtered_data <~ lift (filter_components components filtered_data) ;;
  filtered_data <~ lift (filter_date_range date_range filtered_data) ;;
  alloc filtered_data.

(** The rows line 22 keeps. *)
Definition kept_activity (A : DataFrame) (component : list value) : DataFrame :=
  mask_rows (negb <$> isin component excluded) A.

(** Lines 30 and 31 on the table itself: [Date] parsed, [Month] set. *)
Definition with_month (df : DataFrame) : result DataFrame :=
  result_bind (getitem df DATE) (λ date,
  result_bind (to_datetime date) (λ parsed,
  let df1 := setitem DATE parsed df in
  result_bind (getitem df1 DATE) (λ date',
  Ok (setitem MONTH (dt_month <$> date') df1)))).

(** Lines 33 and 34 on the table itself. *)
Definition pivot_counts (df : DataFrame) : result DataFrame :=
  result_bind (pivot_table df [USER_ID; MONTH] COMPONENT ACTION) (λ table,
  reset_index (fillna (Int 0) table)).

(** ** The scenario of the specification (§8) *)

(** Users 1 and 2; for user 1 three Quiz and two System actions in March,
    for user 2 one Quiz action in March. *)
Definition scenario_users : DataFrame :=
  {| df_len := 2;
     df_index := [];
     df_cols := [(ANONYMIZED, [Int 1; Int 2]);
                 (Str "Country", [Str "NL"; Str "BE"])] |}.

Definition scenario_activity : DataFrame :=
  {| df_len := 6;
     df_index := [];
     df_cols :=
       [(ANONYMIZED, [Int 1; Int 1; Int 1; Int 1; Int 1; Int 2]);
        (COMPONENT, [Str "Quiz"; Str "System"; Str "Quiz"; Str "System";
                     Str "Quiz"; Str "Quiz"]);
        (ACTION, [Str "Viewed"; Str "Viewed"; Str "Attempted"; Str "Logged";
                  Str "Submitted"; Str "Viewed"]);
        (DATE, [Str "01-03-2024"; Str "02-03-2024"; Str "05-03-2024";
                Str "05-03-2024"; Str "17-03-2024"; Str "09-03-2024"])] |}.

Definition scenario_codes : DataFrame :=
  {| df_len := 1;
     df_index := [];
     df_cols := [(Str "Code", [Int 7]); (Str "Name", [Str "Quiz"])] |}.

(** The store after [load_data]: the three tables at 0, 1 and 2. *)
Definition scenario_heap : heap :=
  <[2%nat := scenario_codes]>
    (<[1%nat := scenario_activity]> (<[0%nat := scenario_users]> ∅)).

Definition scenario_merged : DataFrame :=
  {| df_len := 4;
     df_index := [];
     df_cols :=
       [(USER_ID, [Int 1; Int 1; Int 1; Int 2]);
        (Str "Country", [Str "NL"; Str "NL"; Str "NL"; Str "BE"]);
        (COMPONENT, [Str "Quiz"; Str "Quiz"; Str "Quiz"; Str "Quiz"]);
        (ACTION, [Str "Viewed"; Str "Attempted"; Str "Submitted"; Str "Viewed"]);
        (DATE, [Str "01-03-2024"; Str "05-03-2024"; Str "17-03-2024";
                Str "09-03-2024"])] |}.

Definition scenario_matrix : DataFrame :=
  {| df_len := 2;
     df_index := [];
     df_cols := [(USER_ID, [Int 1; Int 2]);
                 (MONTH, [Int 3; Int 3]);
                 (Str "Quiz", [Int 3; Int 1])] |}.

(** The store after the cleaning step, and after the reshaping step. *)
Definition scenario_cleaned : heap :=
  (clean_and_transform 0%nat 1%nat 2%nat scenario_heap).2.

Definition scenario_reshaped : heap := (reshape_data 4%nat scenario_cleaned).2.

(** A merged table whose second row has no date. *)
Definition undated_merged : DataFrame :=
  {| df_len := 2;
     df_index := [];
     df_cols := [(USER_ID, [Int 1; Int 2]);
                 (COMPONENT, [Str "Quiz"; Str "Quiz"]);
                 (ACTION, [Str "Viewed"; Str "Viewed"]);
                 (DATE, [Str "01-03-2024"; NaN])] |}.

(** A merged table with the date 31 February. *)
Definition misdated_merged : DataFrame :=
  {| df_len := 2;
     df_index := [];
     df_cols := [(USER_ID, [Int 1; Int 2]);
                 (COMPONENT, [Str "Quiz"; Str "Quiz"]);
                 (ACTION, [Str "Viewed"; Str "Viewed"]);
                 (DATE, [Str "01-03-2024"; Str "31-02-2024"])] |}.

(** The identifier columns a table has once line 23 or 24 has renamed it. *)
Definition identifier_labels (df : DataFrame) : list label :=
  filter (λ l, l = ANONYMIZED ∨ l = USER_ID) (columns df).

(** The store after the three in-place steps of lines 22 to 24. *)
Definition cleaned_store (h : heap) (u : ref) (U A : DataFrame)
    (comp : list value) : heap :=
  <[fresh (dom h) := rename_columns ANONYMIZED USER_ID (kept_activity A comp)]>
    (<[u := rename_columns ANONYMIZED USER_ID U]>
       (<[fresh (dom h) := kept_activity A comp]> h)).

(** The last character of a text, used to tell a suffixed label from a
    plain one. *)
Fixpoint last_char (s : string) : option ascii :=
  match s with
  | EmptyString => None
  | String a EmptyString => Some a
  | String _ s' => last_char s'
  end.

(** The indexers of a join: for each row of the joined table, the left row
    and the right row it is made of. *)
Definition merge_indexers (left right : DataFrame) (key : label)
  : list (nat * nat) :=
  match key_column left key, key_column right key with
  | Ok lk, Ok rk => join_indexers lk rk
  | _, _ => []
  end.

(** The identifier of a row of a raw table: its cell under the
    anonymized-name column, which lines 23 and 24 rename to [User_ID]. *)
Definition identifier (df : DataFrame) (r : nat) : value :=
  cell (rename_columns ANONYMIZED USER_ID df) USER_ID r.

(** The activity row as it enters the joined table: without its identifier. *)
Definition activity_part (A : DataFrame) (j : nat) : list value :=
  row_at (drop_column USER_ID (rename_columns ANONYMIZED USER_ID A)) j.

(** ** What the reshaping step counts *)

(** The month line 31 derives from a [Date] cell that parses. *)
Definition month_of (v : value) : value :=
  match to_datetime_cell v with
  | Ok t => dt_month t
  | Err _ => NaN
  end.

(** The merged rows behind the cells of user [u] in month [mo]: the
    component and the action are recorded. *)
Definition counted_rows (df : DataFrame) (u mo : value) : list nat :=
  filter (λ r, cell df USER_ID r = u ∧ month_of (cell df DATE r) = mo
               ∧ cell df COMPONENT r ≠ NaN ∧ cell df ACTION r ≠ NaN)
         (seq 0 (df_len df)).

(** The (User_ID, Month) pairs of the rows of a matrix. *)
Definition matrix_keys (P : DataFrame) : list (value * value) :=
  (λ k, (cell P USER_ID k, cell P MONTH k)) <$> seq 0 (df_len P).

(** The component cells of a row of a matrix: all but User_ID and Month. *)
Definition component_cells (P : DataFrame) (k : nat) : list value :=
  drop 2 (row_at P k).

Definition cell_sum (vs : list value) : Z :=
  foldr (λ v acc, match v with Int z => z + acc | _ => acc end) 0 vs.

(** The groups and the column heads of the pivot of line 33. *)
Definition pivot_groups (df : DataFrame) : list (list value) :=
  sorted_unique tuple_leb
    (key_tuple df [USER_ID; MONTH]
       <$> grouped_rows df [USER_ID; MONTH; COMPONENT]).

Definition pivot_heads (df : DataFrame) : list value :=
  sorted_unique value_leb
    ((λ r, cell df COMPONENT r) <$> grouped_rows df [USER_ID; MONTH; COMPONENT]).



(** ** Repeated user identifiers *)

(** How many rows of a raw table carry the identifier [v]. *)
Definition occurrences (U : DataFrame) (v : value) : nat :=
  length (filter (λ i, identifier U i = v) (seq 0 (df_len U))).

(** The activity rows of user [u] in month [mo] with component [c]. *)
Definition component_rows (A : DataFrame) (u mo c : value) : list nat :=
  filter (λ j, identifier A j = u ∧ month_of (cell A DATE j) = mo
               ∧ cell A COMPONENT j = c)
         (seq 0 (df_len A)).

(** Those of them whose action is recorded. *)
Definition recorded_rows (A : DataFrame) (u mo c : value) : list nat :=
  filter (λ j, cell A ACTION j ≠ NaN) (component_rows A u mo c).

(** The positions of the activity rows line 22 keeps. *)
Definition kept_positions (A : DataFrame) : list nat :=
  match getitem A COMPONENT with
  | Ok comp => true_positions 0 (negb <$> isin comp excluded)
  | Err _ => []
  end.

(** For each row of the merged table, the user row and the activity row
    (by its position in the table of the caller) it is made of. *)
Definition transform_indexers (U A : DataFrame) : list (nat * nat) :=
  (λ ij : nat * nat, (ij.1, default 0%nat (kept_positions A !! ij.2)))
    <$> merge_indexers (rename_columns ANONYMIZED USER_ID U)
          (rename_columns ANONYMIZED USER_ID (take_rows (kept_positions A) A))
          USER_ID.

(** The matrix lines 33 and 34 make of a table with its [Month] column:
    the groups as rows, [User_ID], [Month] and one count per head as
    columns. *)
Definition matrix_of (df : DataFrame) : DataFrame :=
  {| df_len := length (pivot_groups df);
     df_index := [];
     df_cols :=
       (USER_ID, (λ g, at_row 0 g) <$> pivot_groups df)
       :: (MONTH, (λ g, at_row 1 g) <$> pivot_groups df)
       :: ((λ c, (c, (λ g, Int (Z.of_nat
                              (count_of df ACTION
                                 (group_of df [USER_ID; MONTH] COMPONENT g c))))
                       <$> pivot_groups df))
             <$> pivot_heads df) |}.

(** A user table in which user 1 is listed twice. *)
Definition repeated_users : DataFrame :=
  {| df_len := 3;
     df_index := [];
     df_cols := [(ANONYMIZED, [Int 1; Int 1; Int 2]);
                 (Str "Country", [Str "NL"; Str "NL"; Str "BE"])] |}.

Definition repeated_heap : heap :=
  <[2%nat := scenario_codes]>
    (<[1%nat := scenario_activity]> (<[0%nat := repeated_users]> ∅)).

Definition repeated_cleaned : heap :=
  (clean_and_transform 0%nat 1%nat 2%nat repeated_heap).2.

Definition repeated_reshaped : heap := (reshape_data 4%nat repeated_cleaned).2.

(** An activity table in which one of the two Quiz rows of user 1 has no
    action. *)
Definition unrecorded_activity : DataFrame :=
  {| df_len := 2;
     df_index := [];
     df_cols := [(ANONYMIZED, [Int 1; Int 1]);
                 (COMPONENT, [Str "Quiz"; Str "Quiz"]);
                 (ACTION, [Str "Viewed"; NaN]);
                 (DATE, [Str "01-03-2024"; Str "02-03-2024"])] |}.

Definition unrecorded_heap : heap :=
  <[2%nat := scenario_codes]>
    (<[1%nat := unrecorded_activity]> (<[0%nat := repeated_users]> ∅)).

(** A merged table whose dates were written as the numbers 20240301 and
    20240302. *)
Definition numbered_merged : DataFrame :=
  {| df_len := 2;
     df_index := [];
     df_cols := [(USER_ID, [Int 1; Int 2]);
                 (COMPONENT, [Str "Quiz"; Str "Quiz"]);
                 (ACTION, [Str "Viewed"; Str "Viewed"]);
                 (DATE, [Int 20240301; Int 20240302])] |}.

(** ** Identifiers of one kind *)

(** The identifiers of the two tables are all numbers, or all texts. *)
Definition same_kind_identifiers (U A : DataFrame) : Prop :=
  ((∀ i, (i < df_len U)%nat → is_int (identifier U i) = true)
   ∧ (∀ j, (j < df_len A)%nat → is_int (identifier A j) = true))
  ∨ ((∀ i, (i < df_len U)%nat → is_str (identifier U i) = true)
     ∧ (∀ j, (j < df_len A)%nat → is_str (identifier A j) = true)).

(** The labels the join of line 25 would repeat by suffixing. *)
Definition merge_suffix_duplicates (U A : DataFrame) : list label :=
  suffix_duplicates
    (columns (rename_columns ANONYMIZED USER_ID U))
    (columns (drop_column USER_ID (rename_columns ANONYMIZED USER_ID A))).

(** The activity rows of the scenario with the identifiers written as
    texts that are no numbers. *)
Definition text_activity : DataFrame :=
  {| df_len := 2;
     df_index := [];
     df_cols :=
       [(ANONYMIZED, [Str "u1"; Str "u2"]);
        (COMPONENT, [Str "Quiz"; Str "Quiz"]);
        (ACTION, [Str "Viewed"; Str "Viewed"]);
        (DATE, [Str "01-03-2024"; Str "09-03-2024"])] |}.

Definition mixed_heap : heap :=
  {[ 0%nat := scenario_users; 1%nat := text_activity; 2%nat := scenario_codes ]}.

(** ** Tables for the further properties *)

(** A table that keeps a [Date] column beside its counts (a matrix built
    outside [reshape_data], as [filter_data] allows for). *)
Definition dated_matrix : DataFrame :=
  {| df_len := 3;
     df_index := [];
     df_cols := [(USER_ID, [Int 1; Int 2; Int 3]);
                 (MONTH, [Int 3; Int 3; Int 4]);
                 (DATE, [Timestamp 2024 3 1; Timestamp 2024 3 20;
                         Timestamp 2024 4 2]);
                 (Str "Quiz", [Int 3; Int 1; Int 2])] |}.

(** Whether a date cell lies in the closed range from [lo] to [hi]; a
    missing date lies in no range. *)
Definition in_range (lo hi : Z * Z * Z) (v : value) : bool :=
  match v with
  | Timestamp y m d => date_leb lo (y, m, d) && date_leb (y, m, d) hi
  | _ => false
  end.

Definition is_date (v : value) : Prop :=
  match v with
  | Timestamp _ _ _ | NaN => True
  | _ => False
  end.

(** A merged table without the [Action] column. *)
Definition actionless_merged : DataFrame :=
  {| df_len := 2;
     df_index := [];
     df_cols := [(USER_ID, [Int 1; Int 2]);
                 (COMPONENT, [Str "Quiz"; Str "Wiki"]);
                 (DATE, [Str "01-03-2024"; Str "15-04-2024"])] |}.

(** ** The months the reshaping step writes *)


(** The month the reshaping step gave to activity row [j]: the [Month] of
    the first merged row made of it ([ix] names, for each merged row, its
    user row and its activity row; [df] is the merged table with its
    [Month] column). *)
Definition row_month (ix : list (nat * nat)) (df : DataFrame) (j : nat) : value :=
  match list_find (λ ij : nat * nat, ij.2 = j) ix with
  | Some (r, _) => cell df MONTH r
  | None => NaN
  end.

(** * Properties *)

(** ** Running the store *)

Lemma fresh_lookup (h : heap) : h !! fresh (dom h) = None.
Proof. apply not_elem_of_dom, is_fresh. Qed.

Lemma fresh_ne (h : heap) (r : ref) (df : DataFrame) :
  h !! r = Some df → r ≠ fresh (dom h).
Proof. intros Hr ->. rewrite fresh_lookup in Hr. discriminate. Qed.

(** What [clean_and_transform] does to the store and what it returns. *)
Lemma clean_and_transform_run (u a c : ref) (h : heap) (U A : DataFrame) :
  h !! u = Some U → h !! a = Some A →
  clean_and_transform u a c h =
    match getitem A COMPONENT with
    | Err e => (Err e, h)
    | Ok comp =>
        let a' := fresh (dom h) in
        let A' := rename_columns ANONYMIZED USER_ID (kept_activity A comp) in
        let U' := rename_columns ANONYMIZED USER_ID U in
        let h1 := <[a' := A']> (<[u := U']> (<[a' := kept_activity A comp]> h)) in
        match merge_frames U' A' USER_ID with
        | Err e => (Err e, h1)
        | Ok m => (Ok (fresh (dom h1)), <[fresh (dom h1) := m]> h1)
        end
    end.
Proof.
  intros Hu Ha. pose proof (fresh_ne h u U Hu) as Hne.
  unfold clean_and_transform, bind, load, lift at 1. rewrite Ha.
  destruct (getitem A COMPONENT) as [comp|e]; [|reflexivity].
  unfold alloc at 1, rename_inplace, bind, load, store.
  rewrite lookup_insert_ne by (intros E; apply Hne; symmetry; exact E).
  rewrite Hu, lookup_insert_ne by exact Hne.
  rewrite lookup_insert_eq.
  unfold merge, bind, load, lift, alloc, ret. cbv zeta.
  rewrite lookup_insert_ne by (intros E; apply Hne; symmetry; exact E).
  rewrite lookup_insert_eq, lookup_insert_eq.
  fold (kept_activity A comp).
  destruct (merge_frames _ _ USER_ID); reflexivity.
Qed.

(** What [reshape_data] does to the store and what it returns. *)
Lemma reshape_data_run (m : ref) (h : heap) (df : DataFrame) :
  h !! m = Some df →
  reshape_data m h =
    match with_month df with
    | Err e =>
        match result_bind (getitem df DATE) to_datetime with
        | Err _ => (Err e, h)
        | Ok parsed => (Err e, <[m := setitem DATE parsed df]> h)
        end
    | Ok df2 =>
        let h2 := <[m := df2]> h in
        match pivot_table df2 [USER_ID; MONTH] COMPONENT ACTION with
        | Err e => (Err e, h2)
        | Ok table =>
            let p := fresh (dom h2) in
            match reset_index (fillna (Int 0) table) with
            | Err e => (Err e, <[p := fillna (Int 0) table]> h2)
            | Ok P => (Ok p, <[p := P]> h2)
            end
        end
    end.
Proof.
  intros Hm.
  unfold reshape_data, with_month, bind, load, lift at 1. rewrite Hm.
  destruct (getitem df DATE) as [date|e]; [|reflexivity]. cbn [result_bind].
  unfold lift at 1.
  destruct (to_datetime date) as [parsed|e]; [|reflexivity]. cbn [result_bind].
  unfold setitem_inplace at 1, bind, load, store. rewrite Hm.
  rewrite lookup_insert_eq. unfold lift at 1.
  destruct (getitem (setitem DATE parsed df) DATE) as [date'|e]; [|reflexivity].
  cbn [result_bind].
  unfold setitem_inplace, bind, load, store.
  rewrite !lookup_insert_eq, insert_insert_eq. unfold lift at 1. cbv zeta.
  destruct (pivot_table _ _ _ _) as [table|e]; [|reflexivity].
  unfold alloc, reset_index_inplace, bind, load, lift, store, ret.
  rewrite lookup_insert_eq.
  destruct (reset_index _) as [P|e]; [|reflexivity].
  rewrite insert_insert_eq. reflexivity.
Qed.

(** ** The scenario *)

(** C2: on the scenario of §8 the cleaning step keeps the four Quiz rows and
    drops the two System rows, the reshaping step returns the rows
    (User_ID 1, Month 3, Quiz 3) and (User_ID 2, Month 3, Quiz 1) with no
    other component column, and filtering by the component Quiz returns the
    same two rows under the columns User_ID, Month, Quiz. *)
Theorem scenario_pipeline :
  ∃ (m p f : ref) (h1 h2 h3 : heap),
    clean_and_transform 0%nat 1%nat 2%nat scenario_heap = (Ok m, h1)
    ∧ h1 !! m = Some scenario_merged
    ∧ df_len scenario_merged = (df_len scenario_activity - 2)%nat
    ∧ reshape_data m h1 = (Ok p, h2)
    ∧ h2 !! p = Some scenario_matrix
    ∧ filter_data p None (Some [Str "Quiz"]) None h2 = (Ok f, h3)
    ∧ h3 !! f = Some scenario_matrix
    ∧ columns scenario_matrix = [USER_ID; MONTH; Str "Quiz"]
    ∧ rows scenario_matrix = [[Int 1; Int 3; Int 3]; [Int 2; Int 3; Int 1]].
Proof.
  eexists 4%nat, 5%nat, 6%nat, _, _, _.
  split; [vm_compute; reflexivity|].
  split; [vm_compute; reflexivity|].
  split; [reflexivity|].
  split; [vm_compute; reflexivity|].
  split; [vm_compute; reflexivity|].
  split; [vm_compute; reflexivity|].
  split; [vm_compute; reflexivity|].
  split; reflexivity.
Qed.

(** ** Labels and cells *)

Lemma assoc_None (l : label) (cs : list column) :
  assoc l cs = None ↔ l ∉ cs.*1.
Proof.
  induction cs as [|c cs IH]; simpl.
  - split; [intros _; apply not_elem_of_nil | reflexivity].
  - destruct (decide (c.1 = l)) as [E|N].
    + split; [discriminate|]. intros H. exfalso. apply H. rewrite E. left.
    + rewrite IH, not_elem_of_cons. split; [intros H; split; [congruence|done] | tauto].
Qed.

Lemma assoc_Some (l : label) (cs : list column) (d : list value) :
  assoc l cs = Some d → (l, d) ∈ cs.
Proof.
  induction cs as [|c cs IH]; simpl; [discriminate|].
  destruct (decide (c.1 = l)) as [E|N].
  - intros [= <-]. subst l. destruct c. left.
  - intros H. right. by apply IH.
Qed.

Lemma getitem_missing (df : DataFrame) (l : label) :
  l ∉ columns df → getitem df l = Err (KeyError l).
Proof. intros H. unfold getitem. apply assoc_None in H. by rewrite H. Qed.

Lemma getitem_present (df : DataFrame) (l : label) :
  l ∈ columns df → ∃ d, getitem df l = Ok d.
Proof.
  intros H. unfold getitem. destruct (assoc l (df_cols df)) eqn:E; [eauto|].
  apply assoc_None in E. contradiction.
Qed.

Lemma columns_take_rows (ix : list nat) (df : DataFrame) :
  columns (take_rows ix df) = columns df.
Proof.
  unfold columns, take_rows. simpl. rewrite <- list_fmap_compose.
  apply list_fmap_ext. by intros i [] _.
Qed.

Lemma columns_mask_rows (mask : list bool) (df : DataFrame) :
  columns (mask_rows mask df) = columns df.
Proof. apply columns_take_rows. Qed.

Lemma columns_keep_columns (keep : label → bool) (df : DataFrame) (l : label) :
  l ∈ columns (keep_columns keep df) → l ∈ columns df.
Proof.
  unfold columns, keep_columns. simpl. rewrite !list_elem_of_fmap.
  intros (c & -> & Hc). exists c. split; [done|].
  by apply list_elem_of_filter in Hc as [_ Hc].
Qed.

(** ** Filtering *)

Lemma filter_data_run (h : heap) (d : ref) (df : DataFrame)
    (user_ids components : option (list value))
    (date_range : option (value * value)) :
  h !! d = Some df →
  filter_data d user_ids components date_range h =
    match filter_stages user_ids components date_range df with
    | Ok f => (Ok (fresh (dom h)), <[fresh (dom h) := f]> h)
    | Err e => (Err e, h)
    end.
Proof.
  intros Hd. unfold filter_data, filter_stages, bind, load, lift. rewrite Hd.
  destruct (filter_user_ids user_ids df) as [f1|e]; [|reflexivity].
  cbn [result_bind].
  destruct (filter_components components f1) as [f2|e]; [|reflexivity].
  cbn [result_bind].
  destruct (filter_date_range date_range f2) as [f3|e]; reflexivity.
Qed.


(** C8: a filter with no user identifiers, no components and no date range
    returns a new table with the content of its input, and leaves the input
    as it was. *)
Theorem filter_no_predicates (h : heap) (d : ref) (df : DataFrame)
    (user_ids components : option (list value)) :
  h !! d = Some df →
  truthy user_ids = false →
  truthy components = false →
  ∃ (r : ref) (h' : heap),
    filter_data d user_ids components None h = (Ok r, h')
    ∧ h' !! r = Some df
    ∧ h' !! d = Some df.
Proof.
  intros Hd Hu Hc. exists (fresh (dom h)), (<[fresh (dom h) := df]> h).
  split; [|split].
  - rewrite (filter_data_run h d df) by done.
    unfold filter_stages, filter_user_ids, filter_components.
    rewrite Hu, Hc. reflexivity.
  - apply lookup_insert_eq.
  - rewrite lookup_insert_ne; [done|].
    intros E. eapply fresh_ne; [exact Hd|]. by symmetry.
Qed.

Lemma filter_no_predicates_witness :
  ∃ (r : ref) (h' : heap),
    filter_data 5%nat None (Some []) None scenario_reshaped = (Ok r, h')
    ∧ h' !! r = Some scenario_matrix
    ∧ h' !! 5%nat = Some scenario_matrix.
Proof.
  apply (filter_no_predicates scenario_reshaped 5%nat scenario_matrix None (Some []));
    vm_compute; reflexivity.
Defined.

(** C6, as the code has it: on a matrix without a [Date] column a filter
    with a date range raises the missing-column error for [Date] (or, when
    user identifiers are given and the matrix has no [User_ID] column, for
    [User_ID]); it returns no table and leaves the store as it was. *)
Theorem filter_date_range_without_date (h : heap) (d : ref) (df : DataFrame)
    (user_ids components : option (list value)) (start_date end_date : value) :
  h !! d = Some df →
  DATE ∉ columns df →
  filter_data d user_ids components (Some (start_date, end_date)) h
  = (Err (KeyError (if truthy user_ids && bool_decide (USER_ID ∉ columns df)
                    then USER_ID else DATE)), h).
Proof.
  intros Hd Hdate.
  assert (Hstage : ∀ f : DataFrame, DATE ∉ columns f →
            result_bind (filter_components components f)
              (filter_date_range (Some (start_date, end_date)))
            = Err (KeyError DATE)).
  { intros f Hf. unfold filter_components, filter_date_range.
    destruct (truthy components); cbn [result_bind].
    - rewrite getitem_missing; [done|].
      intros H. apply Hf. eapply columns_keep_columns, H.
    - by rewrite getitem_missing. }
  rewrite (filter_data_run h d df) by done.
  unfold filter_stages, filter_user_ids.
  destruct (truthy user_ids); cbn [andb result_bind].
  - case_bool_decide as Hid.
    + by rewrite getitem_missing.
    + apply getitem_present in Hid as [ids ->]. cbn [result_bind].
      rewrite Hstage; [done|]. by rewrite columns_mask_rows.
  - by rewrite Hstage.
Qed.

Lemma filter_date_range_without_date_witness :
  filter_data 5%nat None None
    (Some (Timestamp 2024 3 1, Timestamp 2024 3 31)) scenario_reshaped
  = (Err (KeyError DATE), scenario_reshaped).
Proof.
  apply (filter_date_range_without_date scenario_reshaped 5%nat scenario_matrix
           None None (Timestamp 2024 3 1) (Timestamp 2024 3 31)).
  - vm_compute; reflexivity.
  - refine (bool_decide_unpack _ _). vm_compute. exact I.
Defined.

(** C6, as stated, fails: the reshaped matrix of the scenario has no [Date]
    column, and a filter with a date range returns no table. *)
Lemma filter_date_range_raises :
  scenario_reshaped !! 5%nat = Some scenario_matrix
  ∧ (DATE ∉ columns scenario_matrix)
  ∧ ∀ (r : ref) (h' : heap),
      filter_data 5%nat None None
        (Some (Timestamp 2024 3 1, Timestamp 2024 3 31)) scenario_reshaped
      ≠ (Ok r, h').
Proof.
  split; [vm_compute; reflexivity|]. split.
  - refine (bool_decide_unpack _ _). vm_compute. exact I.
  - intros r h'.
    replace (filter_data 5%nat None None _ scenario_reshaped)
      with (@Err ref (KeyError DATE), scenario_reshaped) by (vm_compute; reflexivity).
    discriminate.
Qed.

(** ** The arguments of the cleaning step *)

Lemma row_at_rename_columns (old new : label) (df : DataFrame) (r : nat) :
  row_at (rename_columns old new df) r = row_at df r.
Proof.
  unfold row_at, rename_columns. simpl. rewrite <- list_fmap_compose.
  apply list_fmap_ext. by intros _ [] _.
Qed.

Lemma rows_rename_columns (old new : label) (df : DataFrame) :
  rows (rename_columns old new df) = rows df.
Proof.
  unfold rows. simpl. apply list_fmap_ext. intros _ r _.
  apply row_at_rename_columns.
Qed.

Lemma getitem_Ok_columns (df : DataFrame) (l : label) (d : list value) :
  getitem df l = Ok d → l ∈ columns df.
Proof.
  unfold getitem. destruct (assoc l (df_cols df)) eqn:E; [|discriminate].
  intros _. apply assoc_Some in E. unfold columns.
  apply list_elem_of_fmap. by exists (l, l0).
Qed.

Lemma cleaned_store_user (h : heap) (u : ref) (U A : DataFrame) (comp : list value) :
  h !! u = Some U →
  cleaned_store h u U A comp !! u = Some (rename_columns ANONYMIZED USER_ID U).
Proof.
  intros Hu. unfold cleaned_store.
  rewrite lookup_insert_ne by (intros E; eapply fresh_ne; [exact Hu|by symmetry]).
  apply lookup_insert_eq.
Qed.

Lemma cleaned_store_other (h : heap) (u x : ref) (U A X : DataFrame)
    (comp : list value) :
  h !! x = Some X → x ≠ u →
  cleaned_store h u U A comp !! x = Some X.
Proof.
  intros Hx Hne. unfold cleaned_store.
  rewrite lookup_insert_ne by (intros E; eapply fresh_ne; [exact Hx|by symmetry]).
  rewrite lookup_insert_ne by congruence.
  rewrite lookup_insert_ne by (intros E; eapply fresh_ne; [exact Hx|by symmetry]).
  done.
Qed.

Lemma alloc_keeps (h : heap) (x : ref) (X df : DataFrame) :
  h !! x = Some X → <[fresh (dom h) := df]> h !! x = Some X.
Proof.
  intros Hx.
  rewrite lookup_insert_ne by (intros E; eapply fresh_ne; [exact Hx|by symmetry]).
  done.
Qed.

(** C9, as the code has it: the cleaning step leaves the activity table (and
    the component-code table) of its caller as it was, since it works on a
    filtered copy; of the user table it renames the anonymized-name column to
    [User_ID] in place, as soon as line 22 has passed, and changes no row. *)
Theorem transform_arguments (h : heap) (u a c : ref) (U A C : DataFrame)
    (r : result ref) (h' : heap) :
  h !! u = Some U → h !! a = Some A → h !! c = Some C → u ≠ a →
  clean_and_transform u a c h = (r, h') →
  h' !! a = Some A
  ∧ (c ≠ u → h' !! c = Some C)
  ∧ h' !! u = Some (if bool_decide (COMPONENT ∈ columns A)
                    then rename_columns ANONYMIZED USER_ID U else U)
  ∧ rows (rename_columns ANONYMIZED USER_ID U) = rows U
  ∧ df_len (rename_columns ANONYMIZED USER_ID U) = df_len U.
Proof.
  intros Hu Ha Hc Hne Hrun.
  rewrite (clean_and_transform_run u a c h U A Hu Ha) in Hrun.
  split; [|split; [|split; [|split; [apply rows_rename_columns|reflexivity]]]].
  - destruct (getitem A COMPONENT) as [comp|e]; [|by injection Hrun as _ <-].
    cbv zeta in Hrun. fold (cleaned_store h u U A comp) in Hrun.
    assert (cleaned_store h u U A comp !! a = Some A) as H1
      by (apply cleaned_store_other; [done|congruence]).
    destruct (merge_frames _ _ _); injection Hrun as _ <-; [|done].
    by apply alloc_keeps.
  - intros Hcu.
    destruct (getitem A COMPONENT) as [comp|e]; [|by injection Hrun as _ <-].
    cbv zeta in Hrun. fold (cleaned_store h u U A comp) in Hrun.
    assert (cleaned_store h u U A comp !! c = Some C) as H1
      by (apply cleaned_store_other; done).
    destruct (merge_frames _ _ _); injection Hrun as _ <-; [|done].
    by apply alloc_keeps.
  - destruct (getitem A COMPONENT) as [comp|e] eqn:Hg.
    + rewrite bool_decide_eq_true_2 by (eapply getitem_Ok_columns, Hg).
      cbv zeta in Hrun. fold (cleaned_store h u U A comp) in Hrun.
      pose proof (cleaned_store_user h u U A comp Hu) as H1.
      destruct (merge_frames _ _ _); injection Hrun as _ <-; [|done].
      by apply alloc_keeps.
    + rewrite bool_decide_eq_false_2.
      * by injection Hrun as _ <-.
      * intros Hin. apply getitem_present in Hin as [d Hd]. congruence.
Qed.

Lemma transform_arguments_witness :
  scenario_cleaned !! 1%nat = Some scenario_activity
  ∧ scenario_cleaned !! 2%nat = Some scenario_codes
  ∧ scenario_cleaned !! 0%nat
    = Some (if bool_decide (COMPONENT ∈ columns scenario_activity)
            then rename_columns ANONYMIZED USER_ID scenario_users
            else scenario_users)
  ∧ rows (rename_columns ANONYMIZED USER_ID scenario_users) = rows scenario_users
  ∧ df_len (rename_columns ANONYMIZED USER_ID scenario_users)
    = df_len scenario_users.
Proof.
  destruct (transform_arguments scenario_heap 0%nat 1%nat 2%nat scenario_users
              scenario_activity scenario_codes
              (clean_and_transform 0%nat 1%nat 2%nat scenario_heap).1
              scenario_cleaned)
    as (Hactivity & Hcodes & Husers & Hrows & Hlen);
    [vm_compute; reflexivity | vm_compute; reflexivity | vm_compute; reflexivity
    | lia | | ].
  - unfold scenario_cleaned.
    destruct (clean_and_transform 0%nat 1%nat 2%nat scenario_heap); reflexivity.
  - split; [exact Hactivity|]. split; [apply Hcodes; lia|].
    split; [exact Husers|]. split; [exact Hrows|exact Hlen].
Defined.

(** C9, as stated, fails: after the cleaning step of the scenario the user
    table of the caller has the column [User_ID] where it had the
    anonymized-name column. *)
Lemma transform_changes_user_table :
  scenario_heap !! 0%nat = Some scenario_users
  ∧ ∃ U', scenario_cleaned !! 0%nat = Some U'
          ∧ columns scenario_users = [ANONYMIZED; Str "Country"]
          ∧ columns U' = [USER_ID; Str "Country"]
          ∧ U' ≠ scenario_users.
Proof.
  split; [vm_compute; reflexivity|].
  exists (rename_columns ANONYMIZED USER_ID scenario_users).
  split; [vm_compute; reflexivity|].
  split; [reflexivity|]. split; [reflexivity|]. discriminate.
Qed.

(** ** The identifier column *)

Lemma key_columns_rename (X : DataFrame) :
  length (filter (λ c : column, c.1 = USER_ID)
            (df_cols (rename_columns ANONYMIZED USER_ID X)))
  = length (identifier_labels X).
Proof.
  unfold identifier_labels, columns, rename_columns. simpl.
  induction (df_cols X) as [|[l d] cs IH]; [reflexivity|].
  rewrite !fmap_cons, !filter_cons. simpl.
  destruct (decide (l = ANONYMIZED)) as [->|Hn].
  - rewrite decide_True by reflexivity.
    rewrite (decide_True (P := ANONYMIZED = ANONYMIZED ∨ _)) by (by left).
    simpl. by rewrite IH.
  - destruct (decide (l = USER_ID)) as [->|Hn'].
    + rewrite (decide_True (P := USER_ID = ANONYMIZED ∨ _)) by (by right).
      simpl. by rewrite IH.
    + rewrite decide_False by tauto. exact IH.
Qed.

Lemma identifier_labels_kept (A : DataFrame) (comp : list value) :
  identifier_labels (kept_activity A comp) = identifier_labels A.
Proof. unfold identifier_labels, kept_activity. by rewrite columns_mask_rows. Qed.

Lemma key_column_missing (df : DataFrame) (key : label) :
  length (filter (λ c : column, c.1 = key) (df_cols df)) = 0%nat →
  key_column df key = Err (KeyError key).
Proof.
  unfold key_column. by destruct (filter _ (df_cols df)).
Qed.

Lemma key_column_single (df : DataFrame) (key : label) :
  length (filter (λ c : column, c.1 = key) (df_cols df)) = 1%nat →
  ∃ c, filter (λ c : column, c.1 = key) (df_cols df) = [c]
       ∧ key_column df key = Ok (normalise (df_len df) c.2).
Proof.
  unfold key_column. destruct (filter _ (df_cols df)) as [|c [|c' l]]; try done.
  intros _. by exists c.
Qed.

(** C7, as the code has it: when one of the two tables has neither the
    anonymized-name column nor a [User_ID] column (and no table has two
    identifier columns), the cleaning step raises a missing-column error and
    returns no merged table. *)
Theorem transform_missing_identifier (h : heap) (u a c : ref) (U A : DataFrame) :
  h !! u = Some U → h !! a = Some A →
  (length (identifier_labels U) ≤ 1)%nat →
  (length (identifier_labels A) ≤ 1)%nat →
  identifier_labels U = [] ∨ identifier_labels A = [] →
  ∃ (l : label) (h' : heap),
    clean_and_transform u a c h = (Err (KeyError l), h').
Proof.
  intros Hu Ha HU HA Hnone.
  rewrite (clean_and_transform_run u a c h U A Hu Ha).
  destruct (getitem A COMPONENT) as [comp|e] eqn:Hg.
  2:{ unfold getitem in Hg. destruct (assoc _ _); [discriminate|].
      injection Hg as <-. eauto. }
  cbv zeta. unfold merge_frames.
  pose proof (key_columns_rename (kept_activity A comp)) as HkA.
  rewrite identifier_labels_kept in HkA.
  pose proof (key_columns_rename U) as HkU.
  destruct (length (identifier_labels A)) as [|[|n]] eqn:EA; [| |lia].
  - rewrite key_column_missing by done. eauto.
  - apply key_column_single in HkA as (cA & _ & ->).
    destruct Hnone as [HUn|HAn]; [|by rewrite HAn in EA].
    rewrite key_column_missing by (by rewrite HkU, HUn). eauto.
Qed.

Lemma transform_missing_identifier_witness :
  ∃ (l : label) (h' : heap),
    clean_and_transform 2%nat 1%nat 0%nat scenario_heap = (Err (KeyError l), h').
Proof.
  apply (transform_missing_identifier scenario_heap 2%nat 1%nat 0%nat
           scenario_codes scenario_activity).
  - vm_compute; reflexivity.
  - vm_compute; reflexivity.
  - vm_compute; lia.
  - vm_compute; lia.
  - left. vm_compute; reflexivity.
Defined.

(** C7, as stated, fails: after a first cleaning step the user table of the
    caller no longer has the anonymized-name column (it has [User_ID]), and
    a second cleaning step on the same tables returns a merged table. *)
Lemma transform_accepts_renamed_table :
  ∃ U, scenario_cleaned !! 0%nat = Some U
       ∧ (ANONYMIZED ∉ columns U)
       ∧ ∃ (m : ref) (h' : heap),
           clean_and_transform 0%nat 1%nat 2%nat scenario_cleaned = (Ok m, h')
           ∧ h' !! m = Some scenario_merged.
Proof.
  exists (rename_columns ANONYMIZED USER_ID scenario_users).
  split; [vm_compute; reflexivity|]. split.
  - refine (bool_decide_unpack _ _). vm_compute. exact I.
  - eexists 6%nat, _. split; vm_compute; reflexivity.
Qed.

(** ** Dates *)

Lemma traverse_Err_elem {A B} (f : A → result B) (l : list A) (x : A) (e : error) :
  x ∈ l → f x = Err e → ∃ e', traverse f l = Err e'.
Proof.
  intros Hx Hf. induction l as [|y l IH]; [by apply not_elem_of_nil in Hx|].
  simpl. apply elem_of_cons in Hx as [->|Hx].
  - rewrite Hf. simpl. eauto.
  - destruct (f y); simpl; [|eauto].
    destruct (IH Hx) as [e' ->]. simpl. eauto.
Qed.

Lemma to_datetime_cell_Err (v : value) (e : error) :
  to_datetime_cell v = Err e → e = DateParseError v.
Proof.
  destruct v as [|z|s|y m d]; simpl; try discriminate.
  destruct (bool_decide _); [discriminate|].
    destruct (parse_dayfirst s) as [[[? ?] ?]|]; [discriminate|]. congruence.
Qed.

Lemma to_datetime_Err (d : list value) (e : error) :
  to_datetime d = Err e → ∃ v, v ∈ d ∧ e = DateParseError v.
Proof.
  unfold to_datetime. induction d as [|v d IH]; simpl; [discriminate|].
  destruct (to_datetime_cell v) eqn:Hv; simpl.
  - destruct (traverse to_datetime_cell d); simpl; [discriminate|].
    intros [= <-]. destruct (IH eq_refl) as (w & Hw & ->).
    exists w. split; [by right|done].
  - intros [= <-]. exists v. split; [left|by apply to_datetime_cell_Err].
Qed.

Lemma at_row_normalise (n r : nat) (d : list value) :
  (r < n)%nat → at_row r d ∈ normalise n d.
Proof.
  intros Hr. unfold normalise, gather. apply list_elem_of_fmap.
  exists r. split; [done|]. apply elem_of_seq. lia.
Qed.

Lemma valid_date_calendar (y m d : Z) :
  valid_date y m d = true → calendar_date y m d = true.
Proof.
  unfold valid_date, calendar_date. rewrite !andb_true_iff. tauto.
Qed.

(** A text that names no calendar date is not read: it is no marker of a
    missing date, and the day-first reading fails. *)
Lemma no_calendar_date_unread (s : string) :
  no_calendar_date s = true → (s ∉ nat_strings) ∧ parse_dayfirst s = None.
Proof.
  intros Hs. split.
  - intros Hin. unfold nat_strings in Hin.
    repeat (apply elem_of_cons in Hin as [->|Hin]; [discriminate Hs|]).
    by apply not_elem_of_nil in Hin.
  - revert Hs. unfold no_calendar_date, parse_dayfirst.
    destruct (split_on "-" s) as [|ds [|ms [|ys [|? ?]]]]; try discriminate.
    destruct (bool_decide (1 ≤ String.length ds ≤ 2)%nat
              && bool_decide (1 ≤ String.length ms ≤ 2)%nat
              && bool_decide (String.length ys = 4%nat)); [|discriminate].
    cbn [andb].
    destruct (number_from 0 ds) as [d|]; [|discriminate].
    destruct (number_from 0 ms) as [m|]; [|discriminate].
    destruct (number_from 0 ys) as [y|]; [|discriminate].
    intros [Hdm _]%andb_true_iff. apply negb_true_iff in Hdm.
    destruct (valid_date y m d) eqn:Hv; [|reflexivity].
    apply valid_date_calendar in Hv. congruence.
Qed.

(** C5, as the code has it: when some [Date] cell holds a text in the
    day-month-year layout that names no calendar date, whichever of its
    first two numbers is taken for the day ("31-02-2024" is such a text),
    the reshaping step raises a date-parse error for a cell of the column,
    returns no matrix and leaves the store as it was. *)
Theorem reshape_bad_date (h : heap) (m : ref) (df : DataFrame) (r : nat)
    (s : string) :
  h !! m = Some df →
  (r < df_len df)%nat →
  cell df DATE r = Str s →
  no_calendar_date s = true →
  ∃ v, reshape_data m h = (Err (DateParseError v), h)
       ∧ ∃ r', cell df DATE r' = v.
Proof.
  intros Hm Hr Hcell [Hnat Hparse]%no_calendar_date_unread.
  rewrite (reshape_data_run m h df Hm). unfold with_month, getitem.
  unfold cell in Hcell.
  destruct (assoc DATE (df_cols df)) as [d|] eqn:Hd; [|discriminate].
  cbn [result_bind].
  assert (∃ e, to_datetime (normalise (df_len df) d) = Err e) as [e He].
  { apply (traverse_Err_elem _ _ (Str s) (DateParseError (Str s))).
    - rewrite <- Hcell. by apply at_row_normalise.
    - simpl. rewrite bool_decide_eq_false_2 by done. by rewrite Hparse. }
  rewrite He. cbn [result_bind].
  apply to_datetime_Err in He as (v & Hv & ->).
  exists v. split; [done|].
  unfold normalise, gather in Hv. apply list_elem_of_fmap in Hv as (r' & -> & _).
  exists r'. unfold cell. by rewrite Hd.
Qed.

Lemma reshape_bad_date_witness :
  ∃ v, reshape_data 0%nat {[0%nat := misdated_merged]}
       = (Err (DateParseError v), {[0%nat := misdated_merged]})
       ∧ ∃ r', cell misdated_merged DATE r' = v.
Proof.
  apply (reshape_bad_date {[0%nat := misdated_merged]} 0%nat misdated_merged
           1%nat "31-02-2024").
  - vm_compute; reflexivity.
  - vm_compute; lia.
  - vm_compute; reflexivity.
  - vm_compute; reflexivity.
Defined.

(** C5, as stated, fails: a missing [Date] is not a calendar date, yet the
    reshaping step raises nothing for it; the date becomes a missing
    timestamp and the row of user 2 is left out of the matrix.  Nor does a
    date written as a number raise: it is read as nanoseconds from
    1970-01-01, and both rows land in month 1. *)
Lemma reshape_drops_undated_row :
  (cell undated_merged DATE 1%nat = NaN
   ∧ ∃ (p : ref) (h' : heap),
       reshape_data 0%nat {[0%nat := undated_merged]} = (Ok p, h')
       ∧ h' !! p = Some {| df_len := 1;
                           df_index := [];
                           df_cols := [(USER_ID, [Int 1]); (MONTH, [Int 3]);
                                       (Str "Quiz", [Int 1])] |})
  ∧ (cell numbered_merged DATE 0%nat = Int 20240301
     ∧ ∃ (p : ref) (h' : heap),
         reshape_data 0%nat {[0%nat := numbered_merged]} = (Ok p, h')
         ∧ h' !! 0%nat = Some (setitem MONTH [Int 1; Int 1]
                                 (setitem DATE [Timestamp 1970 1 1;
                                                Timestamp 1970 1 1]
                                    numbered_merged))
         ∧ h' !! p = Some {| df_len := 2;
                             df_index := [];
                             df_cols := [(USER_ID, [Int 1; Int 2]);
                                         (MONTH, [Int 1; Int 1]);
                                         (Str "Quiz", [Int 1; Int 1])] |}).
Proof.
  split.
  - split; [reflexivity|].
    eexists 1%nat, _. split; vm_compute; reflexivity.
  - split; [reflexivity|].
    eexists 1%nat, _. split; [vm_compute; reflexivity|].
    split; vm_compute; reflexivity.
Qed.

(** ** Suffixes never produce a label the program reads *)

Lemma last_char_append (t s : string) :
  s ≠ EmptyString → last_char (t +:+ s) = last_char s.
Proof.
  intros Hs. induction t as [|a t IH]; [reflexivity|].
  simpl. rewrite IH. destruct (t +:+ s) eqn:E; [|reflexivity].
  destruct t; cbv [String.app] in E; [congruence|discriminate].
Qed.

Lemma suffixed_cases (sfx : string) (others : list label) (l : label) :
  ((l ∉ others) ∧ suffixed sfx others l = l)
  ∨ (l ∈ others ∧ suffixed sfx others l = Str (label_text l +:+ sfx)).
Proof.
  unfold suffixed. case_bool_decide; [right|left]; done.
Qed.

Lemma suffixed_ne (sfx : string) (others : list label) (l : label) (s : string) :
  sfx ≠ EmptyString → last_char s ≠ last_char sfx →
  l ≠ Str s → suffixed sfx others l ≠ Str s.
Proof.
  intros Hsfx Hlast Hl.
  destruct (suffixed_cases sfx others l) as [[_ ->]|[_ ->]]; [done|].
  intros [= E]. apply Hlast. rewrite <- E. by apply last_char_append.
Qed.

(** Looking a plain label up among suffixed columns. *)
Lemma assoc_suffixed (sfx : string) (others : list label) (f : list value → list value)
    (cs : list column) (s : string) :
  sfx ≠ EmptyString → last_char s ≠ last_char sfx →
  assoc (Str s) ((λ c : column, (suffixed sfx others c.1, f c.2)) <$> cs)
  = if bool_decide (Str s ∈ others) then None else f <$> assoc (Str s) cs.
Proof.
  intros Hsfx Hlast. induction cs as [|[l d] cs IH].
  - simpl. by case_bool_decide.
  - rewrite fmap_cons. cbn [assoc fst snd].
    destruct (decide (l = Str s)) as [->|Hne].
    + destruct (suffixed_cases sfx others (Str s)) as [[Hn ->]|[Hin ->]].
      * rewrite decide_True by done. by rewrite bool_decide_eq_false_2.
      * rewrite decide_False.
        -- rewrite IH. rewrite bool_decide_eq_true_2 by done. done.
        -- intros [= E]. apply Hlast. rewrite <- E. by apply last_char_append.
    + rewrite decide_False by (by apply suffixed_ne). exact IH.
Qed.

Lemma assoc_app (l : label) (cs cs' : list column) :
  assoc l (cs ++ cs') = match assoc l cs with
                        | Some d => Some d
                        | None => assoc l cs'
                        end.
Proof.
  induction cs as [|c cs IH]; simpl; [reflexivity|].
  by destruct (decide (c.1 = l)).
Qed.

Lemma assoc_fmap_data (f : list value → list value) (l : label) (cs : list column) :
  assoc l ((λ c : column, (c.1, f c.2)) <$> cs) = f <$> assoc l cs.
Proof.
  induction cs as [|c cs IH]; simpl; [reflexivity|].
  by destruct (decide (c.1 = l)).
Qed.

Lemma assoc_filter_ne (key l : label) (cs : list column) :
  l ≠ key →
  assoc l (filter (λ c : column, bool_decide (c.1 ≠ key) = true) cs) = assoc l cs.
Proof.
  intros Hne. induction cs as [|c cs IH]; [reflexivity|].
  rewrite filter_cons. simpl. destruct (decide (c.1 = l)) as [E|N].
  - rewrite decide_True by (rewrite bool_decide_eq_true_2; congruence).
    simpl. by rewrite decide_True.
  - destruct (decide _); simpl; [by rewrite decide_False|done].
Qed.

Lemma assoc_rename_other (old new l : label) (cs : list column) :
  l ≠ old → l ≠ new →
  assoc l ((λ c : column, (if decide (c.1 = old) then new else c.1, c.2)) <$> cs)
  = assoc l cs.
Proof.
  intros Ho Hn. induction cs as [|c cs IH]; simpl; [reflexivity|].
  destruct (decide (c.1 = old)) as [E|N].
  - rewrite decide_False by congruence. rewrite decide_False by congruence. exact IH.
  - destruct (decide (c.1 = l)); [done|exact IH].
Qed.

Lemma assoc_filter_single (key : label) (cs : list column) (c : column) :
  filter (λ c : column, c.1 = key) cs = [c] → assoc key cs = Some c.2.
Proof.
  induction cs as [|c' cs IH]; [discriminate|].
  rewrite filter_cons. simpl. destruct (decide (c'.1 = key)) as [E|N].
  - by intros [= ->].
  - exact IH.
Qed.

(** ** Gathering rows *)

Lemma at_row_gather (idxs : list nat) (d : list value) (r i : nat) :
  idxs !! r = Some i → at_row r (gather idxs d) = at_row i d.
Proof.
  intros Hr. unfold at_row at 1, gather. by rewrite list_lookup_fmap, Hr.
Qed.

Lemma length_gather (idxs : list nat) (d : list value) :
  length (gather idxs d) = length idxs.
Proof. unfold gather. apply length_fmap. Qed.

Lemma length_normalise (n : nat) (d : list value) : length (normalise n d) = n.
Proof. unfold normalise. by rewrite length_gather, length_seq. Qed.

Lemma lookup_normalise (n r : nat) (d : list value) :
  (r < n)%nat → normalise n d !! r = Some (at_row r d).
Proof.
  intros Hr. unfold normalise, gather.
  rewrite list_lookup_fmap, lookup_seq_lt by done. reflexivity.
Qed.

(** ** The indexers of a join *)

Lemma positions_from_spec (n : nat) (v : value) (d : list value) (j : nat) :
  j ∈ positions_from n v d ↔ (n ≤ j)%nat ∧ d !! (j - n)%nat = Some v.
Proof.
  revert n. induction d as [|x d IH]; intros n; simpl.
  - split; [intros H; by apply not_elem_of_nil in H | intros [_ H]; discriminate].
  - destruct (decide (x = v)) as [->|Hne].
    + rewrite elem_of_cons, IH. split.
      * intros [->|[Hle Hl]].
        -- split; [lia|]. by rewrite Nat.sub_diag.
        -- split; [lia|]. replace (j - n)%nat with (S (j - S n)) by lia. done.
      * intros [Hle Hl]. destruct (decide (j = n)) as [->|Hjn]; [by left|right].
        split; [lia|]. replace (j - n)%nat with (S (j - S n)) in Hl by lia. done.
    + rewrite IH. split.
      * intros [Hle Hl]. split; [lia|].
        replace (j - n)%nat with (S (j - S n)) by lia. done.
      * intros [Hle Hl]. destruct (decide (j = n)) as [->|Hjn].
        -- rewrite Nat.sub_diag in Hl. simpl in Hl. congruence.
        -- split; [lia|].
           replace (j - n)%nat with (S (j - S n)) in Hl by lia. done.
Qed.

Lemma join_from_spec (n : nat) (lk rk : list value) (i j : nat) :
  (i, j) ∈ join_from n lk rk
  ↔ (n ≤ i)%nat ∧ ∃ x, lk !! (i - n)%nat = Some x ∧ rk !! j = Some x.
Proof.
  revert n. induction lk as [|x lk IH]; intros n; simpl.
  - split; [intros H; by apply not_elem_of_nil in H|].
    intros [_ (x & H & _)]. discriminate.
  - rewrite elem_of_app, list_elem_of_fmap, IH. split.
    + intros [(j' & [= -> ->] & Hj)|[Hle (y & Hl & Hr)]].
      * apply positions_from_spec in Hj as [_ Hj]. rewrite Nat.sub_0_r in Hj.
        split; [lia|]. exists x. by rewrite Nat.sub_diag.
      * split; [lia|]. exists y.
        replace (i - n)%nat with (S (i - S n)) by lia. done.
    + intros [Hle (y & Hl & Hr)]. destruct (decide (i = n)) as [->|Hne].
      * left. exists j. split; [done|]. rewrite Nat.sub_diag in Hl.
        injection Hl as ->. apply positions_from_spec.
        split; [lia|]. by rewrite Nat.sub_0_r.
      * right. split; [lia|]. exists y.
        replace (i - n)%nat with (S (i - S n)) in Hl by lia. done.
Qed.

Lemma key_column_Ok (df : DataFrame) (key : label) (k : list value) :
  key_column df key = Ok k →
  ∃ d, assoc key (df_cols df) = Some d ∧ k = normalise (df_len df) d.
Proof.
  unfold key_column.
  destruct (filter _ (df_cols df)) as [|c [|c' l]] eqn:E; try discriminate.
  intros [= <-]. exists c.2. split; [|done]. by apply assoc_filter_single.
Qed.

(** Each pair of the indexers names a left row and a right row with one key. *)
Lemma merge_indexers_spec (L R : DataFrame) (key : label) (i j : nat) :
  (i, j) ∈ merge_indexers L R key →
  (i < df_len L)%nat ∧ (j < df_len R)%nat ∧ cell L key i = cell R key j.
Proof.
  unfold merge_indexers.
  destruct (key_column L key) as [lk|] eqn:El; [|by intros H%not_elem_of_nil].
  destruct (key_column R key) as [rk|] eqn:Er; [|by intros H%not_elem_of_nil].
  apply key_column_Ok in El as (dl & Hl & ->).
  apply key_column_Ok in Er as (dr & Hr & ->).
  intros (_ & x & Hi & Hj)%join_from_spec. rewrite Nat.sub_0_r in Hi.
  pose proof (lookup_lt_Some _ _ _ Hi) as Hil.
  pose proof (lookup_lt_Some _ _ _ Hj) as Hjl.
  rewrite length_normalise in Hil, Hjl.
  rewrite lookup_normalise in Hi, Hj by done.
  split; [done|]. split; [done|].
  unfold cell. rewrite Hl, Hr. congruence.
Qed.

(** The joined table, row by row. *)
Lemma merge_frames_rows (L R : DataFrame) (key : label) (M : DataFrame) :
  merge_frames L R key = Ok M →
  df_len M = length (merge_indexers L R key)
  ∧ ∀ r i j, merge_indexers L R key !! r = Some (i, j) →
      row_at M r = row_at L i ++ row_at (drop_column key R) j.
Proof.
  unfold merge_frames, merge_indexers.
  destruct (key_column R key) as [rk|]; [|discriminate].
  destruct (key_column L key) as [lk|]; [|discriminate].
  destruct (keys_clash lk rk); [discriminate|].
  destruct (suffix_duplicates _ _); [|discriminate].
  intros [= <-]. split; [reflexivity|].
  intros r i j Hr. unfold row_at. simpl.
  rewrite fmap_app, <- !list_fmap_compose. f_equal.
  - apply list_fmap_ext. intros _ c _. simpl.
    apply at_row_gather. by rewrite list_lookup_fmap, Hr.
  - apply list_fmap_ext. intros _ c _. simpl.
    apply at_row_gather. by rewrite list_lookup_fmap, Hr.
Qed.

(** ** The rows the cleaning step keeps *)

Lemma true_positions_spec (n : nat) (mask : list bool) (i : nat) :
  i ∈ true_positions n mask ↔ (n ≤ i)%nat ∧ mask !! (i - n)%nat = Some true.
Proof.
  revert n. induction mask as [|b mask IH]; intros n; simpl.
  - split; [intros H; by apply not_elem_of_nil in H | intros [_ H]; discriminate].
  - destruct b.
    + rewrite elem_of_cons, IH. split.
      * intros [->|[Hle Hl]].
        -- split; [lia|]. by rewrite Nat.sub_diag.
        -- split; [lia|]. replace (i - n)%nat with (S (i - S n)) by lia. done.
      * intros [Hle Hl]. destruct (decide (i = n)) as [->|Hin]; [by left|right].
        split; [lia|]. replace (i - n)%nat with (S (i - S n)) in Hl by lia. done.
    + rewrite IH. split.
      * intros [Hle Hl]. split; [lia|].
        replace (i - n)%nat with (S (i - S n)) by lia. done.
      * intros [Hle Hl]. destruct (decide (i = n)) as [->|Hin].
        -- rewrite Nat.sub_diag in Hl. discriminate.
        -- split; [lia|].
           replace (i - n)%nat with (S (i - S n)) in Hl by lia. done.
Qed.

(** A kept row is a row of the table whose component is not excluded. *)
Lemma kept_positions_spec (A : DataFrame) (d : list value) (i : nat) :
  assoc COMPONENT (df_cols A) = Some d →
  i ∈ true_positions 0 (negb <$> isin (normalise (df_len A) d) excluded)
  ↔ (i < df_len A)%nat ∧ cell A COMPONENT i ∉ excluded.
Proof.
  intros Hd. rewrite true_positions_spec, Nat.sub_0_r.
  unfold isin, cell. rewrite Hd, !list_lookup_fmap. split.
  - intros [_ H]. destruct (normalise _ d !! i) as [v|] eqn:E; [|discriminate].
    pose proof (lookup_lt_Some _ _ _ E) as Hi. rewrite length_normalise in Hi.
    rewrite lookup_normalise in E by done. injection E as <-.
    split; [done|]. simpl in H. injection H as H.
    apply negb_true_iff, bool_decide_eq_false in H. exact H.
  - intros [Hi Hex]. split; [lia|]. rewrite lookup_normalise by done. simpl.
    by rewrite bool_decide_eq_false_2.
Qed.

Lemma cell_take_rows (idxs : list nat) (X : DataFrame) (l : label) (j i : nat) :
  idxs !! j = Some i → cell (take_rows idxs X) l j = cell X l i.
Proof.
  intros Hj. unfold cell, take_rows. simpl. rewrite assoc_fmap_data.
  destruct (assoc l (df_cols X)); simpl; [by apply at_row_gather|done].
Qed.

Lemma cell_rename_columns_other (old new l : label) (X : DataFrame) (r : nat) :
  l ≠ old → l ≠ new → cell (rename_columns old new X) l r = cell X l r.
Proof.
  intros Ho Hn. unfold cell, rename_columns. simpl.
  by rewrite assoc_rename_other.
Qed.

(** Renaming labels and dropping a column commute with taking rows. *)
Lemma activity_part_take_rows (idxs : list nat) (A : DataFrame) (j i : nat) :
  idxs !! j = Some i →
  row_at (drop_column USER_ID
            (rename_columns ANONYMIZED USER_ID (take_rows idxs A))) j
  = activity_part A i.
Proof.
  intros Hj. unfold activity_part, row_at, drop_column, keep_columns,
    rename_columns, take_rows. simpl.
  induction (df_cols A) as [|c cs IH]; [reflexivity|].
  rewrite !fmap_cons, !filter_cons. simpl.
  destruct (decide (bool_decide (_ ≠ USER_ID) = true)).
  - rewrite !fmap_cons. simpl. f_equal; [by apply at_row_gather|exact IH].
  - exact IH.
Qed.

Lemma identifier_take_rows (idxs : list nat) (A : DataFrame) (j i : nat) :
  idxs !! j = Some i →
  cell (rename_columns ANONYMIZED USER_ID (take_rows idxs A)) USER_ID j
  = identifier A i.
Proof.
  intros Hj. unfold identifier, cell, rename_columns, take_rows. simpl.
  induction (df_cols A) as [|c cs IH]; [reflexivity|].
  rewrite !fmap_cons. simpl.
  destruct (decide _); [by apply at_row_gather|exact IH].
Qed.

(** What a successful cleaning step returns: the joined table [M], made of
    the rows named by the indexers; the right rows are kept activity rows. *)
Lemma clean_and_transform_Ok (h : heap) (u a c : ref) (U A : DataFrame)
    (m : ref) (h' : heap) :
  h !! u = Some U → h !! a = Some A →
  clean_and_transform u a c h = (Ok m, h') →
  ∃ (d : list value) (M : DataFrame),
    let kept := true_positions 0 (negb <$> isin (normalise (df_len A) d) excluded) in
    let U' := rename_columns ANONYMIZED USER_ID U in
    let A' := rename_columns ANONYMIZED USER_ID (take_rows kept A) in
    assoc COMPONENT (df_cols A) = Some d
    ∧ merge_frames U' A' USER_ID = Ok M
    ∧ h' !! m = Some M.
Proof.
  intros Hu Ha Hrun.
  rewrite (clean_and_transform_run u a c h U A Hu Ha) in Hrun.
  unfold getitem in Hrun.
  destruct (assoc COMPONENT (df_cols A)) as [d|] eqn:Hd; [|discriminate].
  cbv zeta in Hrun. unfold kept_activity, mask_rows in Hrun.
  destruct (merge_frames _ _ USER_ID) as [M|] eqn:HM; [|discriminate].
  injection Hrun as <- <-. exists d, M. cbv zeta.
  split; [done|]. split; [exact HM|]. apply lookup_insert_eq.
Qed.

(** ** Inner join *)

Lemma drop_column_columns (key : label) (R : DataFrame) :
  key ∉ columns (drop_column key R).
Proof.
  unfold columns, drop_column, keep_columns. simpl.
  intros (c & -> & Hc)%list_elem_of_fmap.
  apply list_elem_of_filter in Hc as [Hc _].
  by apply bool_decide_eq_true in Hc.
Qed.

(** The key cell of a joined row is the key cell of its left row. *)
Lemma merge_frames_key_cell (L R : DataFrame) (s : string) (M : DataFrame)
    (r i j : nat) :
  last_char s ≠ Some "x"%char →
  merge_frames L R (Str s) = Ok M →
  merge_indexers L R (Str s) !! r = Some (i, j) →
  cell M (Str s) r = cell L (Str s) i.
Proof.
  intros Hlast. unfold merge_frames, merge_indexers.
  destruct (key_column R (Str s)) as [rk|]; [|discriminate].
  destruct (key_column L (Str s)) as [lk|] eqn:El; [|discriminate].
  apply key_column_Ok in El as (dl & Hl & ->).
  destruct (keys_clash _ rk); [discriminate|].
  destruct (suffix_duplicates _ _); [|discriminate].
  intros [= <-] Hr. unfold cell. simpl.
  rewrite assoc_app, (assoc_suffixed "_x") by done.
  rewrite bool_decide_eq_false_2 by apply drop_column_columns.
  rewrite Hl. simpl. apply at_row_gather. by rewrite list_lookup_fmap, Hr.
Qed.

Lemma merge_frames_total (L R : DataFrame) (key : label) (lk rk : list value) :
  key_column L key = Ok lk → key_column R key = Ok rk →
  keys_clash lk rk = false →
  suffix_duplicates (columns L) (columns (drop_column key R)) = [] →
  ∃ M, merge_frames L R key = Ok M.
Proof.
  intros Hl Hr Hclash Hdups.
  unfold merge_frames. rewrite Hl, Hr, Hclash, Hdups. eauto.
Qed.

(** ** Setting a column *)

Lemma cell_setitem_eq (l : label) (d : list value) (df : DataFrame) (r : nat) :
  cell (setitem l d df) l r = at_row r d.
Proof.
  unfold cell, setitem. simpl.
  destruct (assoc l (df_cols df)) as [d0|] eqn:E.
  - assert (assoc l ((λ c : column, if decide (c.1 = l) then (l, d) else c)
                       <$> df_cols df) = Some d) as ->; [|done].
    induction (df_cols df) as [|c cs IH]; [discriminate|].
    rewrite fmap_cons. simpl in E |- *.
    destruct (decide (c.1 = l)) as [Hc|Hc]; simpl.
    + by rewrite decide_True.
    + rewrite decide_False by done. by apply IH.
  - by rewrite assoc_app, E; simpl; rewrite decide_True.
Qed.

Lemma cell_setitem_ne (l l' : label) (d : list value) (df : DataFrame) (r : nat) :
  l' ≠ l → cell (setitem l d df) l' r = cell df l' r.
Proof.
  intros Hne. unfold cell, setitem. simpl.
  destruct (assoc l (df_cols df)) as [d0|] eqn:E.
  - assert (assoc l' ((λ c : column, if decide (c.1 = l) then (l, d) else c)
                        <$> df_cols df) = assoc l' (df_cols df)) as ->; [|done].
    clear E. induction (df_cols df) as [|c cs IH]; [reflexivity|].
    rewrite fmap_cons. simpl.
    destruct (decide (c.1 = l)) as [Hc|Hc]; simpl.
    + rewrite !decide_False by congruence. exact IH.
    + destruct (decide (c.1 = l')); [done|exact IH].
  - rewrite assoc_app. destruct (assoc l' (df_cols df)); [done|].
    simpl. by rewrite decide_False.
Qed.

Lemma columns_setitem (l l' : label) (d : list value) (df : DataFrame) :
  l' ∈ columns df → l' ∈ columns (setitem l d df).
Proof.
  unfold columns, setitem. simpl. intros H.
  destruct (assoc l (df_cols df)).
  - rewrite <- list_fmap_compose.
    apply list_elem_of_fmap in H as (c & -> & Hc). apply list_elem_of_fmap.
    exists c. split; [|done]. simpl. by destruct (decide (c.1 = l)) as [->|].
  - rewrite fmap_app. apply elem_of_app. by left.
Qed.

(** ** Parsing a column *)

Lemma traverse_Ok_lookup {A B} (f : A → result B) (l : list A) (ys : list B)
    (i : nat) (x : A) :
  traverse f l = Ok ys → l !! i = Some x →
  ∃ y, ys !! i = Some y ∧ f x = Ok y.
Proof.
  revert ys i. induction l as [|a l IH]; intros ys i; simpl; [discriminate|].
  destruct (f a) as [b|] eqn:Ha; simpl; [|discriminate].
  destruct (traverse f l) as [bs|]; simpl; [|discriminate].
  intros [= <-]. destruct i as [|i]; simpl.
  - intros [= <-]. eauto.
  - by apply IH.
Qed.

(** Lines 30 and 31 add the month of every row and change no other column. *)
Lemma with_month_Ok (df df2 : DataFrame) :
  with_month df = Ok df2 →
  df_len df2 = df_len df
  ∧ (∀ r, (r < df_len df)%nat → cell df2 MONTH r = month_of (cell df DATE r))
  ∧ (∀ l r, l ≠ DATE → l ≠ MONTH → cell df2 l r = cell df l r)
  ∧ (∀ l, l ∈ columns df → l ∈ columns df2).
Proof.
  unfold with_month, getitem at 1.
  destruct (assoc DATE (df_cols df)) as [d|] eqn:Hd; [|discriminate].
  cbn [result_bind].
  destruct (to_datetime (normalise (df_len df) d)) as [parsed|] eqn:Hp;
    [|discriminate].
  cbn [result_bind]. unfold getitem.
  destruct (assoc DATE (df_cols (setitem DATE parsed df))) as [d'|] eqn:Hd';
    [|discriminate].
  cbn [result_bind]. intros [= <-].
  split; [reflexivity|]. split; [|split].
  - intros r Hr. rewrite cell_setitem_eq.
    pose proof (cell_setitem_eq DATE parsed df r) as Hc.
    unfold cell in Hc. rewrite Hd' in Hc.
    unfold at_row at 1. rewrite list_lookup_fmap.
    change (df_len (setitem DATE parsed df)) with (df_len df).
    rewrite lookup_normalise by done. simpl. rewrite Hc.
    destruct (traverse_Ok_lookup _ _ _ r (at_row r d) Hp) as (t & Ht & Hcell).
    { by apply lookup_normalise. }
    unfold month_of, cell. rewrite Hd, Hcell.
    unfold at_row. by rewrite Ht.
  - intros l r Hl1 Hl2. by rewrite !cell_setitem_ne.
  - intros l Hl. by do 2 apply columns_setitem.
Qed.

(** ** Sorting and counting *)

Section sorted_unique.
Context {A : Type} `{EqDecision A} (leb : A → A → bool).

Lemma sorted_unique_Permutation (l : list A) :
  sorted_unique leb l ≡ₚ remove_dups l.
Proof. apply merge_sort_Permutation. Qed.

Lemma NoDup_sorted_unique (l : list A) : NoDup (sorted_unique leb l).
Proof. rewrite sorted_unique_Permutation. apply NoDup_remove_dups. Qed.

Lemma elem_of_sorted_unique (l : list A) (x : A) :
  x ∈ sorted_unique leb l ↔ x ∈ l.
Proof. rewrite sorted_unique_Permutation. apply elem_of_remove_dups. Qed.
End sorted_unique.

Section counting.
Context {A B : Type} `{EqDecision B}.

Lemma filter_ext_in (P Q : A → Prop) `{!∀ x, Decision (P x)}
    `{!∀ x, Decision (Q x)} (l : list A) :
  (∀ x, x ∈ l → P x ↔ Q x) → filter P l = filter Q l.
Proof.
  induction l as [|a l IH]; intros Hpw; [done|].
  rewrite !filter_cons.
  rewrite IH by (intros x Hx; apply Hpw; by right).
  apply decide_ext, Hpw. left.
Qed.

Lemma sum_list_with_pointwise (f g : B → nat) (l : list B) :
  (∀ c, f c = g c) → sum_list_with f l = sum_list_with g l.
Proof. intros Hfg. induction l; simpl; [done|]. by rewrite Hfg, IHl. Qed.

Lemma sum_list_with_add (f g : B → nat) (l : list B) :
  sum_list_with (λ c, (f c + g c)%nat) l
  = (sum_list_with f l + sum_list_with g l)%nat.
Proof. induction l; simpl; lia. Qed.

Lemma sum_list_with_zero (l : list B) :
  sum_list_with (λ _ : B, 0%nat) l = 0%nat.
Proof. induction l; simpl; lia. Qed.

(** Exactly one element of a duplicate-free list is [x]. *)
Lemma sum_indicator (x : B) (Q : Prop) `{!Decision Q} (l : list B) :
  NoDup l → x ∈ l →
  sum_list_with (λ c, if decide (x = c ∧ Q) then 1%nat else 0%nat) l
  = if decide Q then 1%nat else 0%nat.
Proof.
  induction 1 as [|c l Hc Hl IH]; intros Hx; [by apply not_elem_of_nil in Hx|].
  simpl. apply elem_of_cons in Hx as [->|Hx].
  - assert (sum_list_with
              (λ c0, if decide (c = c0 ∧ Q) then 1%nat else 0%nat) l = 0%nat)
      as ->.
    { clear IH Hl. induction l as [|c' l IHl]; [done|]. simpl.
      rewrite decide_False.
      - apply IHl. intros Hin. apply Hc. by right.
      - intros [-> _]. apply Hc. left. }
    destruct (decide Q); [rewrite decide_True by done|rewrite decide_False by tauto];
      lia.
  - rewrite decide_False; [by rewrite IH|]. intros [-> _]. contradiction.
Qed.

(** Rows split by the value of [f] add up to all the rows. *)
Lemma sum_filter_partition (f : A → B) (Q : A → Prop) `{!∀ x, Decision (Q x)}
    (heads : list B) (rs : list A) :
  NoDup heads → (∀ r, r ∈ rs → f r ∈ heads) →
  sum_list_with (λ c, length (filter (λ r, f r = c ∧ Q r) rs)) heads
  = length (filter Q rs).
Proof.
  intros Hnd. induction rs as [|r rs IH]; intros Hin.
  - simpl. apply sum_list_with_zero.
  - assert (∀ c, length (filter (λ r0, f r0 = c ∧ Q r0) (r :: rs))
                 = ((if decide (f r = c ∧ Q r) then 1 else 0)
                    + length (filter (λ r0, f r0 = c ∧ Q r0) rs))%nat) as Hc.
    { intros c. rewrite filter_cons. by destruct (decide _). }
    rewrite (sum_list_with_pointwise _ _ heads Hc).
    rewrite sum_list_with_add, IH by (intros x Hx; apply Hin; by right).
    rewrite sum_indicator by (done || apply Hin; left).
    rewrite filter_cons. by destruct (decide (Q r)).
Qed.
End counting.

(** ** The shape of the matrix *)

(** A matrix that comes out of lines 33 and 34: its rows are the groups, its
    columns [User_ID], [Month] and one count column per head. *)
Lemma pivot_counts_Ok (df P : DataFrame) :
  pivot_counts df = Ok P → P = matrix_of df.
Proof.
  unfold matrix_of.
  unfold pivot_counts, pivot_table.
  destruct (first_missing df _); [discriminate|].
  cbn [result_bind]. unfold reset_index, fillna.
  cbn [df_index df_cols df_len imap reverse rev_append app].
  fold (pivot_groups df) (pivot_heads df).
  unfold compose. cbn [insert_front fst].
  destruct (bool_decide (MONTH ∈ _)); [discriminate|].
  destruct (bool_decide (USER_ID ∈ _)); [discriminate|].
  cbn [result_bind]. intros [= <-]. do 3 f_equal.
  rewrite <- list_fmap_compose. apply list_fmap_ext. intros _ c _. simpl.
  f_equal. rewrite <- list_fmap_compose. apply list_fmap_ext. intros _ g _.
  simpl. destruct (group_of df [USER_ID; MONTH] COMPONENT g c); reflexivity.
Qed.

Lemma fmap_seq_lookup {A B} (l : list A) (F : A → B) (G : nat → B) :
  (∀ k x, l !! k = Some x → G k = F x) →
  G <$> seq 0 (length l) = F <$> l.
Proof.
  intros H. apply list_eq. intros k. rewrite !list_lookup_fmap.
  destruct (l !! k) as [x|] eqn:E; simpl.
  - rewrite lookup_seq_lt by (by eapply lookup_lt_Some). simpl.
    f_equal. by apply H.
  - rewrite lookup_seq_ge by (by apply lookup_ge_None). reflexivity.
Qed.

Lemma elem_of_grouped_rows (df : DataFrame) (r : nat) :
  r ∈ grouped_rows df [USER_ID; MONTH; COMPONENT]
  ↔ (r < df_len df)%nat ∧ cell df USER_ID r ≠ NaN ∧ cell df MONTH r ≠ NaN
    ∧ cell df COMPONENT r ≠ NaN.
Proof.
  unfold grouped_rows. rewrite list_elem_of_filter, elem_of_seq. simpl.
  unfold present. rewrite !andb_true_iff, !bool_decide_eq_true. split.
  - intros [(Hu & Hm & Hc & _) Hr]. repeat split; (done || lia).
  - intros (Hr & Hu & Hm & Hc). repeat split; (done || lia).
Qed.

(** A group is the pair of cells of a row that enters the pivot. *)
Lemma elem_of_pivot_groups (df : DataFrame) (g : list value) :
  g ∈ pivot_groups df
  ↔ ∃ r, r ∈ grouped_rows df [USER_ID; MONTH; COMPONENT]
         ∧ g = [cell df USER_ID r; cell df MONTH r].
Proof.
  unfold pivot_groups. rewrite elem_of_sorted_unique, list_elem_of_fmap.
  split; intros (r & H1 & H2); exists r; done.
Qed.

Lemma elem_of_pivot_heads (df : DataFrame) (r : nat) :
  r ∈ grouped_rows df [USER_ID; MONTH; COMPONENT] →
  cell df COMPONENT r ∈ pivot_heads df.
Proof.
  intros Hr. unfold pivot_heads. rewrite elem_of_sorted_unique.
  apply list_elem_of_fmap. by exists r.
Qed.

Lemma cell_sum_counts {B} (f : B → nat) (l : list B) :
  cell_sum ((λ c, Int (Z.of_nat (f c))) <$> l) = Z.of_nat (sum_list_with f l).
Proof.
  induction l as [|c l IH]; [done|].
  rewrite fmap_cons. cbn [cell_sum foldr sum_list_with].
  fold (cell_sum ((λ c, Int (Z.of_nat (f c))) <$> l)). rewrite IH. lia.
Qed.

(** The cells of one row of the pivot add up to the rows of its group whose
    action is recorded. *)
Lemma pivot_row_sum (df : DataFrame) (g : list value) :
  sum_list_with
    (λ c, count_of df ACTION (group_of df [USER_ID; MONTH] COMPONENT g c))
    (pivot_heads df)
  = length (filter (λ r, key_tuple df [USER_ID; MONTH] r = g
                         ∧ present (cell df ACTION r) = true)
              (grouped_rows df [USER_ID; MONTH; COMPONENT])).
Proof.
  rewrite <- (sum_filter_partition (λ r, cell df COMPONENT r)
                (λ r, key_tuple df [USER_ID; MONTH] r = g
                      ∧ present (cell df ACTION r) = true)
                (pivot_heads df)).
  - apply sum_list_with_pointwise. intros c. unfold count_of, group_of.
    rewrite list_filter_filter. f_equal. apply list_filter_iff.
    intros r. tauto.
  - apply NoDup_sorted_unique.
  - intros r Hr. by apply elem_of_pivot_heads.
Qed.

(** Two labels of the program are two different texts. *)
Ltac distinct_labels :=
  unfold USER_ID, MONTH, COMPONENT, ACTION, DATE, ANONYMIZED; discriminate.

(** The matrix of lines 30 to 34, read against the merged table. *)
Lemma reshape_matrix (df df2 P : DataFrame) :
  with_month df = Ok df2 → pivot_counts df2 = Ok P →
  NoDup (matrix_keys P)
  ∧ (∀ u mo, (u, mo) ∈ matrix_keys P
       ↔ ∃ r, (r < df_len df)%nat ∧ cell df USER_ID r = u
              ∧ month_of (cell df DATE r) = mo
              ∧ u ≠ NaN ∧ mo ≠ NaN ∧ cell df COMPONENT r ≠ NaN)
  ∧ ∀ k, (k < df_len P)%nat →
      Forall (λ v, ∃ n : nat, v = Int (Z.of_nat n)) (component_cells P k)
      ∧ cell_sum (component_cells P k)
        = Z.of_nat (length (counted_rows df (cell P USER_ID k) (cell P MONTH k))).
Proof.
  intros Hw Hp. apply pivot_counts_Ok in Hp. subst P. unfold matrix_of.
  destruct (with_month_Ok df df2 Hw) as (Hlen & Hmonth & Hother & _).
  assert (Hrow : ∀ r, (r < df_len df)%nat →
            cell df2 USER_ID r = cell df USER_ID r
            ∧ cell df2 MONTH r = month_of (cell df DATE r)
            ∧ cell df2 COMPONENT r = cell df COMPONENT r
            ∧ cell df2 ACTION r = cell df ACTION r).
  { intros r Hr. rewrite (Hother USER_ID), (Hother COMPONENT), (Hother ACTION)
      by distinct_labels. by rewrite Hmonth. }
  assert (Hcells : ∀ k g, pivot_groups df2 !! k = Some g →
            cell {| df_len := length (pivot_groups df2);
                    df_index := [];
                    df_cols :=
                      (USER_ID, (λ g, at_row 0 g) <$> pivot_groups df2)
                      :: (MONTH, (λ g, at_row 1 g) <$> pivot_groups df2)
                      :: ((λ c, (c, (λ g, Int (Z.of_nat
                              (count_of df2 ACTION
                                 (group_of df2 [USER_ID; MONTH] COMPONENT g c))))
                                      <$> pivot_groups df2))
                            <$> pivot_heads df2) |} USER_ID k = at_row 0 g
            ∧ cell {| df_len := length (pivot_groups df2);
                    df_index := [];
                    df_cols :=
                      (USER_ID, (λ g, at_row 0 g) <$> pivot_groups df2)
                      :: (MONTH, (λ g, at_row 1 g) <$> pivot_groups df2)
                      :: ((λ c, (c, (λ g, Int (Z.of_nat
                              (count_of df2 ACTION
                                 (group_of df2 [USER_ID; MONTH] COMPONENT g c))))
                                      <$> pivot_groups df2))
                            <$> pivot_heads df2) |} MONTH k = at_row 1 g).
  { intros k g Hk. unfold cell. cbn [df_cols assoc fst snd].
    split.
    - destruct (decide (USER_ID = USER_ID)) as [_|N]; [|done].
      unfold at_row at 1. by rewrite list_lookup_fmap, Hk.
    - destruct (decide (USER_ID = MONTH)) as [E|_]; [discriminate E|].
      destruct (decide (MONTH = MONTH)) as [_|N]; [|done].
      unfold at_row at 1. by rewrite list_lookup_fmap, Hk. }
  set (P := {| df_len := _ |}) in *.
  assert (Hkeys : matrix_keys P
                  = (λ g, (at_row 0 g, at_row 1 g)) <$> pivot_groups df2).
  { unfold matrix_keys. change (df_len P) with (length (pivot_groups df2)).
    apply fmap_seq_lookup. intros k g Hk.
    destruct (Hcells k g Hk) as [-> ->]. done. }
  split; [|split].
  - rewrite Hkeys. apply NoDup_fmap_2_strong; [|apply NoDup_sorted_unique].
    intros x y (rx & _ & ->)%elem_of_pivot_groups
               (ry & _ & ->)%elem_of_pivot_groups.
    cbn. congruence.
  - intros u mo. rewrite Hkeys, list_elem_of_fmap. split.
    + intros (g & Heq & (r & Hr & ->)%elem_of_pivot_groups).
      apply elem_of_grouped_rows in Hr as (Hr & Hu & Hm & Hc).
      rewrite Hlen in Hr. destruct (Hrow r Hr) as (Eu & Em & Ec & _).
      cbn in Heq. injection Heq as -> ->.
      exists r. rewrite <- Eu, <- Em, <- Ec. done.
    + intros (r & Hr & <- & <- & Hu & Hm & Hc).
      destruct (Hrow r Hr) as (Eu & Em & Ec & _).
      exists [cell df2 USER_ID r; cell df2 MONTH r]. split.
      * cbn. by rewrite Eu, Em.
      * apply elem_of_pivot_groups. exists r. split; [|done].
        apply elem_of_grouped_rows. rewrite Hlen, Eu, Em, Ec. done.
  - intros k Hk. change (df_len P) with (length (pivot_groups df2)) in Hk.
    apply lookup_lt_is_Some in Hk as [g Hg].
    destruct (Hcells k g Hg) as [-> ->].
    assert (component_cells P k
            = (λ c, Int (Z.of_nat
                 (count_of df2 ACTION
                    (group_of df2 [USER_ID; MONTH] COMPONENT g c))))
                <$> pivot_heads df2) as ->.
    { unfold component_cells, row_at, P. cbn [df_cols fmap list_fmap drop].
      rewrite <- list_fmap_compose. apply list_fmap_ext. intros _ c _. simpl.
      unfold at_row. by rewrite list_lookup_fmap, Hg. }
    split.
    + apply Forall_fmap, Forall_forall. intros c _. simpl. eauto.
    + rewrite cell_sum_counts, pivot_row_sum. f_equal. f_equal.
      pose proof (list_elem_of_lookup_2 _ _ _ Hg) as Hin.
      apply elem_of_pivot_groups in Hin as (r0 & Hr0 & ->).
      apply elem_of_grouped_rows in Hr0 as (_ & Hu0 & Hm0 & _).
      change (at_row 0 [cell df2 USER_ID r0; cell df2 MONTH r0])
        with (cell df2 USER_ID r0).
      change (at_row 1 [cell df2 USER_ID r0; cell df2 MONTH r0])
        with (cell df2 MONTH r0).
      remember (cell df2 MONTH r0) as m0 eqn:Em0.
      remember (cell df2 USER_ID r0) as u0 eqn:Eu0. clear Em0 Eu0.
      unfold counted_rows, grouped_rows. rewrite list_filter_filter, Hlen.
      apply filter_ext_in. intros r Hr%elem_of_seq.
      destruct (Hrow r) as (Eu & Em & Ec & Ea); [lia|].
      cbn [key_tuple fmap list_fmap forallb]. unfold present.
      rewrite !andb_true_iff, !bool_decide_eq_true. rewrite Eu, Em, Ec, Ea.
      split.
      * intros [[[= Hu Hm] Ha] (_ & _ & Hc & _)]. done.
      * intros (Hu & Hm & Hc & Ha). subst u0 m0. done.
Qed.

(** ** The counts of the matrix *)

Lemma reshape_data_Ok (h : heap) (m : ref) (df : DataFrame) (p : ref) (h' : heap) :
  h !! m = Some df → reshape_data m h = (Ok p, h') →
  ∃ df2 P, with_month df = Ok df2 ∧ pivot_counts df2 = Ok P
           ∧ h' !! p = Some P ∧ h' !! m = Some df2.
Proof.
  intros Hm Hrun. rewrite (reshape_data_run m h df Hm) in Hrun.
  destruct (with_month df) as [df2|e].
  2:{ destruct (result_bind _ _); discriminate. }
  cbv zeta in Hrun. exists df2.
  destruct (pivot_table df2 _ _ _) as [table|] eqn:Ht; [|discriminate].
  destruct (reset_index _) as [P|] eqn:HP; [|discriminate].
  injection Hrun as <- <-. exists P. split; [done|]. split.
  - unfold pivot_counts. rewrite Ht. exact HP.
  - split; [apply lookup_insert_eq|].
    apply alloc_keeps, lookup_insert_eq.
Qed.


(** ** Counting along the indexers *)

Lemma positions_from_filter (n : nat) (v : value) (d : list value) :
  positions_from n v d
  = filter (λ j, d !! (j - n)%nat = Some v) (seq n (length d)).
Proof.
  revert n. induction d as [|x d IH]; intros n; [reflexivity|].
  cbn [positions_from length seq]. rewrite filter_cons, Nat.sub_diag.
  rewrite IH.
  assert (filter (λ j, d !! (j - S n)%nat = Some v) (seq (S n) (length d))
          = filter (λ j, (x :: d) !! (j - n)%nat = Some v) (seq (S n) (length d)))
    as ->.
  { apply filter_ext_in. intros j Hj%elem_of_seq.
    replace (j - n)%nat with (S (j - S n)) by lia. done. }
  simpl. destruct (decide (x = v)) as [->|Hne].
  - by rewrite decide_True.
  - rewrite decide_False by congruence. done.
Qed.

Lemma true_positions_filter (n : nat) (mask : list bool) :
  true_positions n mask
  = filter (λ j, mask !! (j - n)%nat = Some true) (seq n (length mask)).
Proof.
  revert n. induction mask as [|b mask IH]; intros n; [reflexivity|].
  cbn [true_positions length seq]. rewrite filter_cons, Nat.sub_diag.
  rewrite IH.
  assert (filter (λ j, mask !! (j - S n)%nat = Some true) (seq (S n) (length mask))
          = filter (λ j, (b :: mask) !! (j - n)%nat = Some true)
              (seq (S n) (length mask))) as ->.
  { apply filter_ext_in. intros j Hj%elem_of_seq.
    replace (j - n)%nat with (S (j - S n)) by lia. done. }
  simpl. destruct b.
  - by rewrite decide_True.
  - rewrite decide_False by congruence. done.
Qed.

(** Filtering positions by what they hold is filtering the elements. *)
Lemma length_filter_positions {A} (l : list A) (n : nat) (G : nat → Prop)
    (Q : A → Prop) `{!∀ r, Decision (G r)} `{!∀ x, Decision (Q x)} :
  (∀ r x, l !! r = Some x → G (n + r)%nat ↔ Q x) →
  length (filter G (seq n (length l))) = length (filter Q l).
Proof.
  revert n. induction l as [|a l IH]; intros n HG; [reflexivity|].
  cbn [length seq]. rewrite !filter_cons.
  assert (length (filter G (seq (S n) (length l))) = length (filter Q l)) as E.
  { apply IH. intros r x Hr. rewrite <- (HG (S r) x Hr).
    by replace (S n + r)%nat with (n + S r)%nat by lia. }
  pose proof (HG 0%nat a eq_refl) as Hhead. rewrite Nat.add_0_r in Hhead.
  destruct (decide (G n)) as [Hg|Hg].
  - rewrite decide_True by tauto. simpl. by rewrite E.
  - rewrite decide_False by tauto. exact E.
Qed.

Lemma filter_none {A} (P : A → Prop) `{!∀ x, Decision (P x)} (l : list A) :
  (∀ x, x ∈ l → ¬ P x) → filter P l = [].
Proof.
  induction l as [|a l IH]; intros Hl; [reflexivity|].
  rewrite filter_cons, decide_False by (apply Hl; left).
  apply IH. intros x Hx. apply Hl. by right.
Qed.

Lemma length_filter_fmap {A B} (f : A → B) (Q : B → Prop)
    `{!∀ x, Decision (Q x)} (l : list A) :
  length (filter Q (f <$> l)) = length (filter (λ x, Q (f x)) l).
Proof.
  induction l as [|a l IH]; [reflexivity|].
  rewrite fmap_cons, !filter_cons.
  destruct (decide (Q (f a))); simpl; by rewrite IH.
Qed.

(** A right row that satisfies [ψ] is paired with every left row that
    carries its key. *)
Lemma join_count (ψ : nat → Prop) `{!∀ j, Decision (ψ j)} (v : value)
    (n : nat) (lk rk : list value) :
  (∀ j, ψ j → rk !! j = Some v) →
  length (filter (λ ij : nat * nat, ψ ij.2) (join_from n lk rk))
  = (length (filter (λ x, x = v) lk)
     * length (filter ψ (seq 0 (length rk))))%nat.
Proof.
  intros Hψ. revert n. induction lk as [|x lk IH]; intros n; [reflexivity|].
  cbn [join_from]. rewrite filter_app, length_app, IH, filter_cons.
  rewrite length_filter_fmap. cbn [snd].
  rewrite positions_from_filter, list_filter_filter.
  destruct (decide (x = v)) as [->|Hne].
  - assert (filter (λ j, ψ j ∧ rk !! (j - 0)%nat = Some v) (seq 0 (length rk))
            = filter ψ (seq 0 (length rk))) as ->.
    { apply filter_ext_in. intros j _. rewrite Nat.sub_0_r.
      split; [tauto|]. intros Hj. split; [done|by apply Hψ]. }
    simpl. lia.
  - assert (filter (λ j, ψ j ∧ rk !! (j - 0)%nat = Some x) (seq 0 (length rk))
            = []) as ->.
    { apply filter_none. intros j _ [H1 H2].
      rewrite Nat.sub_0_r in H2. rewrite (Hψ j H1) in H2. congruence. }
    simpl. lia.
Qed.

(** ** The merged table against the two raw tables *)

Lemma kept_positions_assoc (A : DataFrame) (d : list value) :
  assoc COMPONENT (df_cols A) = Some d →
  kept_positions A
  = true_positions 0 (negb <$> isin (normalise (df_len A) d) excluded).
Proof. intros Hd. unfold kept_positions, getitem. by rewrite Hd. Qed.

Lemma elem_of_kept_positions (A : DataFrame) (j : nat) :
  j ∈ kept_positions A → (j < df_len A)%nat ∧ cell A COMPONENT j ∉ excluded.
Proof.
  unfold kept_positions, getitem.
  destruct (assoc COMPONENT (df_cols A)) as [d|] eqn:Hd.
  - by intros ?%(kept_positions_spec A d j Hd).
  - by intros ?%not_elem_of_nil.
Qed.

Lemma kept_positions_filter (A : DataFrame) :
  COMPONENT ∈ columns A →
  kept_positions A
  = filter (λ j, cell A COMPONENT j ∉ excluded) (seq 0 (df_len A)).
Proof.
  intros (comp & Hg)%getitem_present. unfold getitem in Hg.
  destruct (assoc COMPONENT (df_cols A)) as [d|] eqn:Hd; [|discriminate].
  rewrite (kept_positions_assoc A d Hd), true_positions_filter.
  assert (length (negb <$> isin (normalise (df_len A) d) excluded) = df_len A)
    as ->.
  { unfold isin. by rewrite !length_fmap, length_normalise. }
  apply filter_ext_in. intros j Hj%elem_of_seq. split.
  - intros Hm.
    assert (j ∈ true_positions 0
                  (negb <$> isin (normalise (df_len A) d) excluded)) as Hin
      by (apply true_positions_spec; split; [lia|done]).
    by apply (kept_positions_spec A d j Hd) in Hin as [_ Hex].
  - intros Hex.
    assert (j ∈ true_positions 0
                  (negb <$> isin (normalise (df_len A) d) excluded)) as Hin
      by (apply (kept_positions_spec A d j Hd); split; [lia|done]).
    by apply true_positions_spec in Hin as [_ Hm].
Qed.

Lemma clean_and_transform_merged (h : heap) (u a c : ref) (U A : DataFrame)
    (m : ref) (h' : heap) :
  h !! u = Some U → h !! a = Some A →
  clean_and_transform u a c h = (Ok m, h') →
  ∃ M, COMPONENT ∈ columns A
       ∧ merge_frames (rename_columns ANONYMIZED USER_ID U)
           (rename_columns ANONYMIZED USER_ID (take_rows (kept_positions A) A))
           USER_ID = Ok M
       ∧ h' !! m = Some M.
Proof.
  intros Hu Ha Hrun.
  destruct (clean_and_transform_Ok h u a c U A m h' Hu Ha Hrun)
    as (d & M & Hd & HM & Hm). cbv zeta in HM.
  exists M. rewrite (kept_positions_assoc A d Hd). split; [|done].
  apply assoc_Some in Hd. apply list_elem_of_fmap. by exists (COMPONENT, d).
Qed.

(** A cell of a joined row under a label only the right table has. *)
Lemma merge_frames_right_cell (L R : DataFrame) (key : label) (s : string)
    (M : DataFrame) (r i j : nat) :
  last_char s ≠ Some "x"%char → last_char s ≠ Some "y"%char →
  Str s ≠ key → Str s ∉ columns L →
  merge_frames L R key = Ok M →
  merge_indexers L R key !! r = Some (i, j) →
  cell M (Str s) r = cell R (Str s) j.
Proof.
  intros Hx Hy Hkey HL. unfold merge_frames, merge_indexers.
  destruct (key_column R key) as [rk|]; [|discriminate].
  destruct (key_column L key) as [lk|]; [|discriminate].
  destruct (keys_clash lk rk); [discriminate|].
  destruct (suffix_duplicates _ _); [|discriminate].
  intros [= <-] Hr. unfold cell. simpl.
  rewrite assoc_app, (assoc_suffixed "_x"), (assoc_suffixed "_y") by done.
  apply assoc_None in HL. rewrite HL.
  rewrite (bool_decide_eq_false_2 (Str s ∈ columns L)) by (by apply assoc_None).
  rewrite assoc_filter_ne by done.
  destruct (bool_decide _); simpl;
    (destruct (assoc (Str s) (df_cols R)); simpl; [|done];
     apply at_row_gather; by rewrite list_lookup_fmap, Hr).
Qed.

Lemma columns_rename_columns (old new l : label) (X : DataFrame) :
  l ∈ columns (rename_columns old new X) → l = new ∨ l ∈ columns X.
Proof.
  unfold columns, rename_columns. simpl. rewrite <- list_fmap_compose.
  intros (c & -> & Hc)%list_elem_of_fmap. simpl.
  destruct (decide (c.1 = old)); [by left|right].
  apply list_elem_of_fmap. by exists c.
Qed.

(** The rows and the cells of the merged table, by the indexers. *)
Lemma merged_rows (U A M : DataFrame) :
  merge_frames (rename_columns ANONYMIZED USER_ID U)
    (rename_columns ANONYMIZED USER_ID (take_rows (kept_positions A) A))
    USER_ID = Ok M →
  df_len M = length (transform_indexers U A)
  ∧ ∀ r i j, transform_indexers U A !! r = Some (i, j) →
      (i < df_len U)%nat ∧ j ∈ kept_positions A
      ∧ identifier U i = identifier A j
      ∧ cell M USER_ID r = identifier A j
      ∧ row_at M r = row_at U i ++ activity_part A j
      ∧ ∀ s, last_char s ≠ Some "x"%char → last_char s ≠ Some "y"%char →
             Str s ≠ USER_ID → Str s ≠ ANONYMIZED → Str s ∉ columns U →
             cell M (Str s) r = cell A (Str s) j.
Proof.
  intros HM. unfold transform_indexers.
  pose proof (merge_frames_rows _ _ _ _ HM) as [Hlen Hrows].
  split; [by rewrite length_fmap|].
  intros r i j Hr. rewrite list_lookup_fmap in Hr.
  destruct (merge_indexers _ _ _ !! r) as [[i0 j']|] eqn:Hij; [|discriminate].
  simpl in Hr. injection Hr as -> <-.
  pose proof (list_elem_of_lookup_2 _ _ _ Hij) as Hin.
  apply merge_indexers_spec in Hin as (Hi & Hj' & Hkey). simpl in Hi, Hj'.
  apply lookup_lt_is_Some in Hj' as [j Hj]. rewrite Hj. simpl.
  assert (cell M USER_ID r = identifier U i) as Hcell.
  { unfold USER_ID. eapply merge_frames_key_cell; [|exact HM|exact Hij].
    vm_compute. discriminate. }
  split; [done|]. split; [by eapply list_elem_of_lookup_2|].
  fold (identifier U i) in Hkey.
  rewrite (identifier_take_rows _ A j' j Hj) in Hkey.
  split; [done|]. split; [congruence|]. split.
  - rewrite (Hrows r i j' Hij), row_at_rename_columns. f_equal.
    by apply activity_part_take_rows.
  - intros s Hx Hy Hs1 Hs2 HsU.
    assert (Str s ∉ columns (rename_columns ANONYMIZED USER_ID U)) as HsU'
      by (intros [?|?]%columns_rename_columns; done).
    rewrite (merge_frames_right_cell _ _ USER_ID s M r i j' Hx Hy Hs1 HsU' HM Hij).
    rewrite cell_rename_columns_other by done. by apply cell_take_rows.
Qed.

Lemma join_count_pairs (φ : nat * nat → Prop) (ψ : nat → Prop)
    `{!∀ ij, Decision (φ ij)} `{!∀ j, Decision (ψ j)} (v : value)
    (lk rk : list value) :
  (∀ ij, ij ∈ join_from 0 lk rk → φ ij ↔ ψ ij.2) →
  (∀ j, ψ j → rk !! j = Some v) →
  length (filter φ (join_from 0 lk rk))
  = (length (filter (λ x, x = v) lk)
     * length (filter ψ (seq 0 (length rk))))%nat.
Proof.
  intros Hφ Hψ. rewrite (filter_ext_in φ (λ ij : nat * nat, ψ ij.2)) by done.
  by apply join_count.
Qed.

(** Activity rows that satisfy [ψ] and carry the identifier [v] enter the
    merged table once per user row with that identifier. *)
Lemma transform_indexers_count (U A M : DataFrame) (φ : nat * nat → Prop)
    (ψ : nat → Prop) `{!∀ ij, Decision (φ ij)} `{!∀ j, Decision (ψ j)}
    (v : value) :
  COMPONENT ∈ columns A →
  merge_frames (rename_columns ANONYMIZED USER_ID U)
    (rename_columns ANONYMIZED USER_ID (take_rows (kept_positions A) A))
    USER_ID = Ok M →
  (∀ ij, φ ij ↔ ψ ij.2) →
  (∀ j, (j < df_len A)%nat → ψ j →
        identifier A j = v ∧ cell A COMPONENT j ∉ excluded) →
  length (filter φ (transform_indexers U A))
  = (occurrences U v * length (filter ψ (seq 0 (df_len A))))%nat.
Proof.
  intros Hcomp HM Hφ Hψ.
  rewrite (filter_ext_in φ (λ ij : nat * nat, ψ ij.2)) by done.
  unfold transform_indexers.
  rewrite length_filter_fmap. cbn [snd].
  set (kept := kept_positions A) in *.
  unfold merge_indexers. unfold merge_frames in HM.
  destruct (key_column (rename_columns _ _ (take_rows _ _)) USER_ID)
    as [rk|] eqn:Er; [|discriminate].
  destruct (key_column (rename_columns _ _ U) USER_ID) as [lk|] eqn:El;
    [|discriminate].
  clear HM.
  apply key_column_Ok in El as (dl & Hl & ->).
  apply key_column_Ok in Er as (dr & Hr & ->).
  unfold join_indexers.
  rewrite (join_count_pairs _
             (λ j', ψ (default 0%nat (kept !! j')) ∧ (j' < length kept)%nat) v).
  - f_equal.
    + unfold normalise, gather, occurrences. rewrite length_filter_fmap.
      f_equal. apply filter_ext_in. intros i _.
      unfold identifier, cell. by rewrite Hl.
    + rewrite length_normalise. change (df_len (rename_columns ANONYMIZED USER_ID (take_rows kept A)))
      with (length kept).
      rewrite (length_filter_positions kept 0 _ ψ).
      * unfold kept. rewrite kept_positions_filter by done.
        rewrite list_filter_filter. f_equal. apply filter_ext_in.
        intros j Hj%elem_of_seq. split; [tauto|].
        intros Hj'. split; [done|]. by apply Hψ; [lia|].
      * intros r x Hrx. simpl. rewrite Hrx. simpl.
        pose proof (lookup_lt_Some _ _ _ Hrx). tauto.
  - intros [i j'] (_ & y & _ & Hj')%join_from_spec.
    apply lookup_lt_Some in Hj'. rewrite length_normalise in Hj'.
    change (df_len (rename_columns ANONYMIZED USER_ID (take_rows kept A)))
      with (length kept) in Hj'. simpl. tauto.
  - intros j' [Hj Hlt]. change (df_len (rename_columns ANONYMIZED USER_ID (take_rows kept A)))
      with (length kept).
    rewrite lookup_normalise by done. f_equal.
    apply lookup_lt_is_Some in Hlt as [j Hkj]. rewrite Hkj in Hj. simpl in Hj.
    pose proof (identifier_take_rows kept A j' j Hkj) as Hid.
    unfold cell in Hid. rewrite Hr in Hid. rewrite Hid.
    apply Hψ; [|done].
    by apply (elem_of_kept_positions A j), (list_elem_of_lookup_2 _ j').
Qed.

Lemma length_filter_eq_seq (n j : nat) :
  (j < n)%nat → length (filter (λ x, x = j) (seq 0 n)) = 1%nat.
Proof.
  induction n as [|n IH]; [lia|]. intros Hj.
  rewrite seq_S, filter_app, length_app. simpl.
  destruct (decide (j = n)) as [->|Hne].
  - rewrite filter_none by (intros x Hx%elem_of_seq; lia).
    rewrite filter_cons, decide_True by done. reflexivity.
  - rewrite IH by lia. rewrite filter_cons, decide_False by congruence.
    reflexivity.
Qed.

(** ** No excluded component in the merged records *)

(** C3: every row of the table the cleaning step returns is a user row
    followed by an activity row (without its identifier) whose [Component] is
    neither "System" nor "Folder"; when the user table has no [Component]
    column of its own, that is the [Component] cell of the output row.  No
    activity row with an excluded component appears in the output. *)
Theorem transform_excludes (h : heap) (u a c : ref) (U A : DataFrame)
    (m : ref) (h' : heap) :
  h !! u = Some U → h !! a = Some A →
  clean_and_transform u a c h = (Ok m, h') →
  ∃ M, h' !! m = Some M
       ∧ ∀ r, (r < df_len M)%nat →
           ∃ i j, (i < df_len U)%nat ∧ (j < df_len A)%nat
                  ∧ (cell A COMPONENT j ∉ excluded)
                  ∧ row_at M r = row_at U i ++ activity_part A j
                  ∧ (COMPONENT ∉ columns U →
                     cell M COMPONENT r = cell A COMPONENT j).
Proof.
  intros Hu Ha Hrun.
  destruct (clean_and_transform_merged h u a c U A m h' Hu Ha Hrun)
    as (M & _ & HM & Hm).
  destruct (merged_rows U A M HM) as [Hlen Hrows].
  exists M. split; [exact Hm|]. intros r Hr.
  rewrite Hlen in Hr. apply lookup_lt_is_Some in Hr as [[i j] Hij].
  destruct (Hrows r i j Hij) as (Hi & Hj & _ & _ & Hrow & Hcell).
  apply elem_of_kept_positions in Hj as [Hj Hex].
  exists i, j. split; [done|]. split; [done|]. split; [done|].
  split; [done|]. intros HU.
  apply (Hcell "Component"%string); (done || vm_compute; discriminate).
Qed.

Lemma transform_excludes_witness :
  ∃ M, scenario_cleaned !! 4%nat = Some M
       ∧ ∀ r, (r < df_len M)%nat →
           ∃ i j, (i < df_len scenario_users)%nat
                  ∧ (j < df_len scenario_activity)%nat
                  ∧ (cell scenario_activity COMPONENT j ∉ excluded)
                  ∧ row_at M r
                    = row_at scenario_users i ++ activity_part scenario_activity j
                  ∧ (COMPONENT ∉ columns scenario_users →
                     cell M COMPONENT r = cell scenario_activity COMPONENT j).
Proof.
  apply (transform_excludes scenario_heap 0%nat 1%nat 2%nat scenario_users
           scenario_activity 4%nat scenario_cleaned);
    vm_compute; reflexivity.
Defined.

(** ** Inner join: no unmatched identifier *)

Lemma has_str_ints (d : list value) :
  (∀ v, v ∈ d → is_int v = true) → has_str d = false.
Proof.
  induction d as [|x d IH]; intros Hd; [reflexivity|].
  unfold has_str. simpl. fold (has_str d).
  rewrite IH by (intros v Hv; apply Hd; by right).
  assert (is_int x = true) as Hx by (apply Hd; left).
  by destruct x.
Qed.

Lemma has_int_strs (d : list value) :
  (∀ v, v ∈ d → is_str v = true) → has_int d = false.
Proof.
  induction d as [|x d IH]; intros Hd; [reflexivity|].
  unfold has_int. simpl. fold (has_int d).
  rewrite IH by (intros v Hv; apply Hd; by right).
  assert (is_str x = true) as Hx by (apply Hd; left).
  by destruct x.
Qed.

(** Key columns of one kind pass the comparison of their types. *)
Lemma keys_clash_same_kind (lk rk : list value) :
  ((∀ v, v ∈ lk → is_int v = true) ∧ (∀ v, v ∈ rk → is_int v = true))
  ∨ ((∀ v, v ∈ lk → is_str v = true) ∧ (∀ v, v ∈ rk → is_str v = true)) →
  keys_clash lk rk = false.
Proof.
  unfold keys_clash, number_key, text_key. intros [[Hl Hr]|[Hl Hr]].
  - rewrite (has_str_ints lk Hl), (has_str_ints rk Hr). simpl.
    by rewrite !andb_false_r.
  - rewrite (has_int_strs lk Hl), (has_int_strs rk Hr). simpl.
    by rewrite !andb_false_r.
Qed.

Lemma columns_rename_fmap (old new : label) (X : DataFrame) :
  columns (rename_columns old new X)
  = (λ l, if decide (l = old) then new else l) <$> columns X.
Proof.
  unfold columns, rename_columns. simpl. rewrite <- !list_fmap_compose.
  by apply list_fmap_ext.
Qed.

Lemma columns_drop_column (key : label) (X Y : DataFrame) :
  columns X = columns Y →
  columns (drop_column key X) = columns (drop_column key Y).
Proof.
  unfold columns, drop_column, keep_columns. cbn [df_cols].
  generalize (df_cols X) (df_cols Y). intros cx.
  induction cx as [|c cx IH]; intros [|c' cy]; try done.
  rewrite !fmap_cons. intros [= Hc Hcs]. rewrite !filter_cons, Hc.
  destruct (decide (bool_decide (c'.1 ≠ key) = true)).
  - rewrite !fmap_cons, Hc. f_equal. by apply IH.
  - by apply IH.
Qed.

(** The key column of the renamed table holds the identifiers. *)
Lemma key_column_identifiers (X : DataFrame) (k : list value) (v : value) :
  key_column (rename_columns ANONYMIZED USER_ID X) USER_ID = Ok k →
  v ∈ k → ∃ i, (i < df_len X)%nat ∧ v = identifier X i.
Proof.
  intros (d & Hd & ->)%key_column_Ok
         (i & -> & Hi%elem_of_seq)%list_elem_of_fmap.
  exists i. split; [simpl in Hi; lia|].
  unfold identifier, cell. by rewrite Hd.
Qed.

Lemma identifier_mask_rows (mask : list bool) (A : DataFrame) (j : nat) :
  (j < df_len (mask_rows mask A))%nat →
  ∃ i, (i < length mask)%nat
       ∧ identifier (mask_rows mask A) j = identifier A i.
Proof.
  unfold mask_rows. intros Hj. cbn [df_len take_rows] in Hj.
  apply lookup_lt_is_Some in Hj as [i Hi]. exists i. split.
  - apply list_elem_of_lookup_2, true_positions_spec in Hi as [_ Hi].
    rewrite Nat.sub_0_r in Hi. by eapply lookup_lt_Some.
  - by apply identifier_take_rows.
Qed.

(** C4, as the code has it: the [User_ID] of every row of the table the
    cleaning step returns is the identifier of a row of the user table and
    of a row of the activity table; and the step returns, whatever rows are
    without a match (they are left out), when each table has its identifier
    column, the activity table its [Component] column, the identifiers of
    the two tables are of one kind (all numbers, or all texts) and the
    suffixes repeat no label. *)
Theorem transform_inner_join (h : heap) (u a c : ref) (U A : DataFrame) :
  h !! u = Some U → h !! a = Some A →
  (COMPONENT ∈ columns A →
   length (identifier_labels U) = 1%nat →
   length (identifier_labels A) = 1%nat →
   same_kind_identifiers U A →
   merge_suffix_duplicates U A = [] →
   ∃ (m : ref) (h' : heap), clean_and_transform u a c h = (Ok m, h'))
  ∧ ∀ (m : ref) (h' : heap),
      clean_and_transform u a c h = (Ok m, h') →
      ∃ M, h' !! m = Some M
           ∧ ∀ r, (r < df_len M)%nat →
               ∃ i j, (i < df_len U)%nat ∧ (j < df_len A)%nat
                      ∧ cell M USER_ID r = identifier U i
                      ∧ cell M USER_ID r = identifier A j.
Proof.
  intros Hu Ha. split.
  - intros Hcomp HU HA Hkind Hdups.
    pose proof (clean_and_transform_run u a c h U A Hu Ha) as Hrun.
    apply getitem_present in Hcomp as [comp Hg]. rewrite Hg in Hrun.
    cbv zeta in Hrun.
    assert (length comp = df_len A) as Hlen.
    { unfold getitem in Hg. destruct (assoc _ _); [|discriminate].
      injection Hg as <-. apply length_normalise. }
    destruct (key_column_single (rename_columns ANONYMIZED USER_ID U) USER_ID)
      as (cu & _ & Hl); [by rewrite key_columns_rename|].
    destruct (key_column_single
                (rename_columns ANONYMIZED USER_ID (kept_activity A comp))
                USER_ID) as (ca & _ & Hr);
      [by rewrite key_columns_rename, identifier_labels_kept|].
    destruct (merge_frames_total _ _ USER_ID _ _ Hl Hr) as [M HM].
    + apply keys_clash_same_kind.
      assert (∀ v, v ∈ normalise
                         (df_len (rename_columns ANONYMIZED USER_ID
                                    (kept_activity A comp))) ca.2 →
                ∃ j, (j < df_len A)%nat ∧ v = identifier A j) as Hright.
      { intros v Hv.
        destruct (key_column_identifiers _ _ v Hr Hv) as (j & Hj & ->).
        unfold kept_activity in *.
        destruct (identifier_mask_rows _ A j Hj) as (i & Hi & ->).
        exists i. split; [|done].
        unfold isin in Hi. by rewrite !length_fmap, Hlen in Hi. }
      destruct Hkind as [[HkU HkA]|[HkU HkA]]; [left|right]; split.
      * intros v (i & Hi & ->)%(key_column_identifiers U _ v Hl). by apply HkU.
      * intros v (j & Hj & ->)%Hright. by apply HkA.
      * intros v (i & Hi & ->)%(key_column_identifiers U _ v Hl). by apply HkU.
      * intros v (j & Hj & ->)%Hright. by apply HkA.
    + unfold merge_suffix_duplicates in Hdups. rewrite <- Hdups. f_equal.
      apply columns_drop_column. rewrite !columns_rename_fmap.
      unfold kept_activity. by rewrite columns_mask_rows.
    + rewrite HM in Hrun. eauto.
  - intros m h' Hrun.
    destruct (clean_and_transform_merged h u a c U A m h' Hu Ha Hrun)
      as (M & _ & HM & Hm).
    destruct (merged_rows U A M HM) as [Hlen Hrows].
    exists M. split; [exact Hm|]. intros r Hr.
    rewrite Hlen in Hr. apply lookup_lt_is_Some in Hr as [[i j] Hij].
    destruct (Hrows r i j Hij) as (Hi & Hj & Hid & Hcell & _).
    apply elem_of_kept_positions in Hj as [Hj _].
    exists i, j. rewrite Hcell. done.
Qed.

Lemma transform_inner_join_witness :
  (∃ (m : ref) (h' : heap),
     clean_and_transform 0%nat 1%nat 2%nat scenario_heap = (Ok m, h'))
  ∧ ∀ (m : ref) (h' : heap),
      clean_and_transform 0%nat 1%nat 2%nat scenario_heap = (Ok m, h') →
      ∃ M, h' !! m = Some M
           ∧ ∀ r, (r < df_len M)%nat →
               ∃ i j, (i < df_len scenario_users)%nat
                      ∧ (j < df_len scenario_activity)%nat
                      ∧ cell M USER_ID r = identifier scenario_users i
                      ∧ cell M USER_ID r = identifier scenario_activity j.
Proof.
  destruct (transform_inner_join scenario_heap 0%nat 1%nat 2%nat scenario_users
              scenario_activity) as [Htotal Hrows];
    [vm_compute; reflexivity | vm_compute; reflexivity |].
  split; [|exact Hrows]. apply Htotal.
  - refine (bool_decide_unpack _ _). vm_compute. exact I.
  - vm_compute; reflexivity.
  - vm_compute; reflexivity.
  - left. split.
    + intros i Hi. change (df_len scenario_users) with 2%nat in Hi.
      destruct i as [|[|i]]; [reflexivity | reflexivity | lia].
    + intros j Hj. change (df_len scenario_activity) with 6%nat in Hj.
      do 6 (destruct j as [|j]; [reflexivity|]). lia.
  - vm_compute; reflexivity.
Defined.

(** C4, as stated, fails: the user table writes its identifiers as numbers
    and the activity table as texts, so no row has a match; the rows are not
    dropped, the join raises (the library refuses to compare a column of
    numbers with a column of texts). *)
Lemma transform_rejects_mixed_keys :
  (∀ i j, (i < df_len scenario_users)%nat → (j < df_len text_activity)%nat →
     identifier scenario_users i ≠ identifier text_activity j)
  ∧ COMPONENT ∈ columns text_activity
  ∧ length (identifier_labels scenario_users) = 1%nat
  ∧ length (identifier_labels text_activity) = 1%nat
  ∧ ∃ h', clean_and_transform 0%nat 1%nat 2%nat mixed_heap
          = (Err KeyTypeError, h').
Proof.
  split; [|split; [|split; [|split]]].
  - intros i j Hi Hj. change (df_len scenario_users) with 2%nat in Hi.
    change (df_len text_activity) with 2%nat in Hj.
    destruct i as [|[|i]]; [| |lia];
      (destruct j as [|[|j]]; [| |lia]); vm_compute; discriminate.
  - refine (bool_decide_unpack _ _). vm_compute. exact I.
  - vm_compute. reflexivity.
  - vm_compute. reflexivity.
  - eexists. vm_compute. reflexivity.
Qed.

(** ** One cell of the matrix *)

Lemma matrix_of_key_cells (df : DataFrame) (k : nat) (g : list value) :
  pivot_groups df !! k = Some g →
  cell (matrix_of df) USER_ID k = at_row 0 g
  ∧ cell (matrix_of df) MONTH k = at_row 1 g.
Proof.
  intros Hk. unfold cell, matrix_of. cbn [df_cols assoc fst snd]. split.
  - destruct (decide (USER_ID = USER_ID)) as [_|N]; [|done].
    unfold at_row at 1. by rewrite list_lookup_fmap, Hk.
  - destruct (decide (USER_ID = MONTH)) as [E|_]; [discriminate E|].
    destruct (decide (MONTH = MONTH)) as [_|N]; [|done].
    unfold at_row at 1. by rewrite list_lookup_fmap, Hk.
Qed.

(** A component cell counts the merged rows of its user, month and
    component whose action is recorded. *)
Lemma matrix_cell (df df2 P : DataFrame) (k : nat) (c : value) (d : list value) :
  with_month df = Ok df2 → pivot_counts df2 = Ok P →
  (k < df_len P)%nat → (c, d) ∈ drop 2 (df_cols P) →
  (∃ r, (r < df_len df)%nat ∧ cell df COMPONENT r = c)
  ∧ at_row k d
    = Int (Z.of_nat (length (filter
             (λ r, cell df USER_ID r = cell P USER_ID k
                   ∧ month_of (cell df DATE r) = cell P MONTH k
                   ∧ cell df COMPONENT r = c ∧ cell df ACTION r ≠ NaN)
             (seq 0 (df_len df))))).
Proof.
  intros Hw Hp Hk Hcd. apply pivot_counts_Ok in Hp. subst P.
  destruct (with_month_Ok df df2 Hw) as (Hlen & Hmonth & Hother & _).
  assert (Hrow : ∀ r, (r < df_len df)%nat →
            cell df2 USER_ID r = cell df USER_ID r
            ∧ cell df2 MONTH r = month_of (cell df DATE r)
            ∧ cell df2 COMPONENT r = cell df COMPONENT r
            ∧ cell df2 ACTION r = cell df ACTION r).
  { intros r Hr.
    rewrite (Hother USER_ID), (Hother COMPONENT), (Hother ACTION)
      by distinct_labels.
    by rewrite Hmonth. }
  change (df_len (matrix_of df2)) with (length (pivot_groups df2)) in Hk.
  apply lookup_lt_is_Some in Hk as [g Hg].
  destruct (matrix_of_key_cells df2 k g Hg) as [-> ->].
  unfold matrix_of in Hcd. cbn [df_cols drop] in Hcd.
  apply list_elem_of_fmap in Hcd as (c' & [= -> ->] & Hc).
  unfold pivot_heads in Hc. rewrite elem_of_sorted_unique in Hc.
  apply list_elem_of_fmap in Hc as (r1 & -> & Hr1).
  apply elem_of_grouped_rows in Hr1 as (Hr1 & _ & _ & Hc1).
  rewrite Hlen in Hr1. destruct (Hrow r1 Hr1) as (_ & _ & Ec1 & _).
  split; [by exists r1|].
  unfold at_row at 1. rewrite list_lookup_fmap, Hg. simpl. do 2 f_equal.
  pose proof (list_elem_of_lookup_2 _ _ _ Hg) as Hin.
  apply elem_of_pivot_groups in Hin as (r0 & Hr0 & ->).
  apply elem_of_grouped_rows in Hr0 as (_ & Hu0 & Hm0 & _).
  change (at_row 0 [cell df2 USER_ID r0; cell df2 MONTH r0])
    with (cell df2 USER_ID r0).
  change (at_row 1 [cell df2 USER_ID r0; cell df2 MONTH r0])
    with (cell df2 MONTH r0).
  remember (cell df2 MONTH r0) as m0 eqn:Em0.
  remember (cell df2 USER_ID r0) as u0 eqn:Eu0. clear Em0 Eu0.
  unfold count_of, group_of, grouped_rows.
  rewrite !list_filter_filter, Hlen. f_equal.
  apply filter_ext_in. intros r Hr%elem_of_seq.
  destruct (Hrow r) as (Eu & Em & Ec & Ea); [lia|].
  cbn [key_tuple fmap list_fmap forallb app]. unfold present.
  rewrite !andb_true_iff, !bool_decide_eq_true. rewrite Eu, Em, Ec, Ea, Ec1.
  split.
  - intros [(Ha & [= Hu Hm] & Hc) _]. done.
  - intros (Hu & Hm & Hc & Ha). subst u0 m0.
    rewrite Hc. rewrite <- Ec1 at 3. done.
Qed.

(** ** Repeated user identifiers multiply the counts *)

(** When the user table has no [Component], [Action] or [Date] column of
    its own, a component cell of the matrix is the number of user rows with
    the cell's identifier times the number of activity rows of the cell's
    user, month and component whose action is recorded; the month of an
    activity row is here the month its date text is read to. *)
Lemma merged_counts_by_text (h : heap) (u a c : ref) (U A : DataFrame)
    (m : ref) (h1 : heap) (p : ref) (h2 : heap) :
  h !! u = Some U → h !! a = Some A →
  COMPONENT ∉ columns U → ACTION ∉ columns U → DATE ∉ columns U →
  clean_and_transform u a c h = (Ok m, h1) →
  reshape_data m h1 = (Ok p, h2) →
  ∃ M P,
    h1 !! m = Some M ∧ h2 !! p = Some P
    ∧ df_len M = length (transform_indexers U A)
    ∧ (∀ r i j, transform_indexers U A !! r = Some (i, j) →
         row_at M r = row_at U i ++ activity_part A j)
    ∧ (∀ j, (j < df_len A)%nat → cell A COMPONENT j ∉ excluded →
         length (filter (λ ij : nat * nat, ij.2 = j) (transform_indexers U A))
         = occurrences U (identifier A j))
    ∧ ∀ k comp d, (k < df_len P)%nat → (comp, d) ∈ drop 2 (df_cols P) →
        at_row k d
        = Int (Z.of_nat
                 (occurrences U (cell P USER_ID k)
                  * length (recorded_rows A (cell P USER_ID k)
                              (cell P MONTH k) comp))).
Proof.
  intros Hu Ha HUc HUa HUd Hclean Hreshape.
  destruct (clean_and_transform_merged h u a c U A m h1 Hu Ha Hclean)
    as (M & Hcomp & HM & Hm).
  destruct (reshape_data_Ok h1 m M p h2 Hm Hreshape)
    as (df2 & P & Hw & Hp & HP & _).
  destruct (merged_rows U A M HM) as [Hlen Hrows].
  exists M, P. split; [done|]. split; [done|]. split; [done|].
  split; [|split].
  - intros r i j Hr. by destruct (Hrows r i j Hr) as (_ & _ & _ & _ & ? & _).
  - intros j Hj Hex.
    rewrite (transform_indexers_count U A M _ (λ x, x = j) (identifier A j))
      by (done || by intros ? _ ->).
    rewrite length_filter_eq_seq by done. lia.
  - intros k comp d Hk Hcd.
    destruct (matrix_cell M df2 P k comp d Hw Hp Hk Hcd)
      as [(r1 & Hr1 & Hc1) ->].
    do 2 f_equal. rewrite Hlen in Hr1 |- *.
    apply lookup_lt_is_Some in Hr1 as [[i1 j1] Hij1].
    destruct (Hrows r1 i1 j1 Hij1) as (_ & Hk1 & _ & _ & _ & Hcell1).
    apply elem_of_kept_positions in Hk1 as [_ Hex1].
    pose proof (Hcell1 "Component"%string) as HC1. fold COMPONENT in HC1.
    rewrite <- HC1, Hc1 in Hex1 by (try (vm_compute; discriminate); done).
    rewrite (length_filter_positions (transform_indexers U A) 0 _
               (λ ij : nat * nat,
                  identifier A ij.2 = cell P USER_ID k
                  ∧ month_of (cell A DATE ij.2) = cell P MONTH k
                  ∧ cell A COMPONENT ij.2 = comp ∧ cell A ACTION ij.2 ≠ NaN)).
    + rewrite (transform_indexers_count U A M _
                 (λ j, identifier A j = cell P USER_ID k
                       ∧ month_of (cell A DATE j) = cell P MONTH k
                       ∧ cell A COMPONENT j = comp ∧ cell A ACTION j ≠ NaN)
                 (cell P USER_ID k)) by (done || by intros j _ (? & _ & -> & _)).
      f_equal. unfold recorded_rows, component_rows.
      rewrite list_filter_filter. f_equal. apply list_filter_iff.
      intros j. tauto.
    + intros r [i j] Hr. simpl.
      destruct (Hrows r i j Hr) as (_ & _ & _ & HcU & _ & Hcell).
      rewrite HcU.
      pose proof (Hcell "Component"%string) as HC.
      pose proof (Hcell "Action"%string) as HA.
      pose proof (Hcell "Date"%string) as HD.
      fold COMPONENT in HC. fold ACTION in HA. fold DATE in HD.
      rewrite HC, HA, HD by (try (vm_compute; discriminate); done).
      done.
Qed.

(** C10, as stated, fails: user 1 is listed twice and has two Quiz rows in
    March, one of them without an action; the Quiz cell of (1, 3) is 2,
    not 2 times 2. *)
Lemma duplicate_users_missing_action :
  ∃ (m p : ref) (h1 h2 : heap) (P : DataFrame),
    clean_and_transform 0%nat 1%nat 2%nat unrecorded_heap = (Ok m, h1)
    ∧ reshape_data m h1 = (Ok p, h2)
    ∧ h2 !! p = Some P
    ∧ occurrences repeated_users (Int 1) = 2%nat
    ∧ length (component_rows unrecorded_activity (Int 1) (Int 3) (Str "Quiz"))
      = 2%nat
    ∧ columns P = [USER_ID; MONTH; Str "Quiz"]
    ∧ rows P = [[Int 1; Int 3; Int 2]]
    ∧ ∃ d, (Str "Quiz", d) ∈ drop 2 (df_cols P)
           ∧ at_row 0 d = Int 2
           ∧ at_row 0 d
             ≠ Int (Z.of_nat
                      (occurrences repeated_users (Int 1)
                       * length (component_rows unrecorded_activity
                                   (Int 1) (Int 3) (Str "Quiz")))).
Proof.
  eexists 4%nat, 5%nat, _, _, _.
  split; [vm_compute; reflexivity|].
  split; [vm_compute; reflexivity|].
  split; [vm_compute; reflexivity|].
  split; [vm_compute; reflexivity|].
  split; [vm_compute; reflexivity|].
  split; [vm_compute; reflexivity|].
  split; [vm_compute; reflexivity|].
  exists [Int 2]. split; [|split].
  - refine (bool_decide_unpack _ _). vm_compute. exact I.
  - reflexivity.
  - intros E. vm_compute in E. discriminate E.
Qed.

(** * Further properties of the three steps *)

(** ** Filtering changes no stored table *)

(** X1: whatever its arguments and whether it returns or raises,
    [filter_data] leaves every table of the store as it was; when it raises
    the store is the same, when it returns the only change is the new
    object. *)
Theorem filter_data_pure (h : heap) (d : ref)
    (user_ids components : option (list value))
    (date_range : option (value * value)) (r : result ref) (h' : heap) :
  filter_data d user_ids components date_range h = (r, h') →
  (∀ x X, h !! x = Some X → h' !! x = Some X)
  ∧ (∀ e, r = Err e → h' = h)
  ∧ (∀ f, r = Ok f → h !! f = None ∧ ∃ F, h' = <[f := F]> h).
Proof.
  intros Hrun. destruct (h !! d) as [df|] eqn:Hd.
  - rewrite (filter_data_run h d df) in Hrun by done.
    destruct (filter_stages user_ids components date_range df) as [F|e];
      injection Hrun as <- <-.
    + split; [|split].
      * intros x X Hx. by apply alloc_keeps.
      * discriminate.
      * intros f [= <-]. split; [apply fresh_lookup|by exists F].
    + split; [done|]. split; [done|discriminate].
  - unfold filter_data, bind, load in Hrun. rewrite Hd in Hrun.
    injection Hrun as <- <-. split; [done|]. split; [done|discriminate].
Qed.

Lemma filter_data_pure_witness :
  (∀ x X, scenario_reshaped !! x = Some X →
          (filter_data 5%nat (Some [Int 1]) (Some [Str "Quiz"]) None
             scenario_reshaped).2 !! x = Some X)
  ∧ (∀ e, (filter_data 5%nat (Some [Int 1]) (Some [Str "Quiz"]) None
             scenario_reshaped).1 = Err e →
          (filter_data 5%nat (Some [Int 1]) (Some [Str "Quiz"]) None
             scenario_reshaped).2 = scenario_reshaped)
  ∧ (∀ f, (filter_data 5%nat (Some [Int 1]) (Some [Str "Quiz"]) None
             scenario_reshaped).1 = Ok f →
          scenario_reshaped !! f = None
          ∧ ∃ F, (filter_data 5%nat (Some [Int 1]) (Some [Str "Quiz"]) None
                    scenario_reshaped).2 = <[f := F]> scenario_reshaped).
Proof.
  apply (filter_data_pure scenario_reshaped 5%nat (Some [Int 1])
           (Some [Str "Quiz"]) None).
  destruct (filter_data 5%nat (Some [Int 1]) (Some [Str "Quiz"]) None
              scenario_reshaped); reflexivity.
Defined.

(** ** When the cleaning step returns *)

Lemma key_column_Ok_single (df : DataFrame) (key : label) (k : list value) :
  key_column df key = Ok k →
  length (filter (λ c : column, c.1 = key) (df_cols df)) = 1%nat.
Proof.
  unfold key_column.
  by destruct (filter _ (df_cols df)) as [|c0 [|c1 l]].
Qed.

(** X2: the cleaning step returns a merged table only when the activity
    table has a [Component] column and each of the two tables has exactly
    one identifier column (the anonymized-name column or [User_ID], not
    both): a table without an identifier, or with the two of them, makes the
    step raise. *)
Theorem transform_returns_only_if (h : heap) (u a c : ref) (U A : DataFrame)
    (m : ref) (h' : heap) :
  h !! u = Some U → h !! a = Some A →
  clean_and_transform u a c h = (Ok m, h') →
  COMPONENT ∈ columns A
  ∧ length (identifier_labels U) = 1%nat
  ∧ length (identifier_labels A) = 1%nat.
Proof.
  intros Hu Ha Hrun.
  rewrite (clean_and_transform_run u a c h U A Hu Ha) in Hrun.
  destruct (getitem A COMPONENT) as [comp|] eqn:Hg; [|discriminate].
  split; [by eapply getitem_Ok_columns|].
  cbv zeta in Hrun. unfold merge_frames in Hrun.
  destruct (key_column (rename_columns _ _ (kept_activity A comp)) USER_ID)
    as [rk|] eqn:Er; [|discriminate].
  destruct (key_column (rename_columns _ _ U) USER_ID) as [lk|] eqn:El;
    [|discriminate].
  apply key_column_Ok_single in Er, El.
  rewrite key_columns_rename in Er, El.
  by rewrite identifier_labels_kept in Er.
Qed.

Lemma transform_returns_only_if_witness :
  COMPONENT ∈ columns scenario_activity
  ∧ length (identifier_labels scenario_users) = 1%nat
  ∧ length (identifier_labels scenario_activity) = 1%nat.
Proof.
  apply (transform_returns_only_if scenario_heap 0%nat 1%nat 2%nat
           scenario_users scenario_activity 4%nat scenario_cleaned);
    vm_compute; reflexivity.
Defined.

(** ** The cleaning step can be run again *)

Lemma rename_columns_idem (old new : label) (X : DataFrame) :
  old ≠ new →
  rename_columns old new (rename_columns old new X) = rename_columns old new X.
Proof.
  intros Hne. unfold rename_columns. simpl. f_equal.
  rewrite <- list_fmap_compose. apply list_fmap_ext. intros _ [l d] _. simpl.
  destruct (decide (l = old)) as [->|Hl]; simpl.
  - by rewrite decide_False by congruence.
  - by rewrite decide_False.
Qed.

(** X3: after a cleaning step that returned, a second cleaning step on the
    same user and activity objects returns too, with a merged table equal to
    the first one (which is still in the store): the in-place renaming of
    the user table does not get in the way of a second run. *)
Theorem transform_repeatable (h : heap) (u a c : ref) (U A : DataFrame)
    (m : ref) (h1 : heap) :
  h !! u = Some U → h !! a = Some A → u ≠ a →
  clean_and_transform u a c h = (Ok m, h1) →
  ∃ (M : DataFrame) (m2 : ref) (h2 : heap),
    h1 !! m = Some M
    ∧ clean_and_transform u a c h1 = (Ok m2, h2)
    ∧ m2 ≠ m
    ∧ h2 !! m2 = Some M
    ∧ h2 !! m = Some M.
Proof.
  intros Hu Ha Hne Hrun.
  rewrite (clean_and_transform_run u a c h U A Hu Ha) in Hrun.
  destruct (getitem A COMPONENT) as [comp|] eqn:Hg; [|discriminate].
  cbv zeta in Hrun. fold (cleaned_store h u U A comp) in Hrun.
  destruct (merge_frames _ _ USER_ID) as [M|] eqn:HM; [|discriminate].
  injection Hrun as <- <-.
  set (hc := cleaned_store h u U A comp) in *.
  assert (hc !! u = Some (rename_columns ANONYMIZED USER_ID U)) as Hcu
    by (by apply cleaned_store_user).
  assert (hc !! a = Some A) as Hca
    by (apply cleaned_store_other; [done|congruence]).
  set (h1 := <[fresh (dom hc) := M]> hc).
  assert (h1 !! fresh (dom hc) = Some M) as H1m by apply lookup_insert_eq.
  assert (h1 !! u = Some (rename_columns ANONYMIZED USER_ID U)) as H1u
    by (by apply alloc_keeps).
  assert (h1 !! a = Some A) as H1a by (by apply alloc_keeps).
  exists M.
  rewrite (clean_and_transform_run u a c h1 _ A H1u H1a), Hg. cbv zeta.
  fold (cleaned_store h1 u (rename_columns ANONYMIZED USER_ID U) A comp).
  rewrite rename_columns_idem by distinct_labels. rewrite HM.
  set (hc2 := cleaned_store h1 u (rename_columns ANONYMIZED USER_ID U) A comp).
  assert (hc2 !! fresh (dom hc) = Some M) as H2m.
  { apply cleaned_store_other; [done|].
    intros E. by eapply fresh_ne in Hcu. }
  eexists _, _. split; [done|]. split; [reflexivity|]. split.
  - intros E. symmetry in E. by eapply fresh_ne in H2m.
  - split; [apply lookup_insert_eq|by apply alloc_keeps].
Qed.

Lemma transform_repeatable_witness :
  ∃ (M : DataFrame) (m2 : ref) (h2 : heap),
    scenario_cleaned !! 4%nat = Some M
    ∧ clean_and_transform 0%nat 1%nat 2%nat scenario_cleaned = (Ok m2, h2)
    ∧ m2 ≠ 4%nat
    ∧ h2 !! m2 = Some M
    ∧ h2 !! 4%nat = Some M.
Proof.
  apply (transform_repeatable scenario_heap 0%nat 1%nat 2%nat scenario_users
           scenario_activity 4%nat scenario_cleaned);
    [vm_compute; reflexivity | vm_compute; reflexivity | lia
    | vm_compute; reflexivity].
Defined.

(** ** The merged table is the matching pairs, each once *)

Lemma NoDup_positions_from (n : nat) (v : value) (d : list value) :
  NoDup (positions_from n v d).
Proof. rewrite positions_from_filter. apply NoDup_filter, NoDup_seq. Qed.

Lemma NoDup_join_from (n : nat) (lk rk : list value) :
  NoDup (join_from n lk rk).
Proof.
  revert n. induction lk as [|x lk IH]; intros n; [constructor|].
  cbn [join_from]. apply NoDup_app. split; [|split].
  - apply NoDup_fmap_2; [|apply NoDup_positions_from].
    intros j1 j2 [= ->]. reflexivity.
  - intros [i j] (j0 & [= -> ->] & _)%list_elem_of_fmap
                 (Hle & _)%join_from_spec. lia.
  - apply IH.
Qed.

Lemma NoDup_kept_positions (A : DataFrame) : NoDup (kept_positions A).
Proof.
  unfold kept_positions. destruct (getitem A COMPONENT); [|constructor].
  rewrite true_positions_filter. apply NoDup_filter, NoDup_seq.
Qed.

Lemma NoDup_transform_indexers (U A : DataFrame) :
  NoDup (transform_indexers U A).
Proof.
  unfold transform_indexers. apply NoDup_fmap_2_strong.
  - intros [i1 j1] [i2 j2] (_ & H1 & _)%merge_indexers_spec
                           (_ & H2 & _)%merge_indexers_spec. simpl in H1, H2.
    apply lookup_lt_is_Some in H1 as [x1 H1], H2 as [x2 H2].
    simpl. rewrite H1, H2. simpl. intros [= -> ->]. f_equal.
    eapply NoDup_lookup; [apply NoDup_kept_positions|exact H1|exact H2].
  - unfold merge_indexers.
    destruct (key_column _ _); [|constructor].
    destruct (key_column _ _); [|constructor].
    apply NoDup_join_from.
Qed.

Lemma elem_of_transform_indexers (U A M : DataFrame) (i j : nat) :
  COMPONENT ∈ columns A →
  merge_frames (rename_columns ANONYMIZED USER_ID U)
    (rename_columns ANONYMIZED USER_ID (take_rows (kept_positions A) A))
    USER_ID = Ok M →
  (i, j) ∈ transform_indexers U A
  ↔ (i < df_len U)%nat ∧ (j < df_len A)%nat
    ∧ (cell A COMPONENT j ∉ excluded)
    ∧ identifier U i = identifier A j.
Proof.
  intros Hcomp HM. split.
  - intros (r & Hr)%list_elem_of_lookup_1.
    destruct (merged_rows U A M HM) as [_ Hrows].
    destruct (Hrows r i j Hr) as (Hi & Hj & Hid & _).
    apply elem_of_kept_positions in Hj as [Hj Hex]. done.
  - intros (Hi & Hj & Hex & Hid).
    assert (j ∈ kept_positions A) as Hk.
    { rewrite kept_positions_filter by done.
      apply list_elem_of_filter. split; [done|]. apply elem_of_seq. lia. }
    apply list_elem_of_lookup_1 in Hk as [j' Hj'].
    unfold transform_indexers. apply list_elem_of_fmap.
    exists (i, j'). simpl. rewrite Hj'. split; [done|].
    unfold merge_indexers. unfold merge_frames in HM.
    destruct (key_column (rename_columns _ _ (take_rows _ _)) USER_ID)
      as [rk|] eqn:Er; [|discriminate].
    destruct (key_column (rename_columns _ _ U) USER_ID) as [lk|] eqn:El;
      [|discriminate].
    apply key_column_Ok in El as (dl & Hl & ->).
    apply key_column_Ok in Er as (dr & Hr & ->).
    apply join_from_spec. split; [lia|]. exists (identifier U i).
    rewrite Nat.sub_0_r. split.
    + rewrite lookup_normalise by done. unfold identifier, cell. by rewrite Hl.
    + pose proof (lookup_lt_Some _ _ _ Hj') as Hlt.
      rewrite lookup_normalise by done. f_equal.
      pose proof (identifier_take_rows _ A j' j Hj') as Hc.
      unfold cell in Hc. rewrite Hr in Hc. congruence.
Qed.

(** X4: the table the cleaning step returns is made of the pairs of a user
    row and a kept activity row with the same identifier: every such pair
    gives one row, no pair gives two, nothing else gives a row, and the rows
    come in the order of the pairs. *)
Theorem transform_matching_pairs (h : heap) (u a c : ref) (U A : DataFrame)
    (m : ref) (h' : heap) :
  h !! u = Some U → h !! a = Some A →
  clean_and_transform u a c h = (Ok m, h') →
  NoDup (transform_indexers U A)
  ∧ (∀ i j, (i, j) ∈ transform_indexers U A
       ↔ (i < df_len U)%nat ∧ (j < df_len A)%nat
         ∧ (cell A COMPONENT j ∉ excluded)
         ∧ identifier U i = identifier A j)
  ∧ ∃ M, h' !! m = Some M
         ∧ rows M = (λ ij : nat * nat, row_at U ij.1 ++ activity_part A ij.2)
                      <$> transform_indexers U A.
Proof.
  intros Hu Ha Hrun.
  destruct (clean_and_transform_merged h u a c U A m h' Hu Ha Hrun)
    as (M & Hcomp & HM & Hm).
  split; [apply NoDup_transform_indexers|]. split.
  - intros i j. by apply (elem_of_transform_indexers U A M).
  - exists M. split; [done|].
    destruct (merged_rows U A M HM) as [Hlen Hrows].
    unfold rows. rewrite Hlen. apply fmap_seq_lookup.
    intros r [i j] Hr. by destruct (Hrows r i j Hr) as (_ & _ & _ & _ & ? & _).
Qed.

Lemma transform_matching_pairs_witness :
  NoDup (transform_indexers scenario_users scenario_activity)
  ∧ (∀ i j, (i, j) ∈ transform_indexers scenario_users scenario_activity
       ↔ (i < df_len scenario_users)%nat ∧ (j < df_len scenario_activity)%nat
         ∧ (cell scenario_activity COMPONENT j ∉ excluded)
         ∧ identifier scenario_users i = identifier scenario_activity j)
  ∧ ∃ M, scenario_cleaned !! 4%nat = Some M
         ∧ rows M = (λ ij : nat * nat,
                       row_at scenario_users ij.1
                       ++ activity_part scenario_activity ij.2)
                      <$> transform_indexers scenario_users scenario_activity.
Proof.
  apply (transform_matching_pairs scenario_heap 0%nat 1%nat 2%nat
           scenario_users scenario_activity 4%nat scenario_cleaned);
    vm_compute; reflexivity.
Defined.

(** ** The stages of [filter_data] *)

Lemma rows_take_rows (idxs : list nat) (X : DataFrame) :
  rows (take_rows idxs X) = row_at X <$> idxs.
Proof.
  unfold rows. change (df_len (take_rows idxs X)) with (length idxs).
  apply fmap_seq_lookup. intros k x Hk. unfold row_at, take_rows. simpl.
  rewrite <- list_fmap_compose. apply list_fmap_ext. intros i c _. simpl.
  by apply at_row_gather.
Qed.

Lemma true_positions_normalise (g : value → bool) (n : nat) (d : list value) :
  true_positions 0 (g <$> normalise n d)
  = filter (λ r, g (at_row r d) = true) (seq 0 n).
Proof.
  rewrite true_positions_filter, length_fmap, length_normalise.
  apply filter_ext_in. intros j Hj%elem_of_seq.
  rewrite Nat.sub_0_r, list_lookup_fmap, lookup_normalise by lia. simpl.
  split; [by intros [= ->] | by intros ->].
Qed.

Lemma traverse_fmap_Ok {A B} (f : A → result B) (g : A → B) (l : list A) :
  (∀ x, x ∈ l → f x = Ok (g x)) → traverse f l = Ok (g <$> l).
Proof.
  induction l as [|a l IH]; intros Hl; [reflexivity|].
  simpl. rewrite (Hl a) by left. simpl.
  rewrite IH by (intros x Hx; apply Hl; by right). reflexivity.
Qed.

Lemma zip_with_andb_fmap {A} (f g : A → bool) (l : list A) :
  zip_with andb (f <$> l) (g <$> l) = (λ x, f x && g x) <$> l.
Proof. induction l as [|a l IH]; [reflexivity|]. cbn. by f_equal. Qed.

Lemma assoc_keep (keep : label → bool) (l : label) (cs : list column) :
  keep l = true →
  assoc l (filter (λ c : column, keep c.1 = true) cs) = assoc l cs.
Proof.
  intros Hl. induction cs as [|c cs IH]; [reflexivity|].
  rewrite filter_cons. simpl. destruct (decide (c.1 = l)) as [E|N].
  - rewrite decide_True by (by rewrite E). simpl. by rewrite decide_True.
  - destruct (decide (keep c.1 = true)); [|done].
    simpl. by rewrite decide_False.
Qed.

Lemma cell_keep_columns (keep : label → bool) (df : DataFrame) (l : label)
    (r : nat) :
  keep l = true → cell (keep_columns keep df) l r = cell df l r.
Proof.
  intros Hl. unfold cell, keep_columns. cbn [df_cols].
  by rewrite assoc_keep.
Qed.

Lemma columns_keep_filter (keep : label → bool) (df : DataFrame) :
  columns (keep_columns keep df)
  = filter (λ l, keep l = true) (columns df).
Proof.
  unfold columns, keep_columns. simpl.
  induction (df_cols df) as [|c cs IH]; [reflexivity|].
  rewrite fmap_cons, !filter_cons. destruct (decide (keep c.1 = true)).
  - by rewrite fmap_cons, IH.
  - exact IH.
Qed.

(** X5: with a non-empty list of user identifiers and no other predicate,
    the filter returns a new table with the columns of its input whose rows
    are the input's rows with an identifier in the list, in their order. *)
Theorem filter_by_user_ids (h : heap) (d : ref) (df : DataFrame)
    (ids : list value) :
  h !! d = Some df → USER_ID ∈ columns df → ids ≠ [] →
  ∃ F, filter_data d (Some ids) None None h
       = (Ok (fresh (dom h)), <[fresh (dom h) := F]> h)
       ∧ columns F = columns df
       ∧ rows F = row_at df <$>
                    filter (λ r, cell df USER_ID r ∈ ids) (seq 0 (df_len df)).
Proof.
  intros Hd (dd & Hg)%getitem_present Hne.
  rewrite (filter_data_run h d df _ _ _ Hd).
  unfold filter_stages, filter_user_ids, filter_components, filter_date_range.
  destruct ids as [|x ids]; [done|]. cbn [truthy]. rewrite Hg.
  cbn [result_bind default]. eexists. split; [reflexivity|].
  split; [apply columns_mask_rows|].
  unfold mask_rows. rewrite rows_take_rows. f_equal.
  unfold getitem in Hg.
  destruct (assoc USER_ID (df_cols df)) as [raw|] eqn:Hraw; [|discriminate].
  injection Hg as <-. unfold isin. rewrite true_positions_normalise.
  apply filter_ext_in. intros r _. unfold cell. rewrite Hraw.
  apply bool_decide_eq_true.
Qed.

Lemma filter_by_user_ids_witness :
  ∃ F, filter_data 5%nat (Some [Int 2]) None None scenario_reshaped
       = (Ok (fresh (dom scenario_reshaped)),
          <[fresh (dom scenario_reshaped) := F]> scenario_reshaped)
       ∧ columns F = columns scenario_matrix
       ∧ rows F = row_at scenario_matrix <$>
                    filter (λ r, cell scenario_matrix USER_ID r ∈ [Int 2])
                      (seq 0 (df_len scenario_matrix)).
Proof.
  apply (filter_by_user_ids scenario_reshaped 5%nat scenario_matrix [Int 2]).
  - vm_compute. reflexivity.
  - refine (bool_decide_unpack _ _). vm_compute. exact I.
  - discriminate.
Defined.

(** X6: with a non-empty list of components and no other predicate, the
    filter never raises: it returns a new table with all the rows, and the
    columns of its input that are named in the list or are [User_ID] or
    [Month], with their cells; a name in the list that is no column is
    ignored. *)
Theorem filter_by_components (h : heap) (d : ref) (df : DataFrame)
    (components : list value) :
  h !! d = Some df → components ≠ [] →
  ∃ F, filter_data d None (Some components) None h
       = (Ok (fresh (dom h)), <[fresh (dom h) := F]> h)
       ∧ df_len F = df_len df
       ∧ columns F = filter (λ l, l ∈ components ∨ l ∈ [USER_ID; MONTH])
                       (columns df)
       ∧ ∀ l r, l ∈ columns F → cell F l r = cell df l r.
Proof.
  intros Hd Hne. rewrite (filter_data_run h d df _ _ _ Hd).
  unfold filter_stages, filter_user_ids, filter_components, filter_date_range.
  destruct components as [|x cs]; [done|]. cbn [truthy result_bind default].
  eexists. split; [reflexivity|]. split; [reflexivity|].
  set (keep := λ col, bool_decide (col ∈ x :: cs)
                      || bool_decide (col ∈ [USER_ID; MONTH])).
  assert (∀ l, keep l = true ↔ l ∈ x :: cs ∨ l ∈ [USER_ID; MONTH]) as Hkeep.
  { intros l. unfold keep.
    by rewrite orb_true_iff, !bool_decide_eq_true. }
  split.
  - rewrite columns_keep_filter. apply filter_ext_in. intros l _. apply Hkeep.
  - intros l r Hl. rewrite columns_keep_filter in Hl.
    apply list_elem_of_filter in Hl as [Hl _].
    by apply cell_keep_columns.
Qed.

Lemma filter_by_components_witness :
  ∃ F, filter_data 5%nat None (Some [Str "Quiz"; Str "Wiki"]) None
         scenario_reshaped
       = (Ok (fresh (dom scenario_reshaped)),
          <[fresh (dom scenario_reshaped) := F]> scenario_reshaped)
       ∧ df_len F = df_len scenario_matrix
       ∧ columns F = filter (λ l, l ∈ [Str "Quiz"; Str "Wiki"]
                                  ∨ l ∈ [USER_ID; MONTH])
                       (columns scenario_matrix)
       ∧ ∀ l r, l ∈ columns F → cell F l r = cell scenario_matrix l r.
Proof.
  apply (filter_by_components scenario_reshaped 5%nat scenario_matrix
           [Str "Quiz"; Str "Wiki"]).
  - vm_compute. reflexivity.
  - discriminate.
Defined.

Lemma date_leb_trans (a b c : Z * Z * Z) :
  date_leb a b = true → date_leb b c = true → date_leb a c = true.
Proof.
  destruct a as [[y1 m1] d1], b as [[y2 m2] d2], c as [[y3 m3] d3].
  unfold date_leb. rewrite !orb_true_iff, !andb_true_iff, !orb_true_iff,
    !andb_true_iff. lia.
Qed.

Lemma filter_date_range_rows (df : DataFrame) (lo hi : Z * Z * Z) :
  DATE ∈ columns df →
  (∀ r, (r < df_len df)%nat → is_date (cell df DATE r)) →
  ∃ F, filter_date_range
         (Some (Timestamp lo.1.1 lo.1.2 lo.2, Timestamp hi.1.1 hi.1.2 hi.2)) df
       = Ok F
       ∧ columns F = columns df
       ∧ rows F = row_at df <$>
                    filter (λ r, in_range lo hi (cell df DATE r) = true)
                      (seq 0 (df_len df)).
Proof.
  destruct lo as [[y1 m1] d1], hi as [[y2 m2] d2]. cbn [fst snd].
  intros (dd & Hg)%getitem_present Hdates. unfold getitem in Hg.
  destruct (assoc DATE (df_cols df)) as [raw|] eqn:Hraw; [|discriminate].
  injection Hg as <-.
  assert (∀ v, v ∈ normalise (df_len df) raw → is_date v) as Hall.
  { intros v (r & -> & Hr%elem_of_seq)%list_elem_of_fmap.
    specialize (Hdates r). unfold cell in Hdates. rewrite Hraw in Hdates.
    apply Hdates. lia. }
  unfold filter_date_range, getitem. rewrite Hraw. cbn [result_bind].
  unfold column_ge, column_le.
  rewrite (traverse_fmap_Ok _
             (λ v, match v with
                   | Timestamp y m d => date_leb (y1, m1, d1) (y, m, d)
                   | _ => false
                   end)).
  2:{ intros v Hv%Hall. by destruct v. }
  cbn [result_bind].
  rewrite (traverse_fmap_Ok _
             (λ v, match v with
                   | Timestamp y m d => date_leb (y, m, d) (y2, m2, d2)
                   | _ => false
                   end)).
  2:{ intros v Hv%Hall. by destruct v. }
  cbn [result_bind]. eexists. split; [reflexivity|].
  split; [apply columns_mask_rows|].
  unfold mask_rows. rewrite rows_take_rows. f_equal.
  rewrite zip_with_andb_fmap, true_positions_normalise.
  apply filter_ext_in. intros r _. unfold cell. rewrite Hraw.
  by destruct (at_row r raw).
Qed.

(** X7: on a table whose [Date] column holds dates (or missing values), a
    date range alone keeps the rows whose date lies between the two bounds,
    both included, in their order; a row with a missing date is dropped. *)
Theorem filter_by_date_range (h : heap) (d : ref) (df : DataFrame)
    (lo hi : Z * Z * Z) :
  h !! d = Some df → DATE ∈ columns df →
  (∀ r, (r < df_len df)%nat → is_date (cell df DATE r)) →
  ∃ F, filter_data d None None
         (Some (Timestamp lo.1.1 lo.1.2 lo.2, Timestamp hi.1.1 hi.1.2 hi.2)) h
       = (Ok (fresh (dom h)), <[fresh (dom h) := F]> h)
       ∧ columns F = columns df
       ∧ rows F = row_at df <$>
                    filter (λ r, in_range lo hi (cell df DATE r) = true)
                      (seq 0 (df_len df)).
Proof.
  intros Hd Hdate Hdates. rewrite (filter_data_run h d df _ _ _ Hd).
  unfold filter_stages, filter_user_ids, filter_components.
  cbn [truthy result_bind].
  destruct (filter_date_range_rows df lo hi Hdate Hdates) as (F & -> & HF).
  by exists F.
Qed.

Lemma filter_by_date_range_witness :
  ∃ F, filter_data 0%nat None None
         (Some (Timestamp 2024 3 1, Timestamp 2024 3 31))
         {[ 0%nat := dated_matrix ]}
       = (Ok (fresh (dom ({[ 0%nat := dated_matrix ]} : heap))),
          <[fresh (dom ({[ 0%nat := dated_matrix ]} : heap)) := F]>
            {[ 0%nat := dated_matrix ]})
       ∧ columns F = columns dated_matrix
       ∧ rows F = row_at dated_matrix <$>
                    filter (λ r, in_range (2024, 3, 1) (2024, 3, 31)
                                   (cell dated_matrix DATE r) = true)
                      (seq 0 (df_len dated_matrix)).
Proof.
  apply (filter_by_date_range {[ 0%nat := dated_matrix ]} 0%nat dated_matrix
           (2024, 3, 1) (2024, 3, 31)).
  - vm_compute. reflexivity.
  - refine (bool_decide_unpack _ _). vm_compute. exact I.
  - intros r Hr. change (df_len dated_matrix) with 3%nat in Hr.
    destruct r as [|[|[|r]]]; [exact I | exact I | exact I | lia].
Defined.

(** X8: a date range whose end lies before its start is no error: on a table
    whose [Date] column holds dates the filter returns a table with the same
    columns and no row. *)
Theorem filter_inverted_range (h : heap) (d : ref) (df : DataFrame)
    (lo hi : Z * Z * Z) :
  h !! d = Some df → DATE ∈ columns df →
  (∀ r, (r < df_len df)%nat → is_date (cell df DATE r)) →
  date_leb lo hi = false →
  ∃ F, filter_data d None None
         (Some (Timestamp lo.1.1 lo.1.2 lo.2, Timestamp hi.1.1 hi.1.2 hi.2)) h
       = (Ok (fresh (dom h)), <[fresh (dom h) := F]> h)
       ∧ columns F = columns df
       ∧ rows F = [].
Proof.
  intros Hd Hdate Hdates Hinv. rewrite (filter_data_run h d df _ _ _ Hd).
  unfold filter_stages, filter_user_ids, filter_components.
  cbn [truthy result_bind].
  destruct (filter_date_range_rows df lo hi Hdate Hdates)
    as (F & -> & Hcols & Hrows).
  exists F. split; [done|]. split; [done|].
  rewrite Hrows, filter_none; [done|].
  intros r _ Hin. unfold in_range in Hin.
  destruct (cell df DATE r) as [| | |y m dy]; try discriminate.
  apply andb_true_iff in Hin as [H1 H2].
  by rewrite (date_leb_trans _ _ _ H1 H2) in Hinv.
Qed.

Lemma filter_inverted_range_witness :
  ∃ F, filter_data 0%nat None None
         (Some (Timestamp 2024 4 1, Timestamp 2024 3 1))
         {[ 0%nat := dated_matrix ]}
       = (Ok (fresh (dom ({[ 0%nat := dated_matrix ]} : heap))),
          <[fresh (dom ({[ 0%nat := dated_matrix ]} : heap)) := F]>
            {[ 0%nat := dated_matrix ]})
       ∧ columns F = columns dated_matrix
       ∧ rows F = [].
Proof.
  apply (filter_inverted_range {[ 0%nat := dated_matrix ]} 0%nat dated_matrix
           (2024, 4, 1) (2024, 3, 1)).
  - vm_compute. reflexivity.
  - refine (bool_decide_unpack _ _). vm_compute. exact I.
  - intros r Hr. change (df_len dated_matrix) with 3%nat in Hr.
    destruct r as [|[|[|r]]]; [exact I | exact I | exact I | lia].
  - vm_compute. reflexivity.
Defined.

(** X9: the component stage runs before the date stage.  With a non-empty
    list of components that does not name [Date], a date range makes the
    filter raise a key error for [Date], whether or not its input has that
    column, and the store is left as it was. *)
Theorem filter_components_then_dates (h : heap) (d : ref) (df : DataFrame)
    (user_ids : option (list value)) (components : list value)
    (date_range : value * value) :
  h !! d = Some df →
  truthy user_ids = false ∨ USER_ID ∈ columns df →
  components ≠ [] → (DATE ∉ components) →
  filter_data d user_ids (Some components) (Some date_range) h
  = (Err (KeyError DATE), h).
Proof.
  intros Hd Hids Hne Hdate. rewrite (filter_data_run h d df _ _ _ Hd).
  unfold filter_stages.
  assert (∃ F, filter_user_ids user_ids df = Ok F) as [F ->].
  { unfold filter_user_ids. destruct Hids as [-> | (dd & ->)%getitem_present];
      [eauto|]. destruct (truthy user_ids); simpl; eauto. }
  cbn [result_bind]. unfold filter_components.
  destruct components as [|x cs]; [done|]. cbn [truthy result_bind default].
  unfold filter_date_range. destruct date_range as [s e].
  rewrite getitem_missing; [done|].
  rewrite columns_keep_filter. intros [Hk _]%list_elem_of_filter.
  apply orb_true_iff in Hk as [Hk%bool_decide_eq_true|Hk%bool_decide_eq_true].
  - contradiction.
  - revert Hk. apply (bool_decide_unpack (DATE ∉ [USER_ID; MONTH])).
    vm_compute. exact I.
Qed.

Lemma filter_components_then_dates_witness :
  filter_data 0%nat None (Some [Str "Quiz"])
    (Some (Timestamp 2024 3 1, Timestamp 2024 3 31))
    {[ 0%nat := dated_matrix ]}
  = (Err (KeyError DATE), {[ 0%nat := dated_matrix ]}).
Proof.
  apply (filter_components_then_dates {[ 0%nat := dated_matrix ]} 0%nat
           dated_matrix None [Str "Quiz"]
           (Timestamp 2024 3 1, Timestamp 2024 3 31)).
  - vm_compute. reflexivity.
  - left. reflexivity.
  - discriminate.
  - refine (bool_decide_unpack _ _). vm_compute. exact I.
Defined.

Lemma pivot_counts_heads (df P : DataFrame) :
  pivot_counts df = Ok P →
  (USER_ID ∉ pivot_heads df) ∧ (MONTH ∉ pivot_heads df)
  ∧ columns P = USER_ID :: MONTH :: pivot_heads df.
Proof.
  intros HP. pose proof (pivot_counts_Ok df P HP) as ->.
  assert (columns (matrix_of df) = USER_ID :: MONTH :: pivot_heads df) as Hcols.
  { unfold columns, matrix_of. cbn [df_cols]. rewrite !fmap_cons. cbn [fst].
    do 2 f_equal. rewrite <- list_fmap_compose. apply list_fmap_id. }
  split; [|split; [|exact Hcols]].
  - revert HP. unfold pivot_counts, pivot_table.
    destruct (first_missing df _); [discriminate|].
    cbn [result_bind]. unfold reset_index, fillna.
    cbn [df_index df_cols df_len imap reverse rev_append app].
    fold (pivot_groups df) (pivot_heads df).
    unfold compose. cbn [insert_front fst].
    destruct (bool_decide (MONTH ∈ _)) eqn:Hm; [discriminate|].
    destruct (bool_decide (USER_ID ∈ _)) eqn:Hu; [discriminate|].
    intros _. apply bool_decide_eq_false in Hu.
    intros Hin. apply Hu. rewrite fmap_cons. right.
    rewrite <- !list_fmap_compose.
    apply list_elem_of_fmap. by exists USER_ID.
  - revert HP. unfold pivot_counts, pivot_table.
    destruct (first_missing df _); [discriminate|].
    cbn [result_bind]. unfold reset_index, fillna.
    cbn [df_index df_cols df_len imap reverse rev_append app].
    fold (pivot_groups df) (pivot_heads df).
    unfold compose. cbn [insert_front fst].
    destruct (bool_decide (MONTH ∈ _)) eqn:Hm; [discriminate|].
    intros _. apply bool_decide_eq_false in Hm.
    intros Hin. apply Hm. rewrite <- !list_fmap_compose.
    apply list_elem_of_fmap. by exists MONTH.
Qed.

Lemma assoc_NoDup (l : label) (d : list value) (cs : list column) :
  NoDup cs.*1 → (l, d) ∈ cs → assoc l cs = Some d.
Proof.
  induction cs as [|c cs IH]; intros Hnd Hin; [by apply not_elem_of_nil in Hin|].
  rewrite fmap_cons in Hnd. apply NoDup_cons in Hnd as [Hc Hnd].
  simpl. apply elem_of_cons in Hin as [<-|Hin].
  - simpl. by rewrite decide_True.
  - rewrite decide_False; [by apply IH|].
    intros E. apply Hc. rewrite E. apply list_elem_of_fmap. by exists (l, d).
Qed.

Lemma NoDup_matrix_columns (df P : DataFrame) :
  pivot_counts df = Ok P → NoDup (columns P).
Proof.
  intros (Hu & Hm & ->)%pivot_counts_heads.
  apply NoDup_cons. split.
  - rewrite not_elem_of_cons. split; [distinct_labels|done].
  - apply NoDup_cons. split; [done|]. apply NoDup_sorted_unique.
Qed.

Lemma with_month_rows (df df2 : DataFrame) (r : nat) :
  with_month df = Ok df2 →
  r ∈ grouped_rows df2 [USER_ID; MONTH; COMPONENT]
  ↔ (r < df_len df)%nat ∧ cell df USER_ID r ≠ NaN
    ∧ month_of (cell df DATE r) ≠ NaN ∧ cell df COMPONENT r ≠ NaN.
Proof.
  intros Hw. destruct (with_month_Ok df df2 Hw) as (Hlen & Hmonth & Hother & _).
  rewrite elem_of_grouped_rows, Hlen.
  rewrite (Hother USER_ID), (Hother COMPONENT) by distinct_labels.
  split; intros (Hr & Hu & Hm & Hc); (split; [done|]);
    rewrite Hmonth in * by done; done.
Qed.

(** ** What the reshaping step does to its argument *)

Lemma columns_setitem_iff (l l' : label) (d : list value) (df : DataFrame) :
  l' ∈ columns (setitem l d df) ↔ l' ∈ columns df ∨ l' = l.
Proof.
  unfold columns, setitem. cbn [df_cols].
  destruct (assoc l (df_cols df)) as [d0|] eqn:E.
  - rewrite <- list_fmap_compose.
    assert (l ∈ (df_cols df).*1) as Hl.
    { apply assoc_Some in E. apply list_elem_of_fmap. by exists (l, d0). }
    assert ((fst ∘ (λ c : column, if decide (c.1 = l) then (l, d) else c))
              <$> df_cols df = (df_cols df).*1) as ->.
    { apply list_fmap_ext. intros i c _. simpl.
      by destruct (decide (c.1 = l)) as [->|]. }
    split; [by left|]. by intros [?| ->].
  - rewrite fmap_app, elem_of_app. cbn. rewrite list_elem_of_singleton. done.
Qed.

Lemma with_month_cells (df df2 : DataFrame) :
  with_month df = Ok df2 →
  (∀ l, l ∈ columns df2 ↔ l ∈ columns df ∨ l = MONTH)
  ∧ ∀ i, (i < df_len df)%nat →
      to_datetime_cell (cell df DATE i) = Ok (cell df2 DATE i)
      ∧ cell df2 MONTH i = dt_month (cell df2 DATE i).
Proof.
  intros Hw. pose proof (with_month_Ok df df2 Hw) as (_ & Hmonth & _ & _).
  revert Hw. unfold with_month, getitem at 1.
  destruct (assoc DATE (df_cols df)) as [d|] eqn:Hd; [|discriminate].
  cbn [result_bind].
  destruct (to_datetime (normalise (df_len df) d)) as [parsed|] eqn:Hp;
    [|discriminate].
  cbn [result_bind].
  destruct (getitem (setitem DATE parsed df) DATE) as [d'|]; [|discriminate].
  cbn [result_bind]. intros [= <-]. split.
  - intros l. rewrite !columns_setitem_iff. split; [|tauto].
    intros [[?| ->]|?]; [tauto| |tauto]. left.
    apply assoc_Some in Hd. apply list_elem_of_fmap. by exists (DATE, d).
  - intros i Hi.
    assert (to_datetime_cell (cell df DATE i)
            = Ok (cell (setitem MONTH (dt_month <$> d') (setitem DATE parsed df))
                    DATE i)) as Hcell.
    { rewrite cell_setitem_ne by distinct_labels. rewrite cell_setitem_eq.
      destruct (traverse_Ok_lookup _ _ _ i _ Hp (lookup_normalise _ i d Hi))
        as (y & Hy & Hcell).
      unfold cell. rewrite Hd. unfold at_row at 2. by rewrite Hy. }
    split; [done|]. rewrite Hmonth by done. unfold month_of.
    by rewrite Hcell.
Qed.

(** X13: an error of the pivot comes after the writes.  On a merged table
    with a [Date] column whose cells all parse but without an [Action]
    column, the reshaping step raises a key error for [Action], and the
    merged table is left changed: its dates are parsed and it has its
    [Month] column. *)
Theorem reshape_error_after_writes (h : heap) (m : ref) (df : DataFrame) :
  h !! m = Some df → DATE ∈ columns df → (ACTION ∉ columns df) →
  (∀ i, (i < df_len df)%nat → ∃ t, to_datetime_cell (cell df DATE i) = Ok t) →
  ∃ df2, reshape_data m h = (Err (KeyError ACTION), <[m := df2]> h)
         ∧ MONTH ∈ columns df2
         ∧ ∀ i, (i < df_len df)%nat →
             to_datetime_cell (cell df DATE i) = Ok (cell df2 DATE i)
             ∧ cell df2 MONTH i = dt_month (cell df2 DATE i).
Proof.
  intros Hm (d0 & Hg)%getitem_present Haction Hparse.
  assert (∃ df2, with_month df = Ok df2) as [df2 Hw].
  { unfold with_month. rewrite Hg. cbn [result_bind].
    unfold getitem in Hg.
    destruct (assoc DATE (df_cols df)) as [d|] eqn:Hd; [|discriminate].
    injection Hg as <-.
    destruct (to_datetime (normalise (df_len df) d)) as [parsed|e] eqn:Hp.
    - cbn [result_bind].
      destruct (getitem_present (setitem DATE parsed df) DATE) as [d' ->];
        [|cbn [result_bind]; eauto].
      apply columns_setitem_iff. by right.
    - exfalso. revert Hp. unfold to_datetime.
      rewrite (traverse_fmap_Ok _
                 (λ v, match to_datetime_cell v with
                       | Ok t => t
                       | Err _ => NaN
                       end)); [done|].
      intros v (i & -> & Hi%elem_of_seq)%list_elem_of_fmap.
      destruct (Hparse i) as [t Ht]; [lia|].
      unfold cell in Ht. rewrite Hd in Ht. by rewrite Ht. }
  exists df2. rewrite (reshape_data_run m h df Hm), Hw. cbv zeta.
  destruct (with_month_cells df df2 Hw) as (Hcols & Hcells).
  assert (ACTION ∉ columns df2) as Hno.
  { rewrite Hcols. intros [?|E]; [done|discriminate E]. }
  unfold pivot_table. cbn [first_missing].
  rewrite bool_decide_eq_false_2 by done.
  split; [done|]. split; [|done]. apply Hcols. by right.
Qed.

Lemma reshape_error_after_writes_witness :
  ∃ df2, reshape_data 0%nat {[ 0%nat := actionless_merged ]}
         = (Err (KeyError ACTION),
            <[0%nat := df2]> {[ 0%nat := actionless_merged ]})
         ∧ MONTH ∈ columns df2
         ∧ ∀ i, (i < df_len actionless_merged)%nat →
             to_datetime_cell (cell actionless_merged DATE i)
             = Ok (cell df2 DATE i)
             ∧ cell df2 MONTH i = dt_month (cell df2 DATE i).
Proof.
  apply (reshape_error_after_writes {[ 0%nat := actionless_merged ]} 0%nat
           actionless_merged).
  - vm_compute. reflexivity.
  - refine (bool_decide_unpack _ _). vm_compute. exact I.
  - refine (bool_decide_unpack _ _). vm_compute. exact I.
  - intros i Hi. change (df_len actionless_merged) with 2%nat in Hi.
    destruct i as [|[|i]]; [eexists; vm_compute; reflexivity ..|lia].
Defined.

(** ** Reshaping the same merged table again *)

Lemma elem_of_setitem (l : label) (d : list value) (df : DataFrame) (c : column) :
  c ∈ df_cols (setitem l d df) → c = (l, d) ∨ (c ∈ df_cols df ∧ c.1 ≠ l).
Proof.
  unfold setitem. cbn [df_cols].
  destruct (assoc l (df_cols df)) eqn:Hnone.
  - intros (c0 & -> & Hc0)%list_elem_of_fmap.
    destruct (decide (c0.1 = l)); [by left|by right].
  - rewrite elem_of_app, list_elem_of_singleton. intros [Hc|Hc]; [|by left].
    destruct (decide (c.1 = l)) as [E|N]; [|by right].
    left. destruct c as [lc dc]. simpl in E. subst lc.
    apply assoc_None in Hnone. exfalso. apply Hnone.
    apply list_elem_of_fmap. by exists (l, dc).
Qed.

Lemma setitem_fixed (l : label) (d : list value) (df : DataFrame) :
  l ∈ columns df → (∀ c, c ∈ df_cols df → c.1 = l → c.2 = d) →
  setitem l d df = df.
Proof.
  intros Hl Hd. unfold setitem.
  destruct (assoc l (df_cols df)) eqn:E.
  2:{ apply assoc_None in E. contradiction. }
  destruct df as [n ix cs]. cbn [df_len df_index df_cols] in *. f_equal.
  rewrite <- (list_fmap_id cs) at 2. apply list_fmap_ext. intros i c Hc.
  destruct (decide (c.1 = l)) as [Ec|Nc]; [|done].
  destruct c as [lc dc]. simpl in *. subst lc. f_equal. symmetry.
  apply (Hd (l, dc)); [|done]. by eapply list_elem_of_lookup_2.
Qed.

Lemma normalise_id (n : nat) (d : list value) :
  length d = n → normalise n d = d.
Proof.
  intros <-. apply list_eq. intros i.
  destruct (d !! i) as [x|] eqn:E.
  - rewrite lookup_normalise by (by eapply lookup_lt_Some).
    unfold at_row. by rewrite E.
  - apply lookup_ge_None. rewrite length_normalise.
    by apply lookup_ge_None.
Qed.

Lemma traverse_length {A B} (f : A → result B) (l : list A) (ys : list B) :
  traverse f l = Ok ys → length ys = length l.
Proof.
  revert ys. induction l as [|a l IH]; intros ys; simpl; [by intros [= <-]|].
  destruct (f a); simpl; [|discriminate].
  destruct (traverse f l); simpl; [|discriminate].
  intros [= <-]. simpl. f_equal. by apply IH.
Qed.

Lemma traverse_Ok_elem {A B} (f : A → result B) (l : list A) (ys : list B)
    (y : B) :
  traverse f l = Ok ys → y ∈ ys → ∃ x, x ∈ l ∧ f x = Ok y.
Proof.
  revert ys. induction l as [|a l IH]; intros ys; simpl.
  - intros [= <-] Hy. by apply not_elem_of_nil in Hy.
  - destruct (f a) as [b|] eqn:Ha; simpl; [|discriminate].
    destruct (traverse f l) as [bs|]; simpl; [|discriminate].
    intros [= <-] [->|Hy]%elem_of_cons.
    + exists a. split; [left|done].
    + destruct (IH bs eq_refl Hy) as (x & Hx & Hfx).
      exists x. split; [by right|done].
Qed.

Lemma to_datetime_cell_fixed (v t : value) :
  to_datetime_cell v = Ok t → to_datetime_cell t = Ok t.
Proof.
  destruct v as [|z|s|y m d]; cbn [to_datetime_cell].
  - by intros [= <-].
  - destruct (civil_from_days (z / 86400000000000)) as [[y m] d].
    by intros [= <-].
  - destruct (bool_decide _); [by intros [= <-]|].
    destruct (parse_dayfirst s) as [[[y m] d]|]; [|discriminate].
    by intros [= <-].
  - by intros [= <-].
Qed.

(** The table the reshaping step leaves behind passes lines 30 and 31
    unchanged. *)
Lemma with_month_fixed (df df2 : DataFrame) :
  with_month df = Ok df2 → with_month df2 = Ok df2.
Proof.
  unfold with_month at 1, getitem at 1.
  destruct (assoc DATE (df_cols df)) as [d|] eqn:Hd; [|discriminate].
  cbn [result_bind].
  destruct (to_datetime (normalise (df_len df) d)) as [parsed|] eqn:Hp;
    [|discriminate].
  cbn [result_bind]. unfold getitem.
  destruct (assoc DATE (df_cols (setitem DATE parsed df))) as [d'|] eqn:Hd';
    [|discriminate].
  cbn [result_bind df_len]. intros [= <-].
  set (df1 := setitem DATE parsed df) in *.
  set (dm := dt_month <$> normalise (df_len df) d').
  assert (length parsed = df_len df) as Hlen.
  { apply traverse_length in Hp. by rewrite Hp, length_normalise. }
  assert (d' = parsed) as ->.
  { pose proof (assoc_Some _ _ _ Hd') as Hin.
    apply elem_of_setitem in Hin as [[= ->]|[_ N]]; done. }
  assert (∀ c, c ∈ df_cols (setitem MONTH dm df1) → c.1 = DATE → c.2 = parsed)
    as Hdate.
  { intros c [->|[[->|[_ N]]%elem_of_setitem _]]%elem_of_setitem E; done. }
  assert (∀ c, c ∈ df_cols (setitem MONTH dm df1) → c.1 = MONTH → c.2 = dm)
    as Hmonth.
  { by intros c [->|[_ N]]%elem_of_setitem E. }
  assert (DATE ∈ columns (setitem MONTH dm df1)) as Hcd.
  { apply columns_setitem_iff. left. apply columns_setitem_iff. by right. }
  assert (MONTH ∈ columns (setitem MONTH dm df1)) as Hcm.
  { apply columns_setitem_iff. by right. }
  assert (assoc DATE (df_cols (setitem MONTH dm df1)) = Some parsed) as Hd2.
  { destruct (assoc DATE (df_cols (setitem MONTH dm df1))) as [x|] eqn:E.
    - f_equal. apply assoc_Some in E. by apply (Hdate _ E).
    - apply assoc_None in E. contradiction. }
  unfold with_month, getitem. rewrite Hd2. cbn [result_bind df_len].
  rewrite (normalise_id _ parsed) by done.
  assert (to_datetime parsed = Ok parsed) as ->.
  { unfold to_datetime. rewrite (traverse_fmap_Ok _ id).
    - by rewrite list_fmap_id.
    - intros t Ht. destruct (traverse_Ok_elem _ _ _ t Hp Ht) as (v & _ & Hv).
      by apply to_datetime_cell_fixed in Hv. }
  cbn [result_bind]. rewrite (setitem_fixed DATE parsed) by done.
  rewrite Hd2. cbn [result_bind df_len].
  rewrite (normalise_id _ parsed) by done.
  subst dm. rewrite (normalise_id _ parsed) in * by done.
  by rewrite (setitem_fixed MONTH) by done.
Qed.

(** X14: the reshaping step can be run again on the merged table it has
    already changed: it returns, the matrix of the second run is a new
    object equal to the matrix of the first, and the merged table and the
    first matrix stay as they were. *)
Theorem reshape_repeatable (h : heap) (m : ref) (df : DataFrame) (p : ref)
    (h1 : heap) :
  h !! m = Some df → reshape_data m h = (Ok p, h1) →
  ∃ (P : DataFrame) (p2 : ref) (h2 : heap),
    h1 !! p = Some P
    ∧ reshape_data m h1 = (Ok p2, h2)
    ∧ p2 ≠ p ∧ h2 !! p2 = Some P ∧ h2 !! p = Some P
    ∧ h2 !! m = h1 !! m.
Proof.
  intros Hm Hrun. rewrite (reshape_data_run m h df Hm) in Hrun.
  destruct (with_month df) as [df2|e] eqn:Hw.
  2:{ destruct (result_bind _ _); discriminate. }
  cbv zeta in Hrun.
  destruct (pivot_table df2 _ _ _) as [table|] eqn:Ht; [|discriminate].
  destruct (reset_index _) as [P|] eqn:HP; [|discriminate].
  injection Hrun as <- <-.
  set (h0 := <[m := df2]> h).
  assert (h0 !! m = Some df2) as H0m by apply lookup_insert_eq.
  set (h1 := <[fresh (dom h0) := P]> h0).
  assert (h1 !! m = Some df2) as H1m by (by apply alloc_keeps).
  assert (h1 !! fresh (dom h0) = Some P) as H1p by apply lookup_insert_eq.
  exists P.
  rewrite (reshape_data_run m h1 df2 H1m), (with_month_fixed df df2 Hw).
  cbv zeta. rewrite Ht, HP. rewrite (insert_id h1 m df2 H1m).
  eexists _, _. split; [done|]. split; [reflexivity|]. split.
  - intros E. symmetry in E. by eapply fresh_ne in H1p.
  - split; [apply lookup_insert_eq|]. split; [by apply alloc_keeps|].
    rewrite H1m. by apply alloc_keeps.
Qed.

Lemma reshape_repeatable_witness :
  ∃ (P : DataFrame) (p2 : ref) (h2 : heap),
    scenario_reshaped !! 5%nat = Some P
    ∧ reshape_data 4%nat scenario_reshaped = (Ok p2, h2)
    ∧ p2 ≠ 5%nat ∧ h2 !! p2 = Some P ∧ h2 !! 5%nat = Some P
    ∧ h2 !! 4%nat = scenario_reshaped !! 4%nat.
Proof.
  apply (reshape_repeatable scenario_cleaned 4%nat scenario_merged 5%nat
           scenario_reshaped); vm_compute; reflexivity.
Defined.

(** ** The cleaning step followed by the reshaping step *)

Lemma reshape_data_frame (h : heap) (m : ref) (df : DataFrame)
    (r : result ref) (h' : heap) (x : ref) (X : DataFrame) :
  h !! m = Some df → reshape_data m h = (r, h') →
  x ≠ m → h !! x = Some X → h' !! x = Some X.
Proof.
  intros Hm Hrun Hx HX. rewrite (reshape_data_run m h df Hm) in Hrun.
  destruct (with_month df) as [df2|e].
  - cbv zeta in Hrun.
    assert (<[m := df2]> h !! x = Some X) as HX2
      by (by rewrite lookup_insert_ne).
    destruct (pivot_table df2 _ _ _) as [table|e].
    + destruct (reset_index _) as [P|e]; injection Hrun as <- <-;
        by apply alloc_keeps.
    + by injection Hrun as <- <-.
  - destruct (result_bind _ _); injection Hrun as <- <-; [|done].
    by rewrite lookup_insert_ne.
Qed.

Lemma reshape_data_returns (h : heap) (m : ref) (df df2 P : DataFrame) :
  h !! m = Some df → with_month df = Ok df2 → pivot_counts df2 = Ok P →
  reshape_data m h
  = (Ok (fresh (dom (<[m := df2]> h))),
     <[fresh (dom (<[m := df2]> h)) := P]> (<[m := df2]> h)).
Proof.
  intros Hm Hw HP. rewrite (reshape_data_run m h df Hm), Hw. cbv zeta.
  unfold pivot_counts in HP.
  destruct (pivot_table df2 _ _ _) as [table|]; [|discriminate].
  cbn [result_bind] in HP. by rewrite HP.
Qed.

(** X15: the two steps can be run again on the same raw tables (the button
    of the interface can be pressed twice): although the first run has
    renamed the identifier column of the user table in place, the second run
    returns, and its matrix is a new object equal to the matrix of the first
    run, which is kept. *)
Theorem pipeline_repeatable (h : heap) (u a c : ref) (U A : DataFrame)
    (m : ref) (h1 : heap) (p : ref) (h2 : heap) :
  h !! u = Some U → h !! a = Some A → u ≠ a →
  clean_and_transform u a c h = (Ok m, h1) →
  reshape_data m h1 = (Ok p, h2) →
  ∃ (P : DataFrame) (m' : ref) (h3 : heap) (p' : ref) (h4 : heap),
    h2 !! p = Some P
    ∧ clean_and_transform u a c h2 = (Ok m', h3)
    ∧ reshape_data m' h3 = (Ok p', h4)
    ∧ p' ≠ p ∧ h4 !! p' = Some P ∧ h4 !! p = Some P.
Proof.
  intros Hu Ha Hne Hclean Hreshape.
  rewrite (clean_and_transform_run u a c h U A Hu Ha) in Hclean.
  destruct (getitem A COMPONENT) as [comp|] eqn:Hg; [|discriminate].
  cbv zeta in Hclean. fold (cleaned_store h u U A comp) in Hclean.
  destruct (merge_frames _ _ USER_ID) as [M|] eqn:HM; [|discriminate].
  injection Hclean as <- <-.
  set (hc := cleaned_store h u U A comp) in *.
  assert (hc !! u = Some (rename_columns ANONYMIZED USER_ID U)) as Hcu
    by (by apply cleaned_store_user).
  assert (hc !! a = Some A) as Hca
    by (apply cleaned_store_other; [done|congruence]).
  set (m := fresh (dom hc)) in *.
  set (h1 := <[m := M]> hc) in *.
  assert (h1 !! m = Some M) as H1m by apply lookup_insert_eq.
  assert (u ≠ m) as Hum by (by eapply fresh_ne).
  assert (a ≠ m) as Ham by (by eapply fresh_ne).
  assert (h1 !! u = Some (rename_columns ANONYMIZED USER_ID U)) as H1u
    by (by apply alloc_keeps).
  assert (h1 !! a = Some A) as H1a by (by apply alloc_keeps).
  destruct (reshape_data_Ok h1 m M p h2 H1m Hreshape)
    as (df2 & P & Hw & HP & H2p & _).
  pose proof (reshape_data_frame h1 m M _ h2 u _ H1m Hreshape Hum H1u) as H2u.
  pose proof (reshape_data_frame h1 m M _ h2 a _ H1m Hreshape Ham H1a) as H2a.
  exists P.
  rewrite (clean_and_transform_run u a c h2 _ A H2u H2a), Hg. cbv zeta.
  fold (cleaned_store h2 u (rename_columns ANONYMIZED USER_ID U) A comp).
  rewrite rename_columns_idem by distinct_labels. rewrite HM.
  set (hc2 := cleaned_store h2 u (rename_columns ANONYMIZED USER_ID U) A comp).
  set (m' := fresh (dom hc2)).
  set (h3 := <[m' := M]> hc2).
  assert (p ≠ u) as Hpu.
  { intros ->. change (reshape_data m h1 = (Ok u, h2)) in Hreshape.
    rewrite (reshape_data_run m h1 M H1m), Hw in Hreshape.
    cbv zeta in Hreshape.
    destruct (pivot_table df2 _ _ _); [|discriminate].
    destruct (reset_index _); [|discriminate].
    injection Hreshape as Hp _.
    assert (<[m := df2]> h1 !! u = Some (rename_columns ANONYMIZED USER_ID U))
      as Hin by (by rewrite lookup_insert_ne).
    by eapply fresh_ne in Hin. }
  assert (hc2 !! p = Some P) as Hc2p by (by apply cleaned_store_other).
  assert (h3 !! p = Some P) as H3p by (by apply alloc_keeps).
  assert (h3 !! m' = Some M) as H3m by apply lookup_insert_eq.
  assert (p ≠ m') as Hpm by (by eapply fresh_ne).
  exists m', h3. eexists _, _. split; [done|]. split; [reflexivity|].
  rewrite (reshape_data_returns h3 m' M df2 P H3m Hw HP).
  split; [reflexivity|].
  assert (<[m' := df2]> h3 !! p = Some P) as H4p
    by (by rewrite lookup_insert_ne).
  split; [|split].
  - intros E. symmetry in E. by eapply fresh_ne in H4p.
  - apply lookup_insert_eq.
  - by apply alloc_keeps.
Qed.

Lemma pipeline_repeatable_witness :
  ∃ (P : DataFrame) (m' : ref) (h3 : heap) (p' : ref) (h4 : heap),
    scenario_reshaped !! 5%nat = Some P
    ∧ clean_and_transform 0%nat 1%nat 2%nat scenario_reshaped = (Ok m', h3)
    ∧ reshape_data m' h3 = (Ok p', h4)
    ∧ p' ≠ 5%nat ∧ h4 !! p' = Some P ∧ h4 !! 5%nat = Some P.
Proof.
  apply (pipeline_repeatable scenario_heap 0%nat 1%nat 2%nat scenario_users
           scenario_activity 4%nat scenario_cleaned 5%nat scenario_reshaped);
    (vm_compute; reflexivity) || discriminate.
Defined.

(** X16: what the two steps together put in the matrix.  When the user
    table has no [Component] column of its own, every component column of
    the matrix is the component of an activity row and is neither "System"
    nor "Folder"; and the identifier of every matrix row is the identifier
    of a user row and of a kept activity row. *)
Theorem pipeline_matrix_sound (h : heap) (u a c : ref) (U A : DataFrame)
    (m : ref) (h1 : heap) (p : ref) (h2 : heap) :
  h !! u = Some U → h !! a = Some A → (COMPONENT ∉ columns U) →
  clean_and_transform u a c h = (Ok m, h1) →
  reshape_data m h1 = (Ok p, h2) →
  ∃ P, h2 !! p = Some P
       ∧ (∀ comp, comp ∈ drop 2 (columns P) →
            (comp ∉ excluded)
            ∧ ∃ j, (j < df_len A)%nat ∧ cell A COMPONENT j = comp)
       ∧ ∀ k, (k < df_len P)%nat →
           ∃ i j, (i < df_len U)%nat ∧ (j < df_len A)%nat
                  ∧ (cell A COMPONENT j ∉ excluded)
                  ∧ identifier U i = cell P USER_ID k
                  ∧ identifier A j = cell P USER_ID k.
Proof.
  intros Hu Ha HU Hclean Hreshape.
  destruct (clean_and_transform_merged h u a c U A m h1 Hu Ha Hclean)
    as (M & Hcomp & HM & Hm).
  destruct (reshape_data_Ok h1 m M p h2 Hm Hreshape)
    as (df2 & P & Hw & Hp & HP & _).
  destruct (merged_rows U A M HM) as [Hlen Hrows].
  destruct (with_month_Ok M df2 Hw) as (_ & _ & Hother & _).
  assert (∀ r, r ∈ grouped_rows df2 [USER_ID; MONTH; COMPONENT] →
            ∃ i j, (i < df_len U)%nat ∧ (j < df_len A)%nat
                   ∧ (cell A COMPONENT j ∉ excluded)
                   ∧ identifier U i = cell df2 USER_ID r
                   ∧ identifier A j = cell df2 USER_ID r
                   ∧ cell A COMPONENT j = cell df2 COMPONENT r) as Hrow.
  { intros r (Hr & _)%(with_month_rows M df2 r Hw).
    rewrite Hlen in Hr. apply lookup_lt_is_Some in Hr as [[i j] Hij].
    destruct (Hrows r i j Hij) as (Hi & Hj & Hid & Hcell & _ & Hact).
    apply elem_of_kept_positions in Hj as [Hj Hex].
    exists i, j. rewrite (Hother USER_ID), (Hother COMPONENT) by distinct_labels.
    rewrite Hcell. repeat (split; [done|]). symmetry.
    apply (Hact "Component"%string); (done || vm_compute; discriminate). }
  exists P. split; [done|]. split.
  - intros comp Hin.
    destruct (pivot_counts_heads df2 P Hp) as (_ & _ & Hcols).
    rewrite Hcols in Hin. cbn [drop] in Hin. unfold pivot_heads in Hin.
    apply elem_of_sorted_unique, list_elem_of_fmap in Hin as (r & -> & Hr).
    destruct (Hrow r Hr) as (i & j & _ & Hj & Hex & _ & _ & Hc).
    rewrite <- Hc. split; [done|]. by exists j.
  - intros k Hk. pose proof (pivot_counts_Ok df2 P Hp) as ->.
    change (df_len (matrix_of df2)) with (length (pivot_groups df2)) in Hk.
    apply lookup_lt_is_Some in Hk as [g Hg].
    destruct (matrix_of_key_cells df2 k g Hg) as [-> _].
    apply list_elem_of_lookup_2, elem_of_pivot_groups in Hg as (r & Hr & ->).
    destruct (Hrow r Hr) as (i & j & Hi & Hj & Hex & HiU & HiA & _).
    exists i, j. done.
Qed.

Lemma pipeline_matrix_sound_witness :
  ∃ P, scenario_reshaped !! 5%nat = Some P
       ∧ (∀ comp, comp ∈ drop 2 (columns P) →
            (comp ∉ excluded)
            ∧ ∃ j, (j < df_len scenario_activity)%nat
                   ∧ cell scenario_activity COMPONENT j = comp)
       ∧ ∀ k, (k < df_len P)%nat →
           ∃ i j, (i < df_len scenario_users)%nat
                  ∧ (j < df_len scenario_activity)%nat
                  ∧ (cell scenario_activity COMPONENT j ∉ excluded)
                  ∧ identifier scenario_users i = cell P USER_ID k
                  ∧ identifier scenario_activity j = cell P USER_ID k.
Proof.
  apply (pipeline_matrix_sound scenario_heap 0%nat 1%nat 2%nat scenario_users
           scenario_activity 4%nat scenario_cleaned 5%nat scenario_reshaped).
  - vm_compute. reflexivity.
  - vm_compute. reflexivity.
  - refine (bool_decide_unpack _ _). vm_compute. exact I.
  - vm_compute. reflexivity.
  - vm_compute. reflexivity.
Defined.

(** X17: the matrix of the reshaping step has no [Date] column (unless a
    component is called "Date"), so the filter raises a key error for [Date]
    whenever it is given a date range on such a matrix, whatever the other
    two predicates; the store is left as it was. *)
Theorem filter_dates_of_matrix (h : heap) (m : ref) (df : DataFrame) (p : ref)
    (h1 : heap) (user_ids components : option (list value))
    (date_range : value * value) :
  h !! m = Some df → reshape_data m h = (Ok p, h1) →
  (∀ r, (r < df_len df)%nat → cell df COMPONENT r ≠ DATE) →
  filter_data p user_ids components (Some date_range) h1
  = (Err (KeyError DATE), h1).
Proof.
  intros Hm Hrun Hnodate.
  destruct (reshape_data_Ok h m df p h1 Hm Hrun) as (df2 & P & Hw & Hp & HP & _).
  destruct (pivot_counts_heads df2 P Hp) as (_ & _ & Hcols).
  destruct (with_month_Ok df df2 Hw) as (_ & _ & Hother & _).
  assert (DATE ∉ columns P) as Hno.
  { rewrite Hcols, !not_elem_of_cons. split; [distinct_labels|].
    split; [distinct_labels|]. unfold pivot_heads.
    rewrite elem_of_sorted_unique, list_elem_of_fmap. intros (r & Hc & Hr).
    apply (with_month_rows df df2 r Hw) in Hr as (Hr & _).
    rewrite (Hother COMPONENT) in Hc by distinct_labels.
    by apply (Hnodate r Hr). }
  assert (USER_ID ∈ columns P) as Huser by (rewrite Hcols; left).
  rewrite (filter_data_run h1 p P _ _ _ HP). unfold filter_stages.
  assert (∃ F, filter_user_ids user_ids P = Ok F ∧ columns F = columns P)
    as (F & -> & HF).
  { unfold filter_user_ids. destruct (truthy user_ids); [|by eauto].
    apply getitem_present in Huser as [ids ->]. cbn [result_bind].
    eexists. split; [reflexivity|]. apply columns_mask_rows. }
  cbn [result_bind].
  assert (∃ G, filter_components components F = Ok G ∧ DATE ∉ columns G)
    as (G & -> & HG).
  { unfold filter_components. destruct (truthy components).
    - eexists. split; [reflexivity|]. intros Hin%columns_keep_columns.
      by rewrite HF in Hin.
    - exists F. by rewrite HF. }
  cbn [result_bind]. unfold filter_date_range. destruct date_range as [s e].
  by rewrite getitem_missing.
Qed.

Lemma filter_dates_of_matrix_witness :
  filter_data 5%nat (Some [Int 1]) None
    (Some (Timestamp 2024 3 1, Timestamp 2024 3 31)) scenario_reshaped
  = (Err (KeyError DATE), scenario_reshaped).
Proof.
  apply (filter_dates_of_matrix scenario_cleaned 4%nat scenario_merged 5%nat
           scenario_reshaped).
  - vm_compute. reflexivity.
  - vm_compute. reflexivity.
  - intros r Hr. change (df_len scenario_merged) with 4%nat in Hr.
    destruct r as [|[|[|[|r]]]]; [vm_compute; discriminate ..|lia].
Defined.

(** X18: user identifiers and components together, as the main program
    calls the filter: the result has the rows of the input whose identifier
    is in the first list, in their order, and of each such row the cells of
    the columns named in the second list and of [User_ID] and [Month]. *)
Theorem filter_by_ids_and_components (h : heap) (d : ref) (df : DataFrame)
    (ids components : list value) :
  h !! d = Some df → USER_ID ∈ columns df → ids ≠ [] → components ≠ [] →
  ∃ F, filter_data d (Some ids) (Some components) None h
       = (Ok (fresh (dom h)), <[fresh (dom h) := F]> h)
       ∧ columns F = filter (λ l, l ∈ components ∨ l ∈ [USER_ID; MONTH])
                       (columns df)
       ∧ df_len F
         = length (filter (λ r, cell df USER_ID r ∈ ids) (seq 0 (df_len df)))
       ∧ ∀ k r l,
           filter (λ r, cell df USER_ID r ∈ ids) (seq 0 (df_len df)) !! k
           = Some r →
           l ∈ columns F → cell F l k = cell df l r.
Proof.
  intros Hd (dd & Hg)%getitem_present Hids Hcomps.
  rewrite (filter_data_run h d df _ _ _ Hd).
  unfold filter_stages, filter_user_ids, filter_components, filter_date_range.
  destruct ids as [|x ids]; [done|].
  destruct components as [|y cs]; [done|].
  cbn [truthy]. rewrite Hg. cbn [result_bind default]. unfold id.
  set (keep := λ col, bool_decide (col ∈ y :: cs)
                      || bool_decide (col ∈ [USER_ID; MONTH])).
  assert (∀ l, keep l = true ↔ l ∈ y :: cs ∨ l ∈ [USER_ID; MONTH]) as Hkeep.
  { intros l. unfold keep. by rewrite orb_true_iff, !bool_decide_eq_true. }
  assert (true_positions 0 (isin dd (x :: ids))
          = filter (λ r, cell df USER_ID r ∈ x :: ids) (seq 0 (df_len df)))
    as Hpos.
  { unfold getitem in Hg.
    destruct (assoc USER_ID (df_cols df)) as [raw|] eqn:Hraw; [|discriminate].
    injection Hg as <-. unfold isin. rewrite true_positions_normalise.
    apply filter_ext_in. intros r _. unfold cell. rewrite Hraw.
    apply bool_decide_eq_true. }
  eexists. split; [reflexivity|]. split; [|split].
  - rewrite columns_keep_filter, columns_mask_rows.
    apply filter_ext_in. intros l _. apply Hkeep.
  - unfold mask_rows, keep_columns, take_rows. cbn [df_len]. by rewrite Hpos.
  - intros k r l Hk Hl. rewrite columns_keep_filter in Hl.
    apply list_elem_of_filter in Hl as [Hl _].
    rewrite cell_keep_columns by done. unfold mask_rows.
    apply cell_take_rows. by rewrite Hpos.
Qed.

Lemma filter_by_ids_and_components_witness :
  ∃ F, filter_data 5%nat (Some [Int 1; Int 2])
         (Some [Str "Assignment"; Str "Quiz"; Str "Lecture"]) None
         scenario_reshaped
       = (Ok (fresh (dom scenario_reshaped)),
          <[fresh (dom scenario_reshaped) := F]> scenario_reshaped)
       ∧ columns F
         = filter (λ l, l ∈ [Str "Assignment"; Str "Quiz"; Str "Lecture"]
                        ∨ l ∈ [USER_ID; MONTH])
             (columns scenario_matrix)
       ∧ df_len F
         = length (filter (λ r, cell scenario_matrix USER_ID r ∈ [Int 1; Int 2])
                     (seq 0 (df_len scenario_matrix)))
       ∧ ∀ k r l,
           filter (λ r, cell scenario_matrix USER_ID r ∈ [Int 1; Int 2])
             (seq 0 (df_len scenario_matrix)) !! k = Some r →
           l ∈ columns F → cell F l k = cell scenario_matrix l r.
Proof.
  apply (filter_by_ids_and_components scenario_reshaped 5%nat scenario_matrix
           [Int 1; Int 2] [Str "Assignment"; Str "Quiz"; Str "Lecture"]).
  - vm_compute. reflexivity.
  - refine (bool_decide_unpack _ _). vm_compute. exact I.
  - discriminate.
  - discriminate.
Defined.

(** * The matrix, read off the merged table as the reshaping step leaves it *)

Lemma to_datetime_cell_is_date (v t : value) :
  to_datetime_cell v = Ok t → is_date t.
Proof.
  destruct v as [|z|s|y m d]; cbn [to_datetime_cell].
  - by intros [= <-].
  - destruct (civil_from_days (z / 86400000000000)) as [[y m] d].
    by intros [= <-].
  - destruct (bool_decide _); [by intros [= <-]|].
    destruct (parse_dayfirst s) as [[[y m] d]|]; [|discriminate].
    by intros [= <-].
  - by intros [= <-].
Qed.

(** The rows that enter the pivot, on the table with its [Month] column. *)
Lemma with_month_row (df df2 : DataFrame) (r : nat) :
  with_month df = Ok df2 → (r < df_len df)%nat →
  cell df2 USER_ID r = cell df USER_ID r
  ∧ cell df2 MONTH r = month_of (cell df DATE r)
  ∧ cell df2 COMPONENT r = cell df COMPONENT r
  ∧ cell df2 ACTION r = cell df ACTION r.
Proof.
  intros Hw Hr.
  destruct (with_month_Ok df df2 Hw) as (_ & Hmonth & Hother & _).
  rewrite (Hother USER_ID), (Hother COMPONENT), (Hother ACTION)
    by distinct_labels.
  by rewrite Hmonth.
Qed.



(** X10: the columns of the matrix the reshaping step returns are [User_ID],
    [Month] and then one column per component, no label twice; a value is a
    component column exactly when it is the component of a row of the merged
    table, as the step leaves it, whose identifier, month and component are
    present.  So a component that only occurs in rows without a month has no
    column, and no returned matrix has a component column called [User_ID]
    or [Month]. *)
Theorem reshape_columns (h : heap) (m : ref) (df : DataFrame) (p : ref)
    (h' : heap) :
  h !! m = Some df → reshape_data m h = (Ok p, h') →
  ∃ df2 P heads,
    h' !! m = Some df2 ∧ h' !! p = Some P
    ∧ columns P = USER_ID :: MONTH :: heads
    ∧ NoDup (columns P)
    ∧ ∀ c, c ∈ heads
        ↔ ∃ r, (r < df_len df2)%nat ∧ cell df2 COMPONENT r = c ∧ c ≠ NaN
               ∧ cell df2 USER_ID r ≠ NaN ∧ cell df2 MONTH r ≠ NaN.
Proof.
  intros Hm Hrun.
  destruct (reshape_data_Ok h m df p h' Hm Hrun)
    as (df2 & P & Hw & Hp & HP & Hm2).
  exists df2, P, (pivot_heads df2). split; [done|]. split; [done|].
  destruct (pivot_counts_heads df2 P Hp) as (_ & _ & Hcols).
  split; [done|]. split; [by eapply NoDup_matrix_columns|].
  intros c. unfold pivot_heads. rewrite elem_of_sorted_unique, list_elem_of_fmap.
  split.
  - intros (r & -> & Hr). apply elem_of_grouped_rows in Hr
      as (Hr & Hu & Hmo & Hc). by exists r.
  - intros (r & Hr & <- & Hc & Hu & Hmo). exists r. split; [done|].
    by apply elem_of_grouped_rows.
Qed.

Lemma reshape_columns_witness :
  ∃ df2 P heads,
    scenario_reshaped !! 4%nat = Some df2 ∧ scenario_reshaped !! 5%nat = Some P
    ∧ columns P = USER_ID :: MONTH :: heads
    ∧ NoDup (columns P)
    ∧ ∀ c, c ∈ heads
        ↔ ∃ r, (r < df_len df2)%nat ∧ cell df2 COMPONENT r = c ∧ c ≠ NaN
               ∧ cell df2 USER_ID r ≠ NaN ∧ cell df2 MONTH r ≠ NaN.
Proof.
  apply (reshape_columns scenario_cleaned 4%nat scenario_merged 5%nat
           scenario_reshaped); vm_compute; reflexivity.
Defined.

(** X11: every component cell of the matrix the reshaping step returns is
    the number of rows of the merged table, as the step leaves it, that have
    the identifier and the month of the cell's row and the component of the
    cell's column and whose action is recorded. *)
Theorem reshape_cell_counts (h : heap) (m : ref) (df : DataFrame) (p : ref)
    (h' : heap) :
  h !! m = Some df → reshape_data m h = (Ok p, h') →
  ∃ df2 P,
    h' !! m = Some df2 ∧ h' !! p = Some P
    ∧ ∀ k c, (k < df_len P)%nat → c ∈ drop 2 (columns P) →
        cell P c k
        = Int (Z.of_nat (length (filter
                 (λ r, cell df2 USER_ID r = cell P USER_ID k
                       ∧ cell df2 MONTH r = cell P MONTH k
                       ∧ cell df2 COMPONENT r = c ∧ cell df2 ACTION r ≠ NaN)
                 (seq 0 (df_len df2))))).
Proof.
  intros Hm Hrun.
  destruct (reshape_data_Ok h m df p h' Hm Hrun)
    as (df2 & P & Hw & Hp & HP & Hm2).
  destruct (with_month_Ok df df2 Hw) as (Hlen & _).
  exists df2, P. split; [done|]. split; [done|]. intros k c Hk Hc.
  unfold columns in Hc. rewrite <- fmap_drop in Hc.
  apply list_elem_of_fmap in Hc as ([c' d] & -> & Hcd). cbn [fst].
  destruct (matrix_cell df df2 P k c' d Hw Hp Hk Hcd) as [_ Hcell].
  unfold cell at 1. rewrite (assoc_NoDup c' d).
  - cbv beta iota. rewrite Hcell. do 3 f_equal. rewrite Hlen.
    apply filter_ext_in. intros r Hr%elem_of_seq.
    destruct (with_month_row df df2 r Hw) as (-> & -> & -> & ->); [lia|].
    done.
  - by apply (NoDup_matrix_columns df2).
  - by eapply subseteq_drop.
Qed.

Lemma reshape_cell_counts_witness :
  ∃ df2 P,
    scenario_reshaped !! 4%nat = Some df2 ∧ scenario_reshaped !! 5%nat = Some P
    ∧ ∀ k c, (k < df_len P)%nat → c ∈ drop 2 (columns P) →
        cell P c k
        = Int (Z.of_nat (length (filter
                 (λ r, cell df2 USER_ID r = cell P USER_ID k
                       ∧ cell df2 MONTH r = cell P MONTH k
                       ∧ cell df2 COMPONENT r = c ∧ cell df2 ACTION r ≠ NaN)
                 (seq 0 (df_len df2))))).
Proof.
  apply (reshape_cell_counts scenario_cleaned 4%nat scenario_merged 5%nat
           scenario_reshaped); vm_compute; reflexivity.
Defined.

(** X12: the reshaping step works on the merged table it is given, not on a
    copy.  Whatever it answers, every other object of the store is kept as it
    was; and when it returns, the matrix is a new object and the merged table
    has been changed in place: it has the same rows, its [Date] cells hold
    dates (a missing date stays missing, a date stays as it is), it has a
    [Month] column with the months of those dates, and all its other cells
    are the same. *)
Theorem reshape_updates_argument (h : heap) (m : ref) (df : DataFrame)
    (r : result ref) (h' : heap) :
  h !! m = Some df → reshape_data m h = (r, h') →
  (∀ x X, x ≠ m → h !! x = Some X → h' !! x = Some X)
  ∧ ∀ p, r = Ok p →
      h !! p = None
      ∧ ∃ df2, h' !! m = Some df2
          ∧ df_len df2 = df_len df
          ∧ (∀ l, l ∈ columns df2 ↔ l ∈ columns df ∨ l = MONTH)
          ∧ (∀ i, (i < df_len df)%nat →
               is_date (cell df2 DATE i)
               ∧ (is_date (cell df DATE i) → cell df2 DATE i = cell df DATE i)
               ∧ cell df2 MONTH i = dt_month (cell df2 DATE i))
          ∧ ∀ l i, l ≠ DATE → l ≠ MONTH → cell df2 l i = cell df l i.
Proof.
  intros Hm Hrun. split.
  - intros x X Hx HX. exact (reshape_data_frame h m df r h' x X Hm Hrun Hx HX).
  - intros p ->.
    destruct (reshape_data_Ok h m df p h' Hm Hrun)
      as (df2 & P & Hw & Hp & HP & Hm2).
    split.
    { rewrite (reshape_data_run m h df Hm), Hw in Hrun. cbv zeta in Hrun.
      destruct (pivot_table df2 _ _ _); [|discriminate].
      destruct (reset_index _); [|discriminate].
      injection Hrun as <- _.
      pose proof (fresh_lookup (<[m := df2]> h)) as Hf.
      by apply lookup_insert_None in Hf as [Hf _]. }
    exists df2. split; [done|].
    destruct (with_month_Ok df df2 Hw) as (Hlen & _ & Hother & _).
    destruct (with_month_cells df df2 Hw) as (Hcols & Hcells).
    split; [done|]. split; [done|]. split; [|done].
    intros i Hi. destruct (Hcells i Hi) as [Hdate Hmonth].
    split; [by eapply to_datetime_cell_is_date|]. split; [|done].
    intros Hd. destruct (cell df DATE i); try done;
      cbn [to_datetime_cell] in Hdate; by injection Hdate as <-.
Qed.

Lemma reshape_updates_argument_witness :
  (∀ x X, x ≠ 4%nat → scenario_cleaned !! x = Some X →
     scenario_reshaped !! x = Some X)
  ∧ ∀ p, Ok 5%nat = Ok p →
      scenario_cleaned !! p = None
      ∧ ∃ df2, scenario_reshaped !! 4%nat = Some df2
          ∧ df_len df2 = df_len scenario_merged
          ∧ (∀ l, l ∈ columns df2 ↔ l ∈ columns scenario_merged ∨ l = MONTH)
          ∧ (∀ i, (i < df_len scenario_merged)%nat →
               is_date (cell df2 DATE i)
               ∧ (is_date (cell scenario_merged DATE i) →
                  cell df2 DATE i = cell scenario_merged DATE i)
               ∧ cell df2 MONTH i = dt_month (cell df2 DATE i))
          ∧ ∀ l i, l ≠ DATE → l ≠ MONTH →
              cell df2 l i = cell scenario_merged l i.
Proof.
  apply (reshape_updates_argument scenario_cleaned 4%nat scenario_merged
           (Ok 5%nat) scenario_reshaped); vm_compute; reflexivity.
Defined.

(** * Repeated user identifiers multiply the counts *)

(** C10, as the code has it: when the user table has no [Component],
    [Action] or [Date] column of its own, every kept activity row enters
    the merged table once per user row with its identifier; all the merged
    rows made of one activity row get the same month; and every component
    cell of the matrix is that number of user rows times the number of
    activity rows of the cell's user, month and component whose action is
    recorded. *)
Theorem duplicate_users_multiply (h : heap) (u a c : ref) (U A : DataFrame)
    (m : ref) (h1 : heap) (p : ref) (h2 : heap) :
  h !! u = Some U → h !! a = Some A →
  COMPONENT ∉ columns U → ACTION ∉ columns U → DATE ∉ columns U →
  clean_and_transform u a c h = (Ok m, h1) →
  reshape_data m h1 = (Ok p, h2) →
  ∃ M df2 P,
    h1 !! m = Some M ∧ h2 !! m = Some df2 ∧ h2 !! p = Some P
    ∧ df_len M = length (transform_indexers U A)
    ∧ (∀ r i j, transform_indexers U A !! r = Some (i, j) →
         row_at M r = row_at U i ++ activity_part A j)
    ∧ (∀ j, (j < df_len A)%nat → cell A COMPONENT j ∉ excluded →
         length (filter (λ ij : nat * nat, ij.2 = j) (transform_indexers U A))
         = occurrences U (identifier A j))
    ∧ (∀ r i j, transform_indexers U A !! r = Some (i, j) →
         cell df2 MONTH r = row_month (transform_indexers U A) df2 j)
    ∧ ∀ k comp d, (k < df_len P)%nat → (comp, d) ∈ drop 2 (df_cols P) →
        at_row k d
        = Int (Z.of_nat
                 (occurrences U (cell P USER_ID k)
                  * length (filter
                      (λ j, identifier A j = cell P USER_ID k
                            ∧ row_month (transform_indexers U A) df2 j
                              = cell P MONTH k
                            ∧ cell A COMPONENT j = comp
                            ∧ cell A ACTION j ≠ NaN)
                      (seq 0 (df_len A))))).
Proof.
  intros Hu Ha HUc HUa HUd Hclean Hreshape.
  destruct (merged_counts_by_text h u a c U A m h1 p h2 Hu Ha HUc HUa HUd
              Hclean Hreshape)
    as (M & P & Hm & HP & Hlen & Hrow & Hocc & Hcount).
  destruct (clean_and_transform_merged h u a c U A m h1 Hu Ha Hclean)
    as (M' & Hcomp & HM & Hm').
  assert (M' = M) as -> by congruence.
  destruct (reshape_data_Ok h1 m M p h2 Hm Hreshape)
    as (df2 & P' & Hw & Hp & HP' & Hm2).
  assert (P' = P) as -> by congruence.
  destruct (merged_rows U A M HM) as [_ Hrows].
  destruct (with_month_Ok M df2 Hw) as (_ & Hmonth & _).
  assert (Hrm : ∀ r i j, transform_indexers U A !! r = Some (i, j) →
            cell df2 MONTH r = month_of (cell A DATE j)).
  { intros r i j Hr.
    rewrite Hmonth by (rewrite Hlen; by eapply lookup_lt_Some).
    destruct (Hrows r i j Hr) as (_ & _ & _ & _ & _ & Hcell).
    pose proof (Hcell "Date"%string) as HD. fold DATE in HD.
    rewrite HD by (try (vm_compute; discriminate); done). done. }
  assert (Hfind : ∀ i j, (i, j) ∈ transform_indexers U A →
            row_month (transform_indexers U A) df2 j
            = month_of (cell A DATE j)).
  { intros i j Hin. unfold row_month.
    destruct (list_find _ _) as [[r [i' j']]|] eqn:E.
    - apply list_find_Some in E as (Hr & Hj & _). simpl in Hj. subst j'.
      by apply (Hrm r i').
    - apply list_find_None in E. rewrite Forall_forall in E.
      exfalso. by apply (E (i, j)). }
  exists M, df2, P. do 6 (split; [done|]). split.
  - intros r i j Hr. rewrite (Hrm r i j Hr). symmetry.
    apply (Hfind i). by eapply list_elem_of_lookup_2.
  - intros k comp d Hk Hcd. rewrite (Hcount k comp d Hk Hcd).
    destruct (matrix_cell M df2 P k comp d Hw Hp Hk Hcd)
      as [(r1 & Hr1 & Hc1) _].
    rewrite Hlen in Hr1. apply lookup_lt_is_Some in Hr1 as [[i1 j1] Hij1].
    destruct (Hrows r1 i1 j1 Hij1) as (_ & Hk1 & _ & _ & _ & Hcell1).
    apply elem_of_kept_positions in Hk1 as [_ Hex1].
    pose proof (Hcell1 "Component"%string) as HC1. fold COMPONENT in HC1.
    rewrite <- HC1, Hc1 in Hex1 by (try (vm_compute; discriminate); done).
    destruct (reshape_matrix M df2 P Hw Hp) as (_ & Hkeys & _).
    assert ((cell P USER_ID k, cell P MONTH k) ∈ matrix_keys P) as Hkey.
    { unfold matrix_keys. apply list_elem_of_fmap. exists k.
      split; [done|]. apply elem_of_seq. lia. }
    apply Hkeys in Hkey as (r0 & Hr0 & Hu0 & _).
    rewrite Hlen in Hr0. apply lookup_lt_is_Some in Hr0 as [[i0 j0] Hij0].
    destruct (Hrows r0 i0 j0 Hij0) as (Hi0 & _ & Hid0 & HcU0 & _).
    do 3 f_equal. unfold recorded_rows, component_rows.
    rewrite list_filter_filter. f_equal. apply filter_ext_in.
    intros j Hj%elem_of_seq.
    assert (identifier A j = cell P USER_ID k → cell A COMPONENT j = comp →
            row_month (transform_indexers U A) df2 j
            = month_of (cell A DATE j)) as Hj'.
    { intros Hidj Hcj. apply (Hfind i0).
      apply (elem_of_transform_indexers U A M i0 j Hcomp HM).
      split; [done|]. split; [lia|]. split; [by rewrite Hcj|].
      rewrite Hid0, <- HcU0, Hu0. done. }
    split.
    + intros (Ha' & Hid & Hmo & Hc'). by rewrite Hj'.
    + intros (Hid & Hmo & Hc' & Ha'). by rewrite <- Hj'.
Qed.

Lemma duplicate_users_multiply_witness :
  ∃ M df2 P,
    repeated_cleaned !! 4%nat = Some M ∧ repeated_reshaped !! 4%nat = Some df2
    ∧ repeated_reshaped !! 5%nat = Some P
    ∧ df_len M = length (transform_indexers repeated_users scenario_activity)
    ∧ (∀ r i j,
         transform_indexers repeated_users scenario_activity !! r = Some (i, j) →
         row_at M r = row_at repeated_users i ++ activity_part scenario_activity j)
    ∧ (∀ j, (j < df_len scenario_activity)%nat →
         cell scenario_activity COMPONENT j ∉ excluded →
         length (filter (λ ij : nat * nat, ij.2 = j)
                   (transform_indexers repeated_users scenario_activity))
         = occurrences repeated_users (identifier scenario_activity j))
    ∧ (∀ r i j,
         transform_indexers repeated_users scenario_activity !! r = Some (i, j) →
         cell df2 MONTH r
         = row_month (transform_indexers repeated_users scenario_activity) df2 j)
    ∧ ∀ k comp d, (k < df_len P)%nat → (comp, d) ∈ drop 2 (df_cols P) →
        at_row k d
        = Int (Z.of_nat
                 (occurrences repeated_users (cell P USER_ID k)
                  * length (filter
                      (λ j, identifier scenario_activity j = cell P USER_ID k
                            ∧ row_month
                                (transform_indexers repeated_users
                                   scenario_activity) df2 j
                              = cell P MONTH k
                            ∧ cell scenario_activity COMPONENT j = comp
                            ∧ cell scenario_activity ACTION j ≠ NaN)
                      (seq 0 (df_len scenario_activity))))).
Proof.
  apply (duplicate_users_multiply repeated_heap 0%nat 1%nat 2%nat
           repeated_users scenario_activity 4%nat repeated_cleaned 5%nat
           repeated_reshaped).
  - vm_compute; reflexivity.
  - vm_compute; reflexivity.
  - refine (bool_decide_unpack _ _). vm_compute. exact I.
  - refine (bool_decide_unpack _ _). vm_compute. exact I.
  - refine (bool_decide_unpack _ _). vm_compute. exact I.
  - vm_compute; reflexivity.
  - vm_compute; reflexivity.
Defined.
